(** * Weather-aware scheduling bot: routing rules, workflow and clarification contexts

    A shallow embedding of [main.py]: the intent and weather records, the two
    LangGraph routers, the seven workflow nodes, the compiled graph and the
    Telegram handler with its per-chat clarification contexts; then the body
    of the weather client over its two endpoints, and the key checks of
    [main] and of [setup.py].

    Conventions of the embedding.
    - A Python [str] is held as its UTF-8 bytes ([string]); a [str] with a
      lone surrogate has none and is outside the model. [len] counts
      characters, and [strip] and [split] know every blank of
      [str.isspace], inside ASCII or not. [lower] is only used to look for
      ASCII words, and finds them exactly where Python does. [title] is
      computed for an ASCII text and asked of the environment for any other.
    - [datetime.fromisoformat] is the parser of Python 3.11, the version
      that [setup.py] asks for, with its week dates, its basic formats and
      its offsets down to the microsecond.
    - Python [float] is the IEEE binary64 type of the kernel ([float]), so
      [<=], [>] and [-] are the machine operations, NaN included.
    - [dict] keyed by chat id is a [gmap Z _].
    - Calls that leave the process (the LLM, OpenWeatherMap, Google Calendar,
      the Telegram transport, the clock) are answered by an [Env] of oracles
      indexed by the number of effects performed so far, and every call is
      recorded in a trace, the newest event first. *)

From Stdlib Require Import ZArith List Bool Ascii String Floats Lia.
From Stdlib Require Import Numbers.DecimalString.
From stdpp Require Import base option gmap.
Import ListNotations.

#[local] Set Warnings "-inexact-float".

Open Scope string_scope.
Open Scope Z_scope.

(* ===================================================================== *)
(** ** Text *)
(* ===================================================================== *)

Module Str.

Definition nl : string := String (ascii_of_nat 10) EmptyString.

Definition is_upper (c : ascii) : bool :=
  (Nat.leb 65 (nat_of_ascii c) && Nat.leb (nat_of_ascii c) 90)%bool.

Definition is_lower (c : ascii) : bool :=
  (Nat.leb 97 (nat_of_ascii c) && Nat.leb (nat_of_ascii c) 122)%bool.

Definition is_alpha (c : ascii) : bool := (is_upper c || is_lower c)%bool.

Definition lower_char (c : ascii) : ascii :=
  if is_upper c then ascii_of_nat (nat_of_ascii c + 32) else c.

Definition upper_char (c : ascii) : ascii :=
  if is_lower c then ascii_of_nat (nat_of_ascii c - 32) else c.

(** *** Characters *)

(** The bytes 10xxxxxx, which continue a character. *)
Definition is_continuation (c : ascii) : bool :=
  (Nat.leb 128 (nat_of_ascii c) && Nat.leb (nat_of_ascii c) 191)%bool.

Definition starts_with_continuation (s : string) : bool :=
  match s with
  | String c _ => is_continuation c
  | EmptyString => false
  end.

(** The characters of a text, each with the bytes that encode it: a byte
    that continues a character is joined to the bytes before it. *)
Fixpoint chars (s : string) : list string :=
  match s with
  | EmptyString => []
  | String c r =>
      match chars r with
      | ch :: rest =>
          if starts_with_continuation r then String c ch :: rest
          else String c EmptyString :: ch :: rest
      | [] => [String c EmptyString]
      end
  end.

(** [len(s)]: the number of characters. *)
Definition len (s : string) : nat := List.length (chars s).

(** [s.isascii()] *)
Fixpoint isascii (s : string) : bool :=
  match s with
  | EmptyString => true
  | String c r => (Nat.ltb (nat_of_ascii c) 128 && isascii r)%bool
  end.

Definition bytes (l : list nat) : string :=
  string_of_list_ascii (map ascii_of_nat l).

(** The characters for which [str.isspace()] holds, which are the blanks of
    [str.strip()] and [str.split()]: U+0009 to U+000D, U+001C to U+0020,
    U+0085, U+00A0, U+1680, U+2000 to U+200A, U+2028, U+2029, U+202F,
    U+205F and U+3000. *)
Definition blanks : list string :=
  map bytes
    ([ [9]; [10]; [11]; [12]; [13]; [28]; [29]; [30]; [31]; [32];
      [194; 133]; [194; 160]; [225; 154; 128];
      [226; 128; 128]; [226; 128; 129]; [226; 128; 130]; [226; 128; 131];
      [226; 128; 132]; [226; 128; 133]; [226; 128; 134]; [226; 128; 135];
      [226; 128; 136]; [226; 128; 137]; [226; 128; 138];
      [226; 128; 168]; [226; 128; 169]; [226; 128; 175];
      [226; 129; 159]; [227; 128; 128] ])%nat.

Definition is_space (ch : string) : bool :=
  existsb (String.eqb ch) blanks.

(** [s.lower()] as far as ASCII letters go: the letters A to Z, and the two
    characters outside ASCII whose lower case has an ASCII letter, U+212A
    (the Kelvin sign, to k) and U+0130 (to i and U+0307). Any other
    character is left as it is, so the ASCII words found in the result are
    those found in Python's. *)
Fixpoint lower (s : string) : string :=
  match s with
  | EmptyString => EmptyString
  | String c r =>
      let plain := String (lower_char c) (lower r) in
      match r with
      | String c2 r2 =>
          if (Nat.eqb (nat_of_ascii c) 196 && Nat.eqb (nat_of_ascii c2) 176)%bool
          then String "i" (String (ascii_of_nat 204) (String (ascii_of_nat 135) (lower r2)))
          else
            match r2 with
            | String c3 r3 =>
                if (Nat.eqb (nat_of_ascii c) 226 && Nat.eqb (nat_of_ascii c2) 132
                    && Nat.eqb (nat_of_ascii c3) 170)%bool
                then String "k" (lower r3)
                else plain
            | EmptyString => plain
            end
      | EmptyString => plain
      end
  end.

(** [s.title()] for an ASCII text: a letter that follows a letter is
    lower-cased, any other letter is upper-cased. *)
Fixpoint title_from (after_letter : bool) (s : string) : string :=
  match s with
  | EmptyString => EmptyString
  | String c r =>
      String (if after_letter then lower_char c else upper_char c)
             (title_from (is_alpha c) r)
  end.

Definition title (s : string) : string := title_from false s.

(** [s.startswith(p)] *)
Fixpoint startswith (p s : string) : bool :=
  match p, s with
  | EmptyString, _ => true
  | String _ _, EmptyString => false
  | String a p', String b s' => (Ascii.eqb a b && startswith p' s')%bool
  end.

(** [needle in s] *)
Fixpoint contains (needle s : string) : bool :=
  (startswith needle s ||
   match s with
   | EmptyString => false
   | String _ r => contains needle r
   end)%bool.

(** [any(w in s for w in words)] *)
Definition any_in (words : list string) (s : string) : bool :=
  existsb (fun w => contains w s) words.

Fixpoint drop (n : nat) (s : string) : string :=
  match n, s with
  | O, _ => s
  | S _, EmptyString => EmptyString
  | S k, String _ r => drop k r
  end.

(** [s.replace(old, new)], scanning left to right without overlap; the
    fuel is the length of what is left to scan. *)
Fixpoint replace_fuel (fuel : nat) (old new s : string) : string :=
  match fuel with
  | O => s
  | S k =>
      match s with
      | EmptyString => EmptyString
      | String c r =>
          if (negb (String.eqb old EmptyString) && startswith old s)%bool
          then new ++ replace_fuel (k - (String.length old - 1)) old new
                                   (drop (String.length old) s)
          else String c (replace_fuel k old new r)
      end
  end.

Definition replace (old new s : string) : string :=
  replace_fuel (String.length s) old new s.

Fixpoint lstrip_chars (l : list string) : list string :=
  match l with
  | ch :: r => if is_space ch then lstrip_chars r else l
  | [] => []
  end.

Definition rstrip_chars (l : list string) : list string :=
  rev (lstrip_chars (rev l)).

(** [s.strip()] *)
Definition strip (s : string) : string :=
  String.concat "" (rstrip_chars (lstrip_chars (chars s))).

(** [s.split()]: the maximal runs of characters that are not blanks. [cur]
    is the run being read. *)
Fixpoint split_chars (cur : string) (l : list string) : list string :=
  let flush (k : list string) :=
    match cur with
    | EmptyString => k
    | _ => cur :: k
    end in
  match l with
  | [] => flush []
  | ch :: r =>
      if is_space ch then flush (split_chars "" r)
      else split_chars (cur ++ ch) r
  end.

Definition split (s : string) : list string := split_chars "" (chars s).

(** [str(n)] for an [int] *)
Definition of_Z (n : Z) : string := NilZero.string_of_int (Z.to_int n).

End Str.

(* ===================================================================== *)
(** ** Floats *)
(* ===================================================================== *)

Module Float.

(** [a <= b] and [a > b] on Python floats. *)
Definition le (a b : float) : bool := PrimFloat.leb a b.
Definition gt (a b : float) : bool := PrimFloat.ltb b a.
Definition lt (a b : float) : bool := PrimFloat.ltb a b.

(** [bool(x)]: zero of either sign is false, NaN is true. *)
Definition truthy (x : float) : bool := negb (PrimFloat.eqb x 0%float).

End Float.

(* ===================================================================== *)
(** ** Data models *)
(* ===================================================================== *)

(** [class IntentExtraction(BaseModel)] *)
Record IntentExtraction := {
  activity : string;
  datetime_str : string;
  location : option string;
  confidence : float;
  is_weather_query : bool;
  has_specific_time : bool
}.

(** [class WeatherData(BaseModel)] *)
Record WeatherData := {
  temperature : float;
  description : string;
  is_rainy : bool;
  humidity : Z;
  feels_like : option float
}.

(** [class AgentState(TypedDict)] *)
Record AgentState := {
  user_message : string;
  telegram_chat_id : Z;
  intent : option IntentExtraction;
  weather : option WeatherData;
  calendar_event_created : bool;
  response_message : string;
  needs_clarification : bool
}.

Definition set_intent (s : AgentState) (i : option IntentExtraction) : AgentState :=
  {| user_message := user_message s; telegram_chat_id := telegram_chat_id s;
     intent := i; weather := weather s;
     calendar_event_created := calendar_event_created s;
     response_message := response_message s;
     needs_clarification := needs_clarification s |}.

Definition set_weather (s : AgentState) (w : option WeatherData) : AgentState :=
  {| user_message := user_message s; telegram_chat_id := telegram_chat_id s;
     intent := intent s; weather := w;
     calendar_event_created := calendar_event_created s;
     response_message := response_message s;
     needs_clarification := needs_clarification s |}.

Definition set_calendar_event_created (s : AgentState) (b : bool) : AgentState :=
  {| user_message := user_message s; telegram_chat_id := telegram_chat_id s;
     intent := intent s; weather := weather s;
     calendar_event_created := b;
     response_message := response_message s;
     needs_clarification := needs_clarification s |}.

Definition set_response_message (s : AgentState) (m : string) : AgentState :=
  {| user_message := user_message s; telegram_chat_id := telegram_chat_id s;
     intent := intent s; weather := weather s;
     calendar_event_created := calendar_event_created s;
     response_message := m;
     needs_clarification := needs_clarification s |}.

Definition set_needs_clarification (s : AgentState) (b : bool) : AgentState :=
  {| user_message := user_message s; telegram_chat_id := telegram_chat_id s;
     intent := intent s; weather := weather s;
     calendar_event_created := calendar_event_created s;
     response_message := response_message s;
     needs_clarification := b |}.

(* ===================================================================== *)
(** ** Routing logic *)
(* ===================================================================== *)

(** The names given to [workflow.add_node], and LangGraph's [END]. Both
    routers return the name of the node to run next: the dictionaries given
    to [add_conditional_edges] map every label to the node of that name. *)
Inductive Node :=
| extract_intent
| check_weather
| weather_query
| create_event
| request_time_clarification
| request_clarification
| casual_conversation
| END.

Definition activity_is (i : IntentExtraction) (a : string) : bool :=
  String.eqb (activity i) a.

(** [def should_check_weather(state)] *)
Definition should_check_weather (state : AgentState) : Node :=
  match intent state with
  | Some i =>
      if (activity_is i "casual conversation" && Float.le (confidence i) 0.1)%bool
      then casual_conversation
      else if (Float.gt (confidence i) 0.5 &&
               negb (activity_is i "unknown" || activity_is i "casual conversation"))%bool
      then
        if is_weather_query i then weather_query
        else if negb (has_specific_time i) then request_time_clarification
        else check_weather
      else request_clarification
  | None => request_clarification
  end.

(** [def should_create_event(state)] *)
Definition should_create_event (state : AgentState) : Node :=
  match weather state with
  | Some w => if negb (is_rainy w) then create_event else request_clarification
  | None => request_clarification
  end.

(* ===================================================================== *)
(** ** Dates and times *)
(* ===================================================================== *)

(** The part of Python's [datetime] that the bot uses. A [datetime] is its
    fields; [tzinfo] is the UTC offset of an aware value, in microseconds. *)
Module Datetime.

Record date := { d_year : Z; d_month : Z; d_day : Z }.

Record datetime := {
  year : Z; month : Z; day : Z;
  hour : Z; minute : Z; second : Z; microsecond : Z;
  tzinfo : option Z
}.

Definition date_eqb (a b : date) : bool :=
  ((d_year a =? d_year b) && (d_month a =? d_month b) && (d_day a =? d_day b))%bool.

(** [dt.date()] *)
Definition date_of (dt : datetime) : date :=
  {| d_year := year dt; d_month := month dt; d_day := day dt |}.

(** [dt.replace(hour=h, minute=m, second=s, microsecond=us)] *)
Definition replace (dt : datetime) (h m s us : Z) : datetime :=
  {| year := year dt; month := month dt; day := day dt;
     hour := h; minute := m; second := s; microsecond := us;
     tzinfo := tzinfo dt |}.

Definition is_leap (y : Z) : bool :=
  ((y mod 4 =? 0) && (negb (y mod 100 =? 0) || (y mod 400 =? 0)))%bool.

Definition days_in_month (y m : Z) : Z :=
  if m =? 2 then (if is_leap y then 29 else 28)
  else if (m =? 4) || (m =? 6) || (m =? 9) || (m =? 11) then 30
  else 31.

Definition days_before_year (y : Z) : Z :=
  let p := y - 1 in p * 365 + p / 4 - p / 100 + p / 400.

Fixpoint days_before_month_nat (y : Z) (m : nat) : Z :=
  match m with
  | O => 0
  | S k => days_before_month_nat y k + days_in_month y (Z.of_nat (S k))
  end.

Definition days_before_month (y m : Z) : Z :=
  days_before_month_nat y (Z.to_nat (m - 1)).

(** [d.toordinal()]: 1 January of year 1 is day 1. *)
Definition toordinal (d : date) : Z :=
  days_before_year (d_year d) + days_before_month (d_year d) (d_month d) + d_day d.

(** [date.fromordinal(n)], with the arithmetic of CPython's [ord_to_ymd]:
    cycles of 400, 100, 4 and 1 years, then an estimate of the month that
    is at most one too large. *)
Definition fromordinal (ordinal : Z) : date :=
  let n := ordinal - 1 in
  let n400 := n / 146097 in
  let n := n mod 146097 in
  let n100 := n / 36524 in
  let n := n mod 36524 in
  let n4 := n / 1461 in
  let n := n mod 1461 in
  let n1 := n / 365 in
  let n := n mod 365 in
  let y := n400 * 400 + 1 + n100 * 100 + n4 * 4 + n1 in
  if (n1 =? 4) || (n100 =? 4) then
    {| d_year := y - 1; d_month := 12; d_day := 31 |}
  else
    let m := (n + 50) / 32 in
    let preceding := days_before_month y m in
    if n <? preceding then
      {| d_year := y; d_month := m - 1;
         d_day := n - (preceding - days_in_month y (m - 1)) + 1 |}
    else {| d_year := y; d_month := m; d_day := n - preceding + 1 |}.

(** [(a - b).days] for two dates *)
Definition days_between (a b : date) : Z := toordinal a - toordinal b.

(** [d.weekday()]: Monday is 0. *)
Definition weekday (d : date) : Z := (toordinal d + 6) mod 7.

Definition day_name (d : date) : string :=
  nth (Z.to_nat (weekday d))
      ["Monday"; "Tuesday"; "Wednesday"; "Thursday"; "Friday"; "Saturday"; "Sunday"]
      "".

Definition month_name (m : Z) : string :=
  nth (Z.to_nat (m - 1))
      ["January"; "February"; "March"; "April"; "May"; "June"; "July";
       "August"; "September"; "October"; "November"; "December"]
      "".

(** *** Decimal fields *)

Definition digit (n : Z) : ascii := ascii_of_nat (48 + Z.to_nat n).

Definition digits2 (n : Z) : list ascii := [digit (n / 10 mod 10); digit (n mod 10)].

Definition digits4 (n : Z) : list ascii :=
  [digit (n / 1000 mod 10); digit (n / 100 mod 10); digit (n / 10 mod 10); digit (n mod 10)].

Definition digits6 (n : Z) : list ascii :=
  [digit (n / 100000 mod 10); digit (n / 10000 mod 10); digit (n / 1000 mod 10);
   digit (n / 100 mod 10); digit (n / 10 mod 10); digit (n mod 10)].

(** *** [isoformat] *)

(** The offset as [utcoffset] is printed: [+HH:MM], with [:SS] when the
    offset has seconds or microseconds, and [.ffffff] when it has
    microseconds. *)
Definition tz_chars (tz : option Z) : list ascii :=
  match tz with
  | None => []
  | Some off =>
      let a := Z.abs off in
      let us := a mod 1000000 in
      let s := a / 1000000 in
      (if off <? 0 then "-"%char else "+"%char)
        :: digits2 (s / 3600) ++ ":"%char :: digits2 (s / 60 mod 60)
        ++ (if (us =? 0) && (s mod 60 =? 0) then []
            else ":"%char :: digits2 (s mod 60)
                   ++ (if us =? 0 then [] else "."%char :: digits6 us))
  end.

Definition isoformat_chars (dt : datetime) : list ascii :=
  digits4 (year dt) ++ "-"%char :: digits2 (month dt) ++ "-"%char :: digits2 (day dt)
    ++ "T"%char :: digits2 (hour dt) ++ ":"%char :: digits2 (minute dt)
    ++ ":"%char :: digits2 (second dt)
    ++ (if microsecond dt =? 0 then [] else "."%char :: digits6 (microsecond dt))
    ++ tz_chars (tzinfo dt).

(** [dt.isoformat()] *)
Definition isoformat (dt : datetime) : string :=
  string_of_list_ascii (isoformat_chars dt).

(** *** [fromisoformat] *)

Definition in_range (lo x hi : Z) : bool := ((lo <=? x) && (x <=? hi))%bool.

(** What the [datetime] and [timezone] constructors accept: a date that
    exists, a time of day, and an offset strictly between minus and plus 24
    hours. *)
Definition valid (dt : datetime) : bool :=
  (in_range 1 (year dt) 9999 && in_range 1 (month dt) 12
   && in_range 1 (day dt) (days_in_month (year dt) (month dt))
   && in_range 0 (hour dt) 23 && in_range 0 (minute dt) 59
   && in_range 0 (second dt) 59 && in_range 0 (microsecond dt) 999999
   && match tzinfo dt with
      | None => true
      | Some off => in_range (-86399999999) off 86399999999
      end)%bool.

(** [datetime.fromisoformat] is the one of Python 3.11, which reads the
    string as UTF-8 bytes, a NUL after the last one. The parser only tells
    the digits, eight other bytes, and for the separator the number of bytes
    of a character apart, so each byte is classified once. *)
Inductive Byte :=
| Digit (d : Z)
| Dash | Plus | Zed | Wchar | Colon | Dot | Comma | Nul
| Other (width : nat).

Definition classify (c : ascii) : Byte :=
  let n := nat_of_ascii c in
  if (Nat.leb 48 n && Nat.leb n 57)%bool then Digit (Z.of_nat n - 48)
  else if Nat.eqb n 45 then Dash
  else if Nat.eqb n 43 then Plus
  else if Nat.eqb n 90 then Zed
  else if Nat.eqb n 87 then Wchar
  else if Nat.eqb n 58 then Colon
  else if Nat.eqb n 46 then Dot
  else if Nat.eqb n 44 then Comma
  else if Nat.eqb n 0 then Nul
  else if Nat.ltb n 128 then Other 1
  else if (Nat.leb 224 n && Nat.leb n 239)%bool then Other 3
  else if Nat.leb 240 n then Other 4
  else Other 2.

(** [dtstr[i]]; past the end it is the NUL that ends the buffer. *)
Definition at_ (b : list Byte) (i : nat) : Byte := nth i b Nul.

Definition is_digit (x : Byte) : bool :=
  match x with Digit _ => true | _ => false end.

Definition is_dash (x : Byte) : bool :=
  match x with Dash => true | _ => false end.

Definition is_colon (x : Byte) : bool :=
  match x with Colon => true | _ => false end.

Definition is_nul (x : Byte) : bool :=
  match x with Nul => true | _ => false end.

(** [parse_digits(ptr, var, num_digits)]: the value and the position after
    the digits. *)
Fixpoint parse_digits (b : list Byte) (p num_digits : nat) (var : Z)
  : option (Z * nat) :=
  match num_digits with
  | O => Some (var, p)
  | S k =>
      match at_ b p with
      | Digit d => parse_digits b (S p) k (10 * var + d)
      | _ => None
      end
  end.

(** The first position from [idx] on that holds no digit. *)
Fixpoint skip_digits (b : list Byte) (idx fuel : nat) : nat :=
  match fuel with
  | O => idx
  | S k => if is_digit (at_ b idx) then skip_digits b (S idx) k else idx
  end.

(** [_find_isoformat_datetime_separator]: where the date ends, which is 7,
    8 or 10 by the fifth and sixth bytes; [None] for [YYYY-Www-] with
    nothing behind it, which no date parser accepts. *)
Definition find_separator (b : list Byte) : option nat :=
  let len := List.length b in
  if Nat.eqb len 7 then Some 7%nat
  else if is_dash (at_ b 4) then
    match at_ b 5 with
    | Wchar =>
        if (Nat.ltb 8 len && is_dash (at_ b 8))%bool then
          if Nat.eqb len 9 then None
          else if (Nat.ltb 10 len && is_digit (at_ b 10))%bool then Some 8%nat
          else Some 10%nat
        else Some 8%nat
    | _ => Some 10%nat
    end
  else
    match at_ b 4 with
    | Wchar =>
        let idx := skip_digits b 7 (len - 7) in
        if Nat.ltb idx 9 then Some idx
        else if Nat.even idx then Some 7%nat else Some 8%nat
    | _ => Some 8%nat
    end.

(** The Monday of ISO week 1 of a year, as an ordinal. *)
Definition iso_week1_monday (y : Z) : Z :=
  let first_day := toordinal {| d_year := y; d_month := 1; d_day := 1 |} in
  let first_weekday := (first_day + 6) mod 7 in
  let week1_monday := first_day - first_weekday in
  if 3 <? first_weekday then week1_monday + 7 else week1_monday.

(** [iso_to_ymd]: the date of a day of an ISO week; the result has to be a
    date of the years 1 to 9999. *)
Definition iso_to_ymd (y w d : Z) : option date :=
  if negb (in_range 1 y 9999) then None
  else
    let first_weekday := weekday {| d_year := y; d_month := 1; d_day := 1 |} in
    if (in_range 1 w 52
        || ((w =? 53)
            && ((first_weekday =? 3) || ((first_weekday =? 2) && is_leap y))))%bool
    then
      if in_range 1 d 7 then
        let ordinal := iso_week1_monday y + (w - 1) * 7 + d - 1 in
        if in_range 1 ordinal 3652059 then Some (fromordinal ordinal) else None
      else None
    else None.

(** [parse_isoformat_date]: [YYYY-MM-DD], [YYYYMMDD], and the week dates
    [YYYY-Www], [YYYY-Www-D], [YYYYWww] and [YYYYWwwD]. *)
Definition parse_isoformat_date (b : list Byte) (len : nat) : option date :=
  match parse_digits b 0 4 0 with
  | None => None
  | Some (y, p) =>
      let uses_separator := is_dash (at_ b p) in
      let p := if uses_separator then S p else p in
      match at_ b p with
      | Wchar =>
          match parse_digits b (S p) 2 0 with
          | None => None
          | Some (iso_week, p) =>
              if Nat.ltb p len then
                if (uses_separator && negb (is_dash (at_ b p)))%bool then None
                else
                  match parse_digits b (if uses_separator then S p else p) 1 0 with
                  | None => None
                  | Some (iso_day, _) => iso_to_ymd y iso_week iso_day
                  end
              else iso_to_ymd y iso_week 1
          end
      | _ =>
          match parse_digits b p 2 0 with
          | None => None
          | Some (m, p) =>
              if (uses_separator && negb (is_dash (at_ b p)))%bool then None
              else
                match parse_digits b (if uses_separator then S p else p) 2 0 with
                | None => None
                | Some (d, _) => Some {| d_year := y; d_month := m; d_day := d |}
                end
          end
      end
  end.

(** The fraction of [parse_hh_mm_ss_ff], from [p] on: at most six digits
    are read, further digits are skipped. The flag tells whether anything
    but the NUL follows. *)
Definition parse_fraction (b : list Byte) (p p_end : nat) (h m s : Z)
  : option (bool * (Z * Z * Z * Z)) :=
  let len_remains := (p_end - p)%nat in
  let to_parse := Nat.min len_remains 6 in
  match parse_digits b p to_parse 0 with
  | None => None
  | Some (us, p) =>
      let us := us * 10 ^ Z.of_nat (6 - to_parse) in
      let p := skip_digits b p (List.length b) in
      Some (negb (is_nul (at_ b p)), (h, m, s, us))
  end.

(** What follows the two digits of a component of [parse_hh_mm_ss_ff]. *)
Inductive After := Stop (rest : bool) | Next (p : nat) | Fraction (p : nat) | Malformed.

Definition after_component (b : list Byte) (p p_end : nat) (has_separator : bool)
  : After :=
  let c := at_ b p in
  if Nat.leb p_end (S p) then Stop (negb (is_nul c))
  else if (has_separator && is_colon c)%bool then Next (S p)
  else
    match c with
    | Dot | Comma => Fraction (S p)
    | _ => if has_separator then Malformed else Next p
    end.

(** [parse_hh_mm_ss_ff]: [HH], [HH:MM], [HH:MM:SS] or the same without the
    colons, and a fraction after a point or a comma. *)
Definition parse_hh_mm_ss_ff (b : list Byte) (p p_end : nat)
  : option (bool * (Z * Z * Z * Z)) :=
  match parse_digits b p 2 0 with
  | None => None
  | Some (h, p) =>
      let has_separator := is_colon (at_ b p) in
      match after_component b p p_end has_separator with
      | Malformed => None
      | Stop rest => Some (rest, (h, 0, 0, 0))
      | Fraction p => parse_fraction b p p_end h 0 0
      | Next p =>
          match parse_digits b p 2 0 with
          | None => None
          | Some (m, p) =>
              match after_component b p p_end has_separator with
              | Malformed => None
              | Stop rest => Some (rest, (h, m, 0, 0))
              | Fraction p => parse_fraction b p p_end h m 0
              | Next p =>
                  match parse_digits b p 2 0 with
                  | None => None
                  | Some (s, p) =>
                      match after_component b p p_end has_separator with
                      | Malformed => None
                      | Stop rest => Some (rest, (h, m, s, 0))
                      | Fraction p | Next p => parse_fraction b p p_end h m s
                      end
                  end
              end
          end
      end
  end.

Definition is_tz_start (x : Byte) : bool :=
  match x with Zed | Plus | Dash => true | _ => false end.

(** The position of the first [Z], [+] or [-] from [p] on, or a position
    that is not before [p_end]. *)
Fixpoint find_tz (b : list Byte) (p p_end fuel : nat) : nat :=
  match fuel with
  | O => p
  | S k =>
      if is_tz_start (at_ b p) then p
      else if Nat.ltb (S p) p_end then find_tz b (S p) p_end k else S p
  end.

(** The offset that [tzinfo_from_isoformat_results] builds: UTC when the
    seconds of the offset are zero, whatever its fraction. *)
Definition utcoffset (sign seconds microseconds : Z) : Z :=
  if seconds =? 0 then 0 else sign * (seconds * 1000000 + microseconds).

(** [parse_isoformat_time], from [p] to the end: the time of day and the
    offset, if any. What follows the time of day is checked only when there
    is no offset. *)
Definition parse_isoformat_time (b : list Byte) (p : nat)
  : option (Z * Z * Z * Z * option Z) :=
  let p_end := List.length b in
  let tzinfo_pos := find_tz b p p_end (S p_end) in
  match parse_hh_mm_ss_ff b p tzinfo_pos with
  | None => None
  | Some (rest, (h, m, s, us)) =>
      if Nat.eqb tzinfo_pos p_end then
        if rest then None else Some (h, m, s, us, None)
      else
        match at_ b tzinfo_pos with
        | Zed =>
            if is_nul (at_ b (S tzinfo_pos)) then Some (h, m, s, us, Some 0)
            else None
        | sign =>
            match parse_hh_mm_ss_ff b (S tzinfo_pos) p_end with
            | Some (false, (tzh, tzm, tzs, tzus)) =>
                Some (h, m, s, us,
                      Some (utcoffset (if is_dash sign then -1 else 1)
                                      (tzh * 3600 + tzm * 60 + tzs) tzus))
            | _ => None
            end
        end
  end.

(** The bytes of the character at the separator. *)
Definition width (x : Byte) : nat :=
  match x with Other n => n | _ => 1%nat end.

(** The parser proper, on the classified bytes. *)
Definition fromisoformat_bytes (b : list Byte) : option datetime :=
  match find_separator b with
  | None => None
  | Some separator_location =>
      match parse_isoformat_date b separator_location with
      | None => None
      | Some d =>
          match
            (if Nat.ltb separator_location (List.length b)
             then parse_isoformat_time b
                    (separator_location + width (at_ b separator_location))
             else Some (0, 0, 0, 0, None))
          with
          | None => None
          | Some (h, m, s, us, tz) =>
              let dt := {| year := d_year d; month := d_month d; day := d_day d;
                           hour := h; minute := m; second := s; microsecond := us;
                           tzinfo := tz |} in
              if valid dt then Some dt else None
          end
      end
  end.

(** [datetime.fromisoformat(s)]; [None] stands for [ValueError]. A string
    of fewer than seven characters is refused before it is read. *)
Definition fromisoformat (s : string) : option datetime :=
  if Nat.ltb (Str.len s) 7 then None
  else fromisoformat_bytes (map classify (list_ascii_of_string s)).

(** What [fromisoformat] makes of what [isoformat] prints: an offset of
    less than a second is read as UTC. *)
Definition read_back (dt : datetime) : datetime :=
  {| year := year dt; month := month dt; day := day dt;
     hour := hour dt; minute := minute dt; second := second dt;
     microsecond := microsecond dt;
     tzinfo :=
       match tzinfo dt with
       | Some off => Some (if Z.abs off <? 1000000 then 0 else off)
       | None => None
       end |}.

(** *** [strftime] *)

(** ["%d %B %Y"]; the year is printed without padding, as glibc does. *)
Definition strftime_date (dt : datetime) : string :=
  string_of_list_ascii (digits2 (day dt)) ++ " " ++ month_name (month dt)
    ++ " " ++ Str.of_Z (year dt).

(** ["%d %B %Y, %I:%M %p"] *)
Definition strftime_date_time (dt : datetime) : string :=
  let h12 := if hour dt mod 12 =? 0 then 12 else hour dt mod 12 in
  strftime_date dt ++ ", " ++ string_of_list_ascii (digits2 h12) ++ ":"
    ++ string_of_list_ascii (digits2 (minute dt)) ++ " "
    ++ (if hour dt <? 12 then "AM" else "PM").

End Datetime.

(* ===================================================================== *)
(** ** Utility functions *)
(* ===================================================================== *)

(** [datetime.fromisoformat(datetime_str.replace('Z', '+00:00'))] *)
Definition parse_datetime_str (datetime_str : string) : option Datetime.datetime :=
  Datetime.fromisoformat (Str.replace "Z" "+00:00" datetime_str).

(** [def format_datetime_human_readable(datetime_str)] *)
Definition format_datetime_human_readable (datetime_str : string) : string :=
  match parse_datetime_str datetime_str with
  | Some dt =>
      if ((Datetime.hour dt =? 0) && (Datetime.minute dt =? 0))%bool
      then Datetime.strftime_date dt
      else Str.replace " 0" " " (Datetime.strftime_date_time dt)
  | None => datetime_str
  end.

(* ===================================================================== *)
(** ** Response texts *)
(* ===================================================================== *)

(** The string literals and f-strings of the nodes and handlers, byte for
    byte as they stand in the source file. *)
Module Msg.

Definition weather_header (location_title : string) : string :=
  "üå§Ô∏è **Weather for " ++ location_title ++ "**" ++ Str.nl ++ Str.nl.

Definition temperature_line (temperature : string) : string :=
  "üå°Ô∏è **Temperature**: " ++ temperature ++ "¬∞C".

Definition feels_like_part (feels_like : string) : string :=
  " (feels like " ++ feels_like ++ "¬∞C)".

Definition conditions_line (description_title : string) : string :=
  Str.nl ++ "‚òÅÔ∏è **Conditions**: " ++ description_title ++ Str.nl.

Definition humidity_line (humidity : string) : string :=
  "üíß **Humidity**: " ++ humidity ++ "%" ++ Str.nl.

Definition advice_rainy : string :=
  Str.nl ++ "üåßÔ∏è **Advice**: It's rainy - bring an umbrella!".

Definition advice_hot : string :=
  Str.nl ++ "‚òÄÔ∏è **Advice**: It's quite hot - stay hydrated!".

Definition advice_cool : string :=
  Str.nl ++ "üß• **Advice**: It's cool - consider bringing a jacket!".

Definition advice_great : string :=
  Str.nl ++ "‚ú® **Advice**: Great weather for outdoor activities!".

Definition weather_query_not_understood : string :=
  "I couldn't understand your weather query. Please try again.".

Definition scheduled (activity : string) (formatted_time : string) : string :=
  "‚úÖ Great! I've scheduled '" ++ activity ++ "' for " ++ formatted_time ++
    ". The weather looks good!".

Definition calendar_failed : string :=
  "‚ùå Sorry, I couldn't create the calendar event. Please try again.".

Definition time_question (activity : string) (date_part : string) : string :=
  "‚è∞ I see you want to " ++ activity ++ " on " ++ date_part ++
    ", but what time would you prefer?" ++ Str.nl ++ Str.nl ++ "For example:" ++ Str.nl ++
    "‚Ä¢ '3pm'" ++ Str.nl ++ "‚Ä¢ '2:30 in the afternoon'" ++ Str.nl ++
    "‚Ä¢ '9 in the morning'" ++ Str.nl ++ "‚Ä¢ 'around lunchtime'".

Definition casual_greeting : string :=
  "Hello! üëã I'm your AI scheduling assistant. I can help you:" ++ Str.nl ++ Str.nl ++
    "üìÖ **Schedule activities** - Just tell me what you want to do and when!" ++ Str.nl ++
    "üå§Ô∏è **Check weather** - Ask about weather for any location" ++ Str.nl ++ Str.nl ++
    "**Examples:**" ++ Str.nl ++ "‚Ä¢ 'I want to go for a run tomorrow at 3pm'" ++ Str.nl ++
    "‚Ä¢ 'Schedule a meeting this Friday at 2pm'" ++ Str.nl ++
    "‚Ä¢ 'What's the weather like tomorrow?'" ++ Str.nl ++ Str.nl ++
    "How can I help you today?".

Definition casual_how_are_you : string :=
  "I'm doing great, thank you! üòä I'm here and ready to help you schedule activities and check the weather. What would you like to plan today?".

Definition casual_thanks : string :=
  "You're very welcome! üòä Feel free to ask me anytime if you need help scheduling activities or checking the weather!".

Definition casual_generic : string :=
  "I'm your AI scheduling assistant! ü§ñ I can help you schedule activities and check weather forecasts." ++
    Str.nl ++ Str.nl ++ "**Try asking me:**" ++ Str.nl ++
    "‚Ä¢ 'Schedule a workout tomorrow at 6pm'" ++ Str.nl ++
    "‚Ä¢ 'What's the weather like this weekend?'" ++ Str.nl ++
    "‚Ä¢ 'I want to have a picnic on Saturday'" ++ Str.nl ++ Str.nl ++
    "What would you like to plan?".

Definition unclear_intent : string :=
  "I'm not sure I understood what you'd like to do. Could you please be more specific?" ++
    Str.nl ++ Str.nl ++ "üìÖ **For scheduling:**" ++ Str.nl ++
    "‚Ä¢ 'I want to go for a run at 4pm this Saturday'" ++ Str.nl ++
    "‚Ä¢ 'Schedule a picnic tomorrow at 2pm'" ++ Str.nl ++
    "‚Ä¢ 'Plan a bike ride next Tuesday morning'" ++ Str.nl ++ Str.nl ++
    "üå§Ô∏è **For weather queries:**" ++ Str.nl ++
    "‚Ä¢ 'What's the weather like tomorrow?'" ++ Str.nl ++
    "‚Ä¢ 'How's the weather this Saturday 3pm?'".

Definition rainy_choices (weather_desc : string) (activity : string) (formatted_time : string) : string :=
  "üåßÔ∏è The weather forecast shows " ++ weather_desc ++ " for your planned " ++
    activity ++ " on " ++ formatted_time ++ ". Would you like to:" ++ Str.nl ++ Str.nl ++
    "1. Proceed anyway" ++ Str.nl ++ "2. Reschedule to a different time" ++ Str.nl ++
    "3. Cancel the activity" ++ Str.nl ++ Str.nl ++ "Please let me know what you'd prefer!".

Definition processing_error : string :=
  "Sorry, I encountered an error. Please try again.".

Definition combined_message (activity : string) (date_reference : string) (user_message : string) : string :=
  "I want to " ++ activity ++ " " ++ date_reference ++ " at " ++ user_message.

Definition time_not_understood : string :=
  "I couldn't understand the time. Could you please specify a time? For example:" ++
    Str.nl ++ "‚Ä¢ '3pm'" ++ Str.nl ++ "‚Ä¢ '2:30 in the afternoon'" ++ Str.nl ++
    "‚Ä¢ '9 in the morning'".

Definition time_trouble : string :=
  "Sorry, I had trouble understanding the time. Could you please try again?".

Definition scheduled_despite_weather (activity : string) (formatted_time : string) : string :=
  "‚úÖ Great! I've scheduled '" ++ activity ++ "' for " ++ formatted_time ++
    " despite the weather. Stay safe!".

Definition reschedule_prompt : string :=
  "I'd be happy to help you reschedule! Please tell me when you'd prefer to do this activity instead.".

Definition cancelled (activity : string) : string :=
  "No problem! I've cancelled your " ++ activity ++
    " plan. Let me know if you'd like to schedule something else!".

Definition choices_not_understood : string :=
  "I didn't quite understand. Please choose:" ++ Str.nl ++ Str.nl ++ "1. Proceed anyway" ++
    Str.nl ++ "2. Reschedule to a different time" ++ Str.nl ++ "3. Cancel the activity" ++
    Str.nl ++ Str.nl ++ "Or just type 'proceed', 'reschedule', or 'cancel'.".

End Msg.

(* ===================================================================== *)
(** ** Effects *)
(* ===================================================================== *)

(** The value of [context["waiting_for"]]. *)
Inductive WaitingFor := time_clarification | weather_clarification.

(** One entry of [self.conversation_context]; [ctx_weather] is the
    ["weather"] key, which a time clarification does not have. *)
Record Context := {
  original_intent : IntentExtraction;
  ctx_weather : option WeatherData;
  waiting_for : WaitingFor;
  timestamp : float
}.

(** What a turn does that can be seen from outside. *)
Inductive Event :=
| LLMCall (message : string)
| ForecastCall (datetime_str location : string)
| CalendarCall (i : option IntentExtraction)
| ReplyText (chat_id : Z) (text : string)
| Visit (n : Node).

(** [conversation_context] is [self.conversation_context]; [trace] holds the
    events so far, the newest first. *)
Record World := {
  conversation_context : gmap Z Context;
  trace : list Event
}.

Inductive Exn := ValueError | AttributeError | KeyError | GraphRecursionError.

Inductive Result (A : Type) :=
| Returned (a : A)
| Raised (e : Exn).
Arguments Returned {A} a.
Arguments Raised {A} e.

(** A computation reads and updates the world and returns or raises. *)
Definition M (A : Type) : Type := World -> Result A * World.

Definition ret {A} (a : A) : M A := fun w => (Returned a, w).

Definition bind {A B} (c : M A) (k : A -> M B) : M B :=
  fun w =>
    match c w with
    | (Returned a, w') => k a w'
    | (Raised e, w') => (Raised e, w')
    end.

Notation "'let*' x := c 'in' k" := (bind c (fun x => k))
  (at level 10, x name, c at level 100, k at level 200).

Definition raise {A} (e : Exn) : M A := fun w => (Raised e, w).

(** [try: body  except Exception: handler] *)
Definition try_except {A} (body : M A) (handler : Exn -> M A) : M A :=
  fun w =>
    match body w with
    | (Returned a, w') => (Returned a, w')
    | (Raised e, w') => handler e w'
    end.

Definition emit (e : Event) : M unit :=
  fun w => (Returned tt,
            {| conversation_context := conversation_context w;
               trace := e :: trace w |}).

(** The number of effects so far: the index at which the oracles are asked. *)
Definition ticks : M nat := fun w => (Returned (List.length (trace w)), w).

Definition get_contexts : M (gmap Z Context) :=
  fun w => (Returned (conversation_context w), w).

Definition set_contexts (m : gmap Z Context) : M unit :=
  fun w => (Returned tt, {| conversation_context := m; trace := trace w |}).

(** [self.conversation_context[chat_id] = c] *)
Definition put_context (chat_id : Z) (c : Context) : M unit :=
  let* m := get_contexts in set_contexts (<[chat_id := c]> m).

(** [del self.conversation_context[chat_id]] *)
Definition del_context (chat_id : Z) : M unit :=
  let* m := get_contexts in
  match m !! chat_id with
  | Some _ => set_contexts (delete chat_id m)
  | None => raise KeyError
  end.

(** The world outside the process. Each oracle is asked with the number of
    effects performed before the call, so two calls with the same arguments
    may be answered differently. *)
Record Env := {
  (** [llm.ainvoke] followed by [parser.parse]; [None] when either raises *)
  llm : nat -> string -> option IntentExtraction;
  (** the requests to OpenWeatherMap and the choice of the forecast;
      [None] when anything in them raises *)
  openweathermap : nat -> string -> string -> option WeatherData;
  (** authentication, payload and [events().insert] of Google Calendar *)
  google_calendar : nat -> IntentExtraction -> bool;
  (** [time.time()] *)
  time_time : nat -> float;
  (** [datetime.now()] *)
  datetime_now : nat -> Datetime.datetime;
  (** [str(x)] for a float, as an f-string prints it *)
  float_str : float -> string;
  (** [s.title()] for a text with characters outside ASCII *)
  str_title : string -> string
}.

(** [s.title()]: computed for an ASCII text, asked of the environment for a
    text with other characters, whose cases follow the Unicode tables. *)
Definition title (E : Env) (s : string) : string :=
  if Str.isascii s then Str.title s else str_title E s.

(* ===================================================================== *)
(** ** API clients *)
(* ===================================================================== *)

Module GeminiClient.

(** The intent returned from the [except] branch. *)
Definition fallback_intent (now : Datetime.datetime) : IntentExtraction :=
  {| activity := "unknown";
     datetime_str := Datetime.isoformat now;
     location := None;
     confidence := 0.0;
     is_weather_query := false;
     has_specific_time := false |}.

(** What [extract_intent] returns when it is called after [t] effects. *)
Definition answer (E : Env) (t : nat) (user_message : string) : IntentExtraction :=
  match llm E t user_message with
  | Some i => i
  | None => fallback_intent (datetime_now E t)
  end.

(** [async def extract_intent(self, user_message)] *)
Definition extract_intent (E : Env) (user_message : string) : M IntentExtraction :=
  let* t := ticks in
  let* _ := emit (LLMCall user_message) in
  ret (answer E t user_message).

End GeminiClient.

Module WeatherClient.

(** The weather returned from the [except] branch. *)
Definition fallback_weather : WeatherData :=
  {| temperature := 25.0;
     description := "clear sky";
     is_rainy := false;
     humidity := 70;
     feels_like := Some 27.0%float |}.

(** What [get_weather_forecast] returns when it is called after [t] effects. *)
Definition forecast (E : Env) (t : nat) (datetime_str location : string) : WeatherData :=
  match openweathermap E t datetime_str location with
  | Some w => w
  | None => fallback_weather
  end.

(** [async def get_weather_forecast(self, datetime_str, location)] *)
Definition get_weather_forecast (E : Env) (datetime_str location : string)
  : M WeatherData :=
  let* t := ticks in
  let* _ := emit (ForecastCall datetime_str location) in
  ret (forecast E t datetime_str location).

End WeatherClient.

Module GoogleCalendarClient.

(** [async def create_event(self, intent)]. The node may pass [None]:
    reading [intent.datetime_str] then raises inside the [try], and the
    method returns [False]. *)
Definition create_event (E : Env) (i : option IntentExtraction) : M bool :=
  let* t := ticks in
  let* _ := emit (CalendarCall i) in
  ret (match i with
       | Some i => google_calendar E t i
       | None => false
       end).

End GoogleCalendarClient.

(** [update.message.reply_text(text)] *)
Definition reply_text (chat_id : Z) (text : string) : M unit :=
  emit (ReplyText chat_id text).

(* ===================================================================== *)
(** ** LangGraph agent nodes *)
(* ===================================================================== *)

(** [state["intent"].attr] when the intent may be [None] *)
Definition the_intent (state : AgentState) : M IntentExtraction :=
  match intent state with
  | Some i => ret i
  | None => raise AttributeError
  end.

(** [x or "Singapore"] for an optional string *)
Definition or_singapore (x : option string) : string :=
  match x with
  | Some s => if String.eqb s "" then "Singapore" else s
  | None => "Singapore"
  end.

(** [async def extract_intent_node(state)] *)
Definition extract_intent_node (E : Env) (state : AgentState) : M AgentState :=
  let* i := GeminiClient.extract_intent E (user_message state) in
  ret (set_intent state (Some i)).

(** [async def check_weather_node(state)] *)
Definition check_weather_node (E : Env) (state : AgentState) : M AgentState :=
  match intent state with
  | None => ret (set_weather state None)
  | Some i =>
      let location := or_singapore (location i) in
      let* w := WeatherClient.get_weather_forecast E (datetime_str i) location in
      ret (set_weather state (Some w))
  end.

(** The advice line of [weather_query_node]. *)
Definition weather_advice (w : WeatherData) : string :=
  if is_rainy w then Msg.advice_rainy
  else if Float.gt (temperature w) 30 then Msg.advice_hot
  else if Float.lt (temperature w) 20 then Msg.advice_cool
  else Msg.advice_great.

(** The lines of [weather_query_node] before the advice. *)
Definition weather_report (E : Env) (location : string) (w : WeatherData) : string :=
  Msg.weather_header (title E location)
    ++ Msg.temperature_line (float_str E (temperature w))
    ++ match feels_like w with
       | Some f => if Float.truthy f then Msg.feels_like_part (float_str E f) else ""
       | None => ""
       end
    ++ Msg.conditions_line (title E (description w))
    ++ Msg.humidity_line (Str.of_Z (humidity w)).

(** [async def weather_query_node(state)] *)
Definition weather_query_node (E : Env) (state : AgentState) : M AgentState :=
  match intent state with
  | None => ret (set_response_message state Msg.weather_query_not_understood)
  | Some i =>
      let location := or_singapore (location i) in
      let* w := WeatherClient.get_weather_forecast E (datetime_str i) location in
      let state := set_weather state (Some w) in
      let response := weather_report E location w ++ weather_advice w in
      ret (set_response_message state response)
  end.

(** [async def create_calendar_event_node(state)] *)
Definition create_calendar_event_node (E : Env) (state : AgentState) : M AgentState :=
  let* success := GoogleCalendarClient.create_event E (intent state) in
  let state := set_calendar_event_created state success in
  if success then
    let* i := the_intent state in
    let formatted_time := format_datetime_human_readable (datetime_str i) in
    ret (set_response_message state (Msg.scheduled (activity i) formatted_time))
  else ret (set_response_message state Msg.calendar_failed).

(** [async def request_time_clarification_node(state)] *)
Definition request_time_clarification_node (state : AgentState) : M AgentState :=
  let* i := the_intent state in
  let date_part := format_datetime_human_readable (datetime_str i) in
  let state := set_response_message state (Msg.time_question (activity i) date_part) in
  ret (set_needs_clarification state true).

(** The reply of [casual_conversation_node]. *)
Definition casual_response (user_message : string) : string :=
  let user_message_lower := Str.lower user_message in
  if Str.any_in ["hello"; "hi"; "hey"; "good morning"; "good afternoon"; "good evening"]
                user_message_lower
  then Msg.casual_greeting
  else if Str.any_in ["how are you"; "what's up"; "how's it going"] user_message_lower
  then Msg.casual_how_are_you
  else if Str.any_in ["thank"; "thanks"; "appreciate"] user_message_lower
  then Msg.casual_thanks
  else Msg.casual_generic.

(** [async def casual_conversation_node(state)] *)
Definition casual_conversation_node (state : AgentState) : M AgentState :=
  ret (set_response_message state (casual_response (user_message state))).

(** The reply of [request_clarification_node]: the first branch when the
    intent is missing or unclear, the rainy-weather question otherwise. *)
Definition clarification_response (state : AgentState) : string :=
  match intent state with
  | None => Msg.unclear_intent
  | Some i =>
      if (Float.le (confidence i) 0.5 || activity_is i "unknown")%bool
      then Msg.unclear_intent
      else
        let weather_desc :=
          match weather state with Some w => description w | None => "rainy" end in
        let formatted_time := format_datetime_human_readable (datetime_str i) in
        Msg.rainy_choices weather_desc (activity i) formatted_time
  end.

(** [async def request_clarification_node(state)] *)
Definition request_clarification_node (state : AgentState) : M AgentState :=
  let state := set_response_message state (clarification_response state) in
  ret (set_needs_clarification state true).

(* ===================================================================== *)
(** ** LangGraph workflow *)
(* ===================================================================== *)

(** A compiled [StateGraph]: the entry point, the function of every node and
    the edge that leaves it. *)
Record StateGraph := {
  entry_point : Node;
  node_fn : Node -> AgentState -> M AgentState;
  edge : Node -> AgentState -> Node
}.

(** [def create_agent_workflow()] *)
Definition create_agent_workflow (E : Env) : StateGraph :=
  {| entry_point := extract_intent;
     node_fn := fun n =>
       match n with
       | extract_intent => extract_intent_node E
       | check_weather => check_weather_node E
       | weather_query => weather_query_node E
       | create_event => create_calendar_event_node E
       | request_time_clarification => request_time_clarification_node
       | request_clarification => request_clarification_node
       | casual_conversation => casual_conversation_node
       | END => ret
       end;
     edge := fun n state =>
       match n with
       | extract_intent => should_check_weather state
       | check_weather => should_create_event state
       | create_event | weather_query | request_time_clarification
       | request_clarification | casual_conversation | END => END
       end |}.

(** LangGraph's default [recursion_limit]. *)
Definition recursion_limit : nat := 25.

Definition is_END (n : Node) : bool :=
  match n with END => true | _ => false end.

(** The run of a graph from node [n]: the node is run on the state, then
    the edge that leaves it is followed, until [END]. More steps than the
    recursion limit raise [GraphRecursionError]. *)
Fixpoint run_from (g : StateGraph) (fuel : nat) (n : Node) (state : AgentState)
  : M AgentState :=
  if is_END n then ret state
  else
    match fuel with
    | O => raise GraphRecursionError
    | S k =>
        let* _ := emit (Visit n) in
        let* state' := node_fn g n state in
        run_from g k (edge g n state') state'
    end.

(** [await workflow.ainvoke(initial_state)] *)
Definition ainvoke (g : StateGraph) (initial_state : AgentState) : M AgentState :=
  run_from g recursion_limit (entry_point g) initial_state.

(* ===================================================================== *)
(** ** Telegram bot *)
(* ===================================================================== *)

Module TelegramBot.

(** [current_time - context.get("timestamp", 0) > 600] *)
Definition expired (current_time : float) (context : Context) : bool :=
  Float.gt (PrimFloat.sub current_time (timestamp context)) 600.

(** The first loop of [cleanup_old_contexts]. *)
Definition expired_chats (current_time : float) (contexts : gmap Z Context)
  : list Z :=
  (List.filter (fun kv => expired current_time (snd kv)) (map_to_list contexts)).*1.

(** [def cleanup_old_contexts(self)] *)
Definition cleanup_old_contexts (E : Env) : M unit :=
  let* t := ticks in
  let current_time := time_time E t in
  let* contexts := get_contexts in
  set_contexts
    (foldl (fun m chat_id => delete chat_id m) contexts
           (expired_chats current_time contexts)).

Definition make_state (user_message : string) (chat_id : Z)
    (i : option IntentExtraction) : AgentState :=
  {| user_message := user_message;
     telegram_chat_id := chat_id;
     intent := i;
     weather := None;
     calendar_event_created := false;
     response_message := "";
     needs_clarification := false |}.

(** [final_state["weather"] and final_state["weather"].is_rainy] *)
Definition weather_is_rainy (state : AgentState) : bool :=
  match weather state with
  | Some w => is_rainy w
  | None => false
  end.

(** [async def handle_weather_clarification_response(self, update,
    user_message, chat_id, context)] *)
Definition handle_weather_clarification_response (E : Env)
    (user_message : string) (chat_id : Z) (context : Context) : M unit :=
  let user_message_lower := Str.lower user_message in
  let finish (response : string) : M unit :=
    let* _ := del_context chat_id in
    reply_text chat_id response in
  if Str.any_in ["1"; "proceed"; "yes"; "continue"; "anyway"] user_message_lower then
    let* success :=
      GoogleCalendarClient.create_event E (Some (original_intent context)) in
    if success then
      let formatted_time :=
        format_datetime_human_readable (datetime_str (original_intent context)) in
      finish (Msg.scheduled_despite_weather
                (activity (original_intent context)) formatted_time)
    else finish Msg.calendar_failed
  else if Str.any_in ["2"; "reschedule"; "different"; "later"; "change"]
                     user_message_lower then
    finish Msg.reschedule_prompt
  else if Str.any_in ["3"; "cancel"; "no"; "don't"; "skip"] user_message_lower then
    finish (Msg.cancelled (activity (original_intent context)))
  else
    reply_text chat_id Msg.choices_not_understood.

(** The word that stands for the original date in the combined message. *)
Definition date_reference (original_date : Datetime.datetime)
    (today : Datetime.date) : string :=
  let original_date_only := Datetime.date_of original_date in
  if Datetime.date_eqb original_date_only today then "today"
  else if Datetime.days_between original_date_only today =? 1 then "tomorrow"
  else if Datetime.days_between original_date_only today =? -1 then "yesterday"
  else Datetime.day_name original_date_only.

Definition set_datetime_str (i : IntentExtraction) (s : string) : IntentExtraction :=
  {| activity := activity i; datetime_str := s; location := location i;
     confidence := confidence i; is_weather_query := is_weather_query i;
     has_specific_time := has_specific_time i |}.

(** The date fix of [handle_time_clarification_response]: when the date of
    the re-extracted intent is not the original one, its [datetime_str] is
    overwritten with the original date at the new hour and minute. *)
Definition preserve_original_date (original_date updated_datetime : Datetime.datetime)
    (updated_intent : IntentExtraction) : IntentExtraction :=
  if negb (Datetime.date_eqb (Datetime.date_of updated_datetime)
                             (Datetime.date_of original_date))
  then
    let corrected_datetime :=
      Datetime.replace original_date (Datetime.hour updated_datetime)
                       (Datetime.minute updated_datetime) 0 0 in
    set_datetime_str updated_intent (Datetime.isoformat corrected_datetime)
  else updated_intent.

(** What [handle_time_clarification_response] does with the final state of
    the resumed run: a rainy outcome is stored as a weather clarification
    and any other outcome clears the entry, then the response is sent. The
    intent of the final state is always set by then; [AttributeError] stands
    for the case in which it is not. *)
Definition settle_resumed_run (E : Env) (chat_id : Z) (final_state : AgentState)
  : M unit :=
  let* _ :=
    (if (needs_clarification final_state && weather_is_rainy final_state)%bool
     then
       match intent final_state, weather final_state with
       | Some i, Some w =>
           let* t := ticks in
           put_context chat_id
             {| original_intent := i;
                ctx_weather := Some w;
                waiting_for := weather_clarification;
                timestamp := time_time E t |}
       | _, _ => raise AttributeError
       end
     else del_context chat_id) in
  reply_text chat_id (response_message final_state).

(** The [if] branch of [handle_time_clarification_response] once the intent
    is settled: [self.agent_workflow] is invoked on a state that holds it,
    and the final state is dealt with. *)
Definition resume_scheduling_with (agent_workflow : StateGraph) (E : Env)
    (combined_message : string) (chat_id : Z) (updated_intent : IntentExtraction)
  : M unit :=
  let initial_state := make_state combined_message chat_id (Some updated_intent) in
  let* final_state := ainvoke agent_workflow initial_state in
  settle_resumed_run E chat_id final_state.

(** The same for the bot as [__init__] builds it, whose [agent_workflow] is
    [create_agent_workflow()]. *)
Definition resume_scheduling (E : Env) (combined_message : string) (chat_id : Z)
    (updated_intent : IntentExtraction) : M unit :=
  resume_scheduling_with (create_agent_workflow E) E combined_message chat_id
    updated_intent.

(** [async def handle_time_clarification_response(self, update,
    user_message, chat_id, context)], for a bot whose [self.agent_workflow]
    is [agent_workflow]. *)
Definition handle_time_clarification_response_with (agent_workflow : StateGraph)
    (E : Env) (user_message : string) (chat_id : Z) (context : Context) : M unit :=
  let original_intent := original_intent context in
  match parse_datetime_str (datetime_str original_intent) with
  | None => raise ValueError
  | Some original_date =>
      let* t := ticks in
      let today := Datetime.date_of (datetime_now E t) in
      let combined_message :=
        Msg.combined_message (activity original_intent)
          (date_reference original_date today) user_message in
      try_except
        (let* updated_intent := GeminiClient.extract_intent E combined_message in
         if (has_specific_time updated_intent
             && Float.gt (confidence updated_intent) 0.7)%bool
         then
           match parse_datetime_str (datetime_str updated_intent) with
           | None => raise ValueError
           | Some updated_datetime =>
               resume_scheduling_with agent_workflow E combined_message chat_id
                 (preserve_original_date original_date updated_datetime updated_intent)
           end
         else reply_text chat_id Msg.time_not_understood)
        (fun _ => reply_text chat_id Msg.time_trouble)
  end.

(** The handler of the bot as [__init__] builds it. *)
Definition handle_time_clarification_response (E : Env)
    (user_message : string) (chat_id : Z) (context : Context) : M unit :=
  handle_time_clarification_response_with (create_agent_workflow E) E user_message
    chat_id context.

(** [async def handle_clarification_response(self, update, user_message,
    chat_id)] *)
Definition handle_clarification_response (E : Env)
    (user_message : string) (chat_id : Z) : M unit :=
  let* contexts := get_contexts in
  match contexts !! chat_id with
  | None => raise KeyError
  | Some context =>
      match waiting_for context with
      | time_clarification =>
          handle_time_clarification_response E user_message chat_id context
      | weather_clarification =>
          handle_weather_clarification_response E user_message chat_id context
      end
  end.

Definition scheduling_keywords : list string :=
  ["want"; "schedule"; "plan"; "book"; "at"; "tomorrow"; "today"; "this"; "next"].

(** The test of [handle_message] for a new request while a clarification
    is pending. *)
Definition looks_like_new_request (user_message : string) : bool :=
  (Str.any_in scheduling_keywords (Str.lower user_message)
   && Nat.ltb 3 (List.length (Str.split user_message)))%bool.

(** The [if final_state["needs_clarification"] and final_state["intent"]]
    block of [handle_message]. *)
Definition store_clarification_context (E : Env) (chat_id : Z)
    (final_state : AgentState) : M unit :=
  match intent final_state with
  | Some i =>
      if needs_clarification final_state then
        if (Float.gt (confidence i) 0.5 && negb (has_specific_time i))%bool then
          let* t := ticks in
          put_context chat_id
            {| original_intent := i;
               ctx_weather := None;
               waiting_for := time_clarification;
               timestamp := time_time E t |}
        else
          match weather final_state with
          | Some w =>
              if (Float.gt (confidence i) 0.5 && is_rainy w)%bool then
                let* t := ticks in
                put_context chat_id
                  {| original_intent := i;
                     ctx_weather := Some w;
                     waiting_for := weather_clarification;
                     timestamp := time_time E t |}
              else ret tt
          | None => ret tt
          end
      else ret tt
  | None => ret tt
  end.

(** The part of [handle_message] after the pending clarification, if any,
    has been dealt with: a fresh run of the workflow. *)
Definition run_new_request (E : Env) (user_message : string) (chat_id : Z) : M unit :=
  let initial_state := make_state user_message chat_id None in
  try_except
    (let* final_state := ainvoke (create_agent_workflow E) initial_state in
     let* _ := store_clarification_context E chat_id final_state in
     reply_text chat_id (response_message final_state))
    (fun _ => reply_text chat_id Msg.processing_error).

(** The part of [handle_message] that follows the sweep: the message
    answers a pending clarification, or it is a request of its own. *)
Definition dispatch (E : Env) (user_message : string) (chat_id : Z) : M unit :=
  let* contexts := get_contexts in
  match contexts !! chat_id with
  | Some _ =>
      if looks_like_new_request user_message then
        let* _ := del_context chat_id in
        run_new_request E user_message chat_id
      else handle_clarification_response E user_message chat_id
  | None => run_new_request E user_message chat_id
  end.

(** [async def handle_message(self, update, context)]. [text] is
    [update.message.text], [None] when the update carries no message. *)
Definition handle_message (E : Env) (chat_id : Z) (text : option string) : M unit :=
  match text with
  | None => ret tt
  | Some text =>
      if String.eqb text "" then ret tt
      else
        let user_message := Str.strip text in
        if Nat.ltb (Str.len user_message) 2 then ret tt
        else
          let* _ := cleanup_old_contexts E in
          dispatch E user_message chat_id
  end.

End TelegramBot.

(* ===================================================================== *)
(** ** Inside the weather client *)
(* ===================================================================== *)

(** The body of the [try] of [WeatherClient.get_weather_forecast]. The two
    GET requests are oracles; what the method does around them is modelled:
    the parsing of the target, the difference to [datetime.now()], the
    choice between the forecast and the current weather, and the record it
    builds. *)
Module OpenWeatherMap.

(** The fields read from a forecast entry, or from the current weather:
    [main.temp], [weather[0].description], [main.humidity] and
    [main.get("feels_like")]. *)
Record Reading := {
  main_temp : float;
  weather_description : string;
  main_humidity : Z;
  main_feels_like : option float
}.

Definition rainy_words : list string := ["rain"; "drizzle"; "shower"].

(** [any(word in weather_desc for word in ["rain", "drizzle", "shower"])]
    for [weather_desc = description.lower()] *)
Definition is_rainy_description (description : string) : bool :=
  Str.any_in rainy_words (Str.lower description).

(** [WeatherData(temperature=..., description=..., is_rainy=is_rainy,
    humidity=..., feels_like=...)] *)
Definition weather_data (r : Reading) : WeatherData :=
  {| temperature := main_temp r;
     description := weather_description r;
     is_rainy := is_rainy_description (weather_description r);
     humidity := main_humidity r;
     feels_like := main_feels_like r |}.

(** The endpoints. [closest_forecast target location] is the GET of
    [/forecast] and the loop that keeps the entry closest to the target:
    [None] when the request or the decoding raises, [Some None] when the
    list is empty. [current_weather location] is the GET of [/weather]:
    [None] when it raises. *)
Record Api := {
  closest_forecast : Datetime.datetime -> string -> option (option Reading);
  current_weather : string -> option Reading
}.

(** The microseconds from the start of day 0 to a date and time, its offset
    left aside. *)
Definition microseconds_of (dt : Datetime.datetime) : Z :=
  ((Datetime.toordinal (Datetime.date_of dt) * 86400
    + Datetime.hour dt * 3600 + Datetime.minute dt * 60 + Datetime.second dt)
   * 1000000) + Datetime.microsecond dt.

Definition microseconds_per_day : Z := 86400000000.

(** [(a - b).days]. Two naive values are subtracted as they stand, two
    aware ones after their offsets are taken off; [None] stands for the
    [TypeError] of subtracting a naive and an aware one. *)
Definition days_between (a b : Datetime.datetime) : option Z :=
  match Datetime.tzinfo a, Datetime.tzinfo b with
  | None, None => Some ((microseconds_of a - microseconds_of b) / microseconds_per_day)
  | Some oa, Some ob =>
      Some (((microseconds_of a - oa) - (microseconds_of b - ob))
            / microseconds_per_day)
  | _, _ => None
  end.

(** The body of the [try]; [None] stands for any exception. *)
Definition try_body (api : Api) (current_dt : Datetime.datetime)
    (datetime_str location : string) : option WeatherData :=
  match parse_datetime_str datetime_str with
  | None => None
  | Some target_dt =>
      match days_between target_dt current_dt with
      | None => None
      | Some days =>
          let current := option_map weather_data (current_weather api location) in
          if days <=? 5 then
            match closest_forecast api target_dt location with
            | None => None
            | Some (Some r) => Some (weather_data r)
            | Some None => current
            end
          else current
      end
  end.

(** The environment [E] with its [openweathermap] oracle given by the body
    of the [try] over the endpoints [api]. *)
Definition env_with (api : nat -> Api) (E : Env) : Env :=
  {| llm := llm E;
     openweathermap := fun t datetime_str location =>
       try_body (api t) (datetime_now E t) datetime_str location;
     google_calendar := google_calendar E;
     time_time := time_time E;
     datetime_now := datetime_now E;
     float_str := float_str E;
     str_title := str_title E |}.

End OpenWeatherMap.

(* ===================================================================== *)
(** ** Start-up checks *)
(* ===================================================================== *)

(** The process environment: [os.getenv]. *)
Definition Environ : Type := string -> option string.

(** [bool(os.getenv(var))]: unset and empty are both false. *)
Definition getenv_truthy (environ : Environ) (var : string) : bool :=
  match environ var with
  | Some value => negb (String.eqb value "")
  | None => false
  end.

Module MainPy.

Definition required_vars : list string :=
  ["TELEGRAM_BOT_TOKEN"; "GEMINI_API_KEY"; "OPENWEATHER_API_KEY"].

(** [[var for var in required_vars if not os.getenv(var)]] *)
Definition missing_vars (environ : Environ) : list string :=
  List.filter (fun var => negb (getenv_truthy environ var)) required_vars.

(** [def main()]: the token the bot is started with, or [None] when [main]
    returns after reporting the missing variables. *)
Definition main (environ : Environ) : option string :=
  match missing_vars environ with
  | [] => environ "TELEGRAM_BOT_TOKEN"
  | _ :: _ => None
  end.

End MainPy.

Module SetupPy.

Definition required_keys : list (string * string) :=
  [ ("TELEGRAM_BOT_TOKEN", "Telegram Bot");
    ("GEMINI_API_KEY", "Gemini AI");
    ("OPENWEATHER_API_KEY", "OpenWeatherMap") ].

(** [not value or value.startswith("your_")] *)
Definition not_configured (environ : Environ) (key : string) : bool :=
  match environ key with
  | Some value => (String.eqb value "" || Str.startswith "your_" value)%bool
  | None => true
  end.

(** The names collected in [missing_keys]. *)
Definition missing_keys (environ : Environ) : list string :=
  map snd (List.filter (fun kn => not_configured environ (fst kn)) required_keys).

(** [def check_api_keys()]; [dotenv_installed] is false when the import of
    [dotenv] raises [ImportError]. *)
Definition check_api_keys (dotenv_installed : bool) (environ : Environ) : bool :=
  if dotenv_installed then
    match missing_keys environ with
    | [] => true
    | _ :: _ => false
    end
  else false.

End SetupPy.


(* ===================================================================== *)
(** * Vocabulary of the properties *)
(* ===================================================================== *)

(** ** The routing rule of the specification *)

(** The intent is a casual one: the first test of the router. *)
Definition casual (i : IntentExtraction) : Prop :=
  activity i = "casual conversation" /\ Float.le (confidence i) 0.1 = true.

(** The intent is clear: the second test of the router. *)
Definition clear (i : IntentExtraction) : Prop :=
  Float.gt (confidence i) 0.5 = true
  /\ activity i <> "unknown" /\ activity i <> "casual conversation".

(** The routing rule as the specification words it, each [else] written
    out as the negation of the tests before it. *)
Inductive routeAfterExtraction : option IntentExtraction -> Node -> Prop :=
| route_absent :
    routeAfterExtraction None request_clarification
| route_casual i :
    casual i ->
    routeAfterExtraction (Some i) casual_conversation
| route_weather_query i :
    ~ casual i -> clear i -> is_weather_query i = true ->
    routeAfterExtraction (Some i) weather_query
| route_time_clarification i :
    ~ casual i -> clear i -> is_weather_query i = false ->
    has_specific_time i = false ->
    routeAfterExtraction (Some i) request_time_clarification
| route_check_weather i :
    ~ casual i -> clear i -> is_weather_query i = false ->
    has_specific_time i = true ->
    routeAfterExtraction (Some i) check_weather
| route_unclear i :
    ~ casual i -> ~ clear i ->
    routeAfterExtraction (Some i) request_clarification.

(** ** Runs and what they leave behind *)

(** The world after the events [evs], the newest first, have been recorded. *)
Definition log (evs : list Event) (w : World) : World :=
  {| conversation_context := conversation_context w; trace := evs ++ trace w |}.

(** The intent that [extract_intent_node] puts in the state when the
    workflow is invoked on [state] in the world [w]. *)
Definition extracted (E : Env) (state : AgentState) (w : World) : IntentExtraction :=
  GeminiClient.answer E (S (List.length (trace w))) (user_message state).

(** The weather that a node fetches for the intent [i] in the world [w],
    the visit of the node being the last event. *)
Definition fetched (E : Env) (i : IntentExtraction) (w : World) : WeatherData :=
  WeatherClient.forecast E (S (List.length (trace w))) (datetime_str i)
    (or_singapore (location i)).

(** The answer of Google Calendar to the node that is visited in [w]. *)
Definition inserted (E : Env) (i : IntentExtraction) (w : World) : bool :=
  google_calendar E (S (List.length (trace w))) i.

(** ** Example worlds *)

(** A world in which the LLM answers every message with the intent [i], the
    forecast is [wd] and the calendar accepts every event. *)
Definition constant_env (i : IntentExtraction) (wd : WeatherData) : Env :=
  {| llm := fun _ _ => Some i;
     openweathermap := fun _ _ _ => Some wd;
     google_calendar := fun _ _ => true;
     time_time := fun _ => 1000000%float;
     datetime_now := fun _ =>
       {| Datetime.year := 2025; Datetime.month := 5; Datetime.day := 27;
          Datetime.hour := 9; Datetime.minute := 30; Datetime.second := 0;
          Datetime.microsecond := 0; Datetime.tzinfo := None |};
     float_str := fun _ => "25.0";
     str_title := fun s => s |}.

Definition clear_sky : WeatherData :=
  {| temperature := 25.0; description := "clear sky"; is_rainy := false;
     humidity := 70; feels_like := Some 27.0%float |}.

Definition empty_world : World := {| conversation_context := ∅; trace := [] |}.

(** An intent that the LLM is unsure about. *)
Definition unsure_intent : IntentExtraction :=
  {| activity := "run"; datetime_str := "2025-05-28T15:00:00"; location := None;
     confidence := 0.25; is_weather_query := false; has_specific_time := true |}.

(** A greeting, as the extraction prompt asks the LLM to report it. *)
Definition greeting_intent : IntentExtraction :=
  {| activity := "casual conversation"; datetime_str := "2025-05-27T09:30:00";
     location := None; confidence := 0.0; is_weather_query := false;
     has_specific_time := false |}.

(** C1 as the specification states it: every intent of confidence at most
    0.5, or of activity "unknown", ends the run with [needs_clarification]. *)
Definition low_confidence_always_clarifies : Prop :=
  forall (E : Env) (state : AgentState) (w : World),
    Float.le (confidence (extracted E state w)) 0.5 = true
    \/ activity (extracted E state w) = "unknown" ->
    exists final_state w',
      ainvoke (create_agent_workflow E) state w = (Returned final_state, w')
      /\ needs_clarification final_state = true.

(** The event is a call of the calendar or a visit of [create_event]. *)
Definition schedules (e : Event) : bool :=
  match e with
  | CalendarCall _ | Visit create_event => true
  | _ => false
  end.

(** The intent of "what's the weather like?". *)
Definition weather_intent : IntentExtraction :=
  {| activity := "weather query"; datetime_str := "2025-05-27T09:30:00";
     location := None; confidence := 0.875; is_weather_query := true;
     has_specific_time := false |}.

(** The world after the sweep at [w]. *)
Definition swept (E : Env) (w : World) : World :=
  {| conversation_context :=
       foldl (fun m chat_id => delete chat_id m) (conversation_context w)
         (TelegramBot.expired_chats (time_time E (List.length (trace w)))
            (conversation_context w));
     trace := trace w |}.

(** The state that [handle_message] gives to the workflow, after
    [extract_intent_node] has run in the world [w]. *)
Definition request_state (E : Env) (user_message : string) (chat_id : Z)
    (w : World) : AgentState :=
  TelegramBot.make_state user_message chat_id
    (Some (GeminiClient.answer E (S (List.length (trace w))) user_message)).

(** The entry that [handle_message] stores for the intent [i]. *)
Definition stored (E : Env) (kind : WaitingFor) (i : IntentExtraction) (wd : option WeatherData)
    (t : nat) : Context :=
  {| original_intent := i; ctx_weather := wd; waiting_for := kind;
     timestamp := time_time E t |}.

(** The nodes visited, the first one first. *)
Definition visited (events : list Event) : list Node :=
  rev (omap (fun e => match e with Visit n => Some n | _ => None end) events).

(** The intents given to the calendar, the first one first. *)
Definition calendar_calls (events : list Event) : list IntentExtraction :=
  rev (omap (fun e => match e with CalendarCall (Some i) => Some i | _ => None end)
            events).

(** The forecasts asked for, the first one first. *)
Definition forecast_calls (events : list Event) : list (string * string) :=
  rev (omap (fun e => match e with ForecastCall d l => Some (d, l) | _ => None end)
            events).

(** A message that the LLM reports, with confidence, as a casual
    conversation. *)
Definition confident_casual_intent : IntentExtraction :=
  {| activity := "casual conversation"; datetime_str := "2025-05-27T09:30:00";
     location := None; confidence := 0.875; is_weather_query := false;
     has_specific_time := false |}.

(** The entry that asks the user of chat 7 at what time to run on
    2025-05-28. *)
Definition pending_run : Context :=
  {| original_intent :=
       {| activity := "run"; datetime_str := "2025-05-28"; location := None;
          confidence := 0.875; is_weather_query := false;
          has_specific_time := false |};
     ctx_weather := None;
     waiting_for := time_clarification;
     timestamp := 999900%float |}.

Definition world_with_pending_run : World :=
  {| conversation_context := {[ 7 := pending_run ]}; trace := [] |}.

(** What the LLM makes of "I want to run tomorrow at 6pm": the right time
    on another day. *)
Definition run_at_six_on_the_27th : IntentExtraction :=
  {| activity := "run"; datetime_str := "2025-05-27T18:00:00"; location := None;
     confidence := 0.875; is_weather_query := false; has_specific_time := true |}.

(** ** Replies to the rainy-weather question *)

(** What a reply to the three-choice question asks for. *)
Inductive Choice := Proceed | Reschedule | Cancel | Unrecognized.

(** The three keyword sets in the order in which the handler tests them. *)
Definition keyword_sets : list (list string * Choice) :=
  [ (["1"; "proceed"; "yes"; "continue"; "anyway"], Proceed);
    (["2"; "reschedule"; "different"; "later"; "change"], Reschedule);
    (["3"; "cancel"; "no"; "don't"; "skip"], Cancel) ].

(** The choice of the first set one of whose keywords is a substring of the
    lower-cased reply. *)
Definition classify (reply : string) : Choice :=
  match List.find (fun set => Str.any_in (fst set) (Str.lower reply)) keyword_sets with
  | Some (_, choice) => choice
  | None => Unrecognized
  end.

(** The set of keywords of a choice. *)
Definition keywords (choice : Choice) : list string :=
  match List.find (fun set => match snd set, choice with
                              | Proceed, Proceed | Reschedule, Reschedule
                              | Cancel, Cancel => true
                              | _, _ => false
                              end) keyword_sets with
  | Some (words, _) => words
  | None => []
  end.

(** What the handler does for each choice, with the pending entry of the
    chat in place. *)
Definition weather_reply_outcome (E : Env) (choice : Choice) (chat_id : Z)
    (context : Context) (w : World) : Result unit * World :=
  let i := original_intent context in
  match choice with
  | Proceed =>
      (Returned tt,
       {| conversation_context := delete chat_id (conversation_context w);
          trace :=
            ReplyText chat_id
              (if google_calendar E (List.length (trace w)) i
               then Msg.scheduled_despite_weather (activity i)
                      (format_datetime_human_readable (datetime_str i))
               else Msg.calendar_failed)
            :: CalendarCall (Some i) :: trace w |})
  | Reschedule =>
      (Returned tt,
       {| conversation_context := delete chat_id (conversation_context w);
          trace := ReplyText chat_id Msg.reschedule_prompt :: trace w |})
  | Cancel =>
      (Returned tt,
       {| conversation_context := delete chat_id (conversation_context w);
          trace := ReplyText chat_id (Msg.cancelled (activity i)) :: trace w |})
  | Unrecognized =>
      (Returned tt,
       {| conversation_context := conversation_context w;
          trace := ReplyText chat_id Msg.choices_not_understood :: trace w |})
  end.

(** A rainy forecast and the entry that asks the user of chat 7 whether to
    run all the same. *)
Definition light_rain : WeatherData :=
  {| temperature := 24.5; description := "light rain"; is_rainy := true;
     humidity := 88; feels_like := Some 25.0%float |}.

Definition pending_rain : Context :=
  {| original_intent :=
       {| activity := "run"; datetime_str := "2025-05-28T18:00:00"; location := None;
          confidence := 0.875; is_weather_query := false; has_specific_time := true |};
     ctx_weather := Some light_rain;
     waiting_for := weather_clarification;
     timestamp := 999900%float |}.

Definition world_with_pending_rain : World :=
  {| conversation_context := {[ 7 := pending_rain ]}; trace := [] |}.

(** The text on which a time reply is re-extracted in the world [w]. *)
Definition combined_message_of (E : Env) (user_message : string) (context : Context)
    (original_date : Datetime.datetime) (w : World) : string :=
  Msg.combined_message (activity (original_intent context))
    (TelegramBot.date_reference original_date
       (Datetime.date_of (datetime_now E (List.length (trace w)))))
    user_message.

(** ** Shapes of runs *)

(** The messages given to the LLM, the first one first. *)
Definition llm_calls (events : list Event) : list string :=
  rev (omap (fun e => match e with LLMCall m => Some m | _ => None end) events).

(** The replies sent, the first one first. *)
Definition replies (events : list Event) : list (Z * string) :=
  rev (omap (fun e => match e with ReplyText c t => Some (c, t) | _ => None end)
            events).

(** The six paths of the compiled graph. *)
Definition workflow_paths : list (list Node) :=
  [ [extract_intent; casual_conversation];
    [extract_intent; weather_query];
    [extract_intent; request_time_clarification];
    [extract_intent; request_clarification];
    [extract_intent; check_weather; create_event];
    [extract_intent; check_weather; request_clarification] ].

(** The four replies of [casual_conversation_node]. *)
Definition casual_replies : list string :=
  [Msg.casual_greeting; Msg.casual_how_are_you; Msg.casual_thanks; Msg.casual_generic].

(** The intent asks, clearly and with a time of day, to schedule something:
    the tests that lead the router to [check_weather]. *)
Definition schedulable (i : IntentExtraction) : Prop :=
  Float.gt (confidence i) 0.5 = true
  /\ activity i <> "unknown" /\ activity i <> "casual conversation"
  /\ is_weather_query i = false /\ has_specific_time i = true.

(** The words of the first test of [casual_conversation_node]. *)
Definition greeting_words : list string :=
  ["hello"; "hi"; "hey"; "good morning"; "good afternoon"; "good evening"].

(** The world [w] without the entry of [chat_id]. *)
Definition without_context (chat_id : Z) (w : World) : World :=
  {| conversation_context := delete chat_id (conversation_context w);
     trace := trace w |}.

(** The intent that a time reply is re-extracted to in the world [w]. *)
Definition reextracted (E : Env) (user_message : string) (context : Context)
    (original_date : Datetime.datetime) (w : World) : IntentExtraction :=
  GeminiClient.answer E (List.length (trace w))
    (combined_message_of E user_message context original_date w).

(** ** Conversations *)

(** The computation changes no entry but that of [chat_id]. *)
Definition touches_only {A : Type} (chat_id : Z) (c : M A) : Prop :=
  forall (w : World) (k : Z),
    k <> chat_id ->
    conversation_context (snd (c w)) !! k = conversation_context w !! k.

(** The update carries no text, or fewer than two characters once the
    blanks at its ends are stripped. *)
Definition too_short (text : option string) : Prop :=
  match text with
  | Some text => (Str.len (Str.strip text) < 2)%nat
  | None => True
  end.

(** ** Further example worlds *)

(** What the LLM makes of "run tomorrow at 6pm" on 2025-05-27. *)
Definition run_at_six_on_the_28th : IntentExtraction :=
  {| activity := "run"; datetime_str := "2025-05-28T18:00:00"; location := None;
     confidence := 0.875; is_weather_query := false; has_specific_time := true |}.

(** The same request with the offset of Singapore in its [datetime_str]. *)
Definition run_at_six_singapore_time : IntentExtraction :=
  {| activity := "run"; datetime_str := "2025-05-28T18:00:00+08:00"; location := None;
     confidence := 0.875; is_weather_query := false; has_specific_time := true |}.

(** A request whose time the LLM reports in words. *)
Definition run_at_a_vague_time : IntentExtraction :=
  {| activity := "run"; datetime_str := "tomorrow evening"; location := None;
     confidence := 0.875; is_weather_query := false; has_specific_time := true |}.

(** A request whose day the LLM reports in words, without a time. *)
Definition run_on_a_vague_day : IntentExtraction :=
  {| activity := "run"; datetime_str := "tomorrow"; location := None;
     confidence := 0.875; is_weather_query := false; has_specific_time := false |}.

(** The world of [constant_env] with the forecast provider down. *)
Definition forecast_outage_env (i : IntentExtraction) : Env :=
  {| llm := llm (constant_env i clear_sky);
     openweathermap := fun _ _ _ => None;
     google_calendar := google_calendar (constant_env i clear_sky);
     time_time := time_time (constant_env i clear_sky);
     datetime_now := datetime_now (constant_env i clear_sky);
     float_str := float_str (constant_env i clear_sky);
     str_title := str_title (constant_env i clear_sky) |}.


(** The entry of [pending_run], asked 1000 seconds before the clock of
    [constant_env]. *)
Definition stale_pending_run : Context :=
  {| original_intent := original_intent pending_run;
     ctx_weather := None;
     waiting_for := time_clarification;
     timestamp := 999000%float |}.

Definition world_with_stale_run : World :=
  {| conversation_context := {[ 7 := stale_pending_run ]}; trace := [] |}.

(** A time clarification stored for an intent whose day is not an ISO
    date. *)
Definition pending_vague_day : Context :=
  {| original_intent := run_on_a_vague_day;
     ctx_weather := None;
     waiting_for := time_clarification;
     timestamp := 999900%float |}.

Definition world_with_vague_day : World :=
  {| conversation_context := {[ 7 := pending_vague_day ]}; trace := [] |}.

(** Chat 7 waits for a time and chat 8 for a choice. *)
Definition world_with_two_chats : World :=
  {| conversation_context := <[ 8 := pending_rain ]> {[ 7 := pending_run ]};
     trace := [] |}.

(** Midnight and thirty seconds on 2025-05-28. *)
Definition just_after_midnight : Datetime.datetime :=
  {| Datetime.year := 2025; Datetime.month := 5; Datetime.day := 28;
     Datetime.hour := 0; Datetime.minute := 0; Datetime.second := 30;
     Datetime.microsecond := 0; Datetime.tzinfo := None |}.

(** Noon on a day of June 2025. *)
Definition noon_in_june (day : Z) : Datetime.datetime :=
  {| Datetime.year := 2025; Datetime.month := 6; Datetime.day := day;
     Datetime.hour := 12; Datetime.minute := 0; Datetime.second := 0;
     Datetime.microsecond := 0; Datetime.tzinfo := None |}.

(** Endpoints that report showers in the forecast and a clear sky now. *)
Definition showers_ahead : OpenWeatherMap.Api :=
  {| OpenWeatherMap.closest_forecast := fun _ _ =>
       Some (Some {| OpenWeatherMap.main_temp := 24.5;
                     OpenWeatherMap.weather_description := "Light Showers";
                     OpenWeatherMap.main_humidity := 88;
                     OpenWeatherMap.main_feels_like := None |});
     OpenWeatherMap.current_weather := fun _ =>
       Some {| OpenWeatherMap.main_temp := 31.5;
               OpenWeatherMap.weather_description := "few clouds";
               OpenWeatherMap.main_humidity := 60;
               OpenWeatherMap.main_feels_like := Some 35.5%float |} |}.

(** An environment with the three keys set. *)
Definition configured_environ : Environ := fun var =>
  if String.eqb var "TELEGRAM_BOT_TOKEN" then Some "123456:token"
  else if String.eqb var "GEMINI_API_KEY" then Some "gemini-key"
  else if String.eqb var "OPENWEATHER_API_KEY" then Some "openweather-key"
  else None.

(** The environment that [load_dotenv] gives from the file that
    [create_env_file] writes, when none of the variables is set otherwise. *)
Definition placeholder_environ : Environ := fun var =>
  if String.eqb var "TELEGRAM_BOT_TOKEN" then Some "your_telegram_bot_token_here"
  else if String.eqb var "GEMINI_API_KEY" then Some "your_gemini_api_key_here"
  else if String.eqb var "OPENWEATHER_API_KEY" then Some "your_openweather_api_key_here"
  else None.

(** Closes a goal of concrete data by evaluation. *)
Ltac by_evaluation :=
  repeat split;
  try (intros Habsurd; vm_compute in Habsurd; discriminate Habsurd);
  vm_compute; reflexivity.


(** A workflow of one node that answers with the [datetime_str] of the
    intent it is invoked with. *)
Definition echo_datetime_str : StateGraph :=
  {| entry_point := casual_conversation;
     node_fn := fun _ state =>
       ret (set_response_message state
              match intent state with
              | Some i => datetime_str i
              | None => ""
              end);
     edge := fun _ _ => END |}.

(** ** Reading back what [isoformat] prints *)

(** A digit that was read from a byte is between 0 and 9. *)
Definition digit_in_range (x : Datetime.Byte) : Prop :=
  match x with Datetime.Digit d => 0 <= d <= 9 | _ => True end.

(** The fields that [parse_hh_mm_ss_ff] returns. *)
Definition time_in_range (t : Z * Z * Z * Z) : Prop :=
  let '(h, m, s, us) := t in 0 <= h /\ 0 <= m /\ 0 <= s /\ 0 <= us <= 999999.

(** Spells out the bytes of a printed date and time and classifies those
    that are not digits. *)
Ltac spell_bytes :=
  cbn [map app Datetime.isoformat_chars Datetime.tz_chars Datetime.digits2
       Datetime.digits4 Datetime.digits6].

Ltac classify_bytes :=
  repeat match goal with
         | |- context [Datetime.classify ?c] =>
             lazymatch c with
             | Datetime.digit _ => fail
             | _ => let k := eval vm_compute in (Datetime.classify c) in
                    change (Datetime.classify c) with k
             end
         end.

(** Runs the parser on bytes that are spelled out. *)
Ltac run_parser :=
  cbn [Datetime.fromisoformat_bytes Datetime.find_separator
       Datetime.parse_isoformat_date Datetime.parse_isoformat_time
       Datetime.parse_hh_mm_ss_ff Datetime.parse_fraction Datetime.after_component
       Datetime.parse_digits Datetime.skip_digits Datetime.find_tz Datetime.at_ nth
       List.length Datetime.width Datetime.is_digit Datetime.is_dash
       Datetime.is_colon Datetime.is_nul Datetime.is_tz_start
       Nat.eqb Nat.ltb Nat.leb Nat.even Nat.min Nat.sub Nat.add andb orb negb
       Datetime.d_year Datetime.d_month Datetime.d_day].

(* ===================================================================== *)
(** * Properties *)
(* ===================================================================== *)

(** ** Comparisons of floats *)

Section FloatOrder.

Lemma SFcompare_swap (x y : spec_float) :
  SFcompare y x = option_map CompOpp (SFcompare x y).
Proof.
  destruct x as [sx | sx | | sx mx ex], y as [sy | sy | | sy my ey]; simpl;
    try reflexivity;
    try (destruct sx; reflexivity); try (destruct sy; reflexivity);
    try (destruct sx, sy; reflexivity).
  destruct sx, sy; simpl; try reflexivity;
    rewrite (Z.compare_antisym ex ey);
    destruct (ex ?= ey)%Z; simpl; try reflexivity;
    rewrite ?CompOpp_involutive, ?(Pos.compare_cont_antisym mx my Eq),
      ?(Pos.compare_cont_antisym my mx Eq); reflexivity.
Qed.

(** [a <= b] excludes [a > b]. *)
Lemma le_not_gt (a b : float) : Float.le a b = true -> Float.gt a b = false.
Proof.
  unfold Float.le, Float.gt. rewrite leb_spec, ltb_spec.
  unfold SFleb, SFltb. rewrite (SFcompare_swap (Prim2SF a) (Prim2SF b)).
  destruct (SFcompare (Prim2SF a) (Prim2SF b)) as [[ | | ] | ]; simpl; congruence.
Qed.

(** [a > b] excludes [a <= b]. *)
Lemma gt_not_le (a b : float) : Float.gt a b = true -> Float.le a b = false.
Proof.
  intros H. destruct (Float.le a b) eqn:Hle; [ | reflexivity ].
  apply le_not_gt in Hle. congruence.
Qed.

(** [a > b] excludes [a < b]. *)
Lemma gt_not_lt (a b : float) : Float.gt a b = true -> Float.lt a b = false.
Proof.
  unfold Float.lt, Float.gt. rewrite !ltb_spec.
  unfold SFltb. rewrite (SFcompare_swap (Prim2SF a) (Prim2SF b)).
  destruct (SFcompare (Prim2SF a) (Prim2SF b)) as [[ | | ] | ]; simpl; congruence.
Qed.

End FloatOrder.

(** ** The routers *)

Section Routers.

Lemma activity_is_true i a : activity_is i a = true <-> activity i = a.
Proof. unfold activity_is. apply String.eqb_eq. Qed.

Lemma activity_is_false i a : activity_is i a = false <-> activity i <> a.
Proof. unfold activity_is. apply String.eqb_neq. Qed.

Lemma casual_test i :
  (activity_is i "casual conversation" && Float.le (confidence i) 0.1)%bool = true
  <-> casual i.
Proof.
  unfold casual. rewrite andb_true_iff, activity_is_true. reflexivity.
Qed.

Lemma clear_test i :
  (Float.gt (confidence i) 0.5
   && negb (activity_is i "unknown" || activity_is i "casual conversation"))%bool = true
  <-> clear i.
Proof.
  unfold clear.
  rewrite andb_true_iff, negb_true_iff, orb_false_iff, !activity_is_false.
  reflexivity.
Qed.

Lemma should_check_weather_sound (state : AgentState) :
  routeAfterExtraction (intent state) (should_check_weather state).
Proof.
  unfold should_check_weather.
  destruct (intent state) as [i | ]; [ | constructor ].
  destruct (_ && Float.le _ _)%bool eqn:Hc.
  { apply route_casual, casual_test, Hc. }
  assert (Hnc : ~ casual i) by (rewrite <- casual_test, Hc; discriminate).
  destruct (Float.gt _ _ && _)%bool eqn:Hk.
  - apply clear_test in Hk.
    destruct (is_weather_query i) eqn:Hq; [ now apply route_weather_query | ].
    destruct (has_specific_time i) eqn:Ht; simpl.
    + now apply route_check_weather.
    + now apply route_time_clarification.
  - apply route_unclear; [ assumption | ].
    rewrite <- clear_test, Hk. discriminate.
Qed.

Lemma routeAfterExtraction_functional i n m :
  routeAfterExtraction i n -> routeAfterExtraction i m -> n = m.
Proof.
  intros Hn Hm.
  destruct Hn; inversion Hm; subst; try reflexivity; try contradiction; congruence.
Qed.

(** C4. [should_check_weather] is a total function of the intent that
    computes exactly the routing rule of the specification: the node it
    returns satisfies the rule, and it is the only node that does. *)
Theorem should_check_weather_exact (state : AgentState) :
  routeAfterExtraction (intent state) (should_check_weather state)
  /\ forall n, routeAfterExtraction (intent state) n -> n = should_check_weather state.
Proof.
  split; [ apply should_check_weather_sound | ].
  intros n Hn.
  exact (routeAfterExtraction_functional _ _ _ Hn (should_check_weather_sound state)).
Qed.

(** C5. [should_create_event] returns [create_event] exactly when the
    weather is present and not rainy; it returns [request_clarification]
    in every other case, so never [create_event] without weather. *)
Theorem should_create_event_iff (state : AgentState) :
  (should_create_event state = create_event
   <-> exists w, weather state = Some w /\ is_rainy w = false)
  /\ (should_create_event state = create_event
      \/ should_create_event state = request_clarification)
  /\ (weather state = None -> should_create_event state = request_clarification).
Proof.
  unfold should_create_event.
  destruct (weather state) as [w | ].
  - destruct (is_rainy w) eqn:Hr; simpl.
    + split; [ split | split; [ now right | discriminate ] ].
      * discriminate.
      * intros (w' & Hw & Hr'). congruence.
    + split; [ split | split; [ now left | discriminate ] ].
      * intros _. exists w. now split.
      * reflexivity.
  - split; [ split | split; [ now right | reflexivity ] ].
    + discriminate.
    + intros (w' & Hw & _). discriminate.
Qed.

End Routers.

(** ** Runs of the workflow *)

Section Workflow.

Variable E : Env.

Lemma run_from_END g k state : run_from g k END state = ret state.
Proof. destruct k; reflexivity. Qed.

Lemma run_from_step g k n state :
  is_END n = false ->
  run_from g (S k) n state =
  (let* _ := emit (Visit n) in
   let* state' := node_fn g n state in
   run_from g k (edge g n state') state').
Proof. intros H. cbn [run_from]. rewrite H. reflexivity. Qed.

(** Every run starts with [extract_intent_node], whatever intent the
    initial state carries, and goes on with the node the router picks. *)
Lemma ainvoke_extract (state : AgentState) (w : World) :
  ainvoke (create_agent_workflow E) state w =
  run_from (create_agent_workflow E) 24
    (should_check_weather (set_intent state (Some (extracted E state w))))
    (set_intent state (Some (extracted E state w)))
    (log [LLMCall (user_message state); Visit extract_intent] w).
Proof.
  unfold ainvoke, recursion_limit.
  change (entry_point (create_agent_workflow E)) with extract_intent.
  rewrite run_from_step by reflexivity.
  reflexivity.
Qed.

Lemma run_casual_conversation k state w :
  run_from (create_agent_workflow E) (S k) casual_conversation state w =
  (Returned (set_response_message state (casual_response (user_message state))),
   log [Visit casual_conversation] w).
Proof.
  rewrite run_from_step by reflexivity.
  unfold bind, emit. cbn [node_fn edge create_agent_workflow].
  unfold casual_conversation_node, ret. rewrite run_from_END. reflexivity.
Qed.

Lemma run_request_clarification k state w :
  run_from (create_agent_workflow E) (S k) request_clarification state w =
  (Returned (set_needs_clarification
               (set_response_message state (clarification_response state)) true),
   log [Visit request_clarification] w).
Proof.
  rewrite run_from_step by reflexivity.
  unfold bind, emit. cbn [node_fn edge create_agent_workflow].
  unfold request_clarification_node, ret. rewrite run_from_END. reflexivity.
Qed.

Lemma run_request_time_clarification k state w i :
  intent state = Some i ->
  run_from (create_agent_workflow E) (S k) request_time_clarification state w =
  (Returned (set_needs_clarification
               (set_response_message state
                  (Msg.time_question (activity i)
                     (format_datetime_human_readable (datetime_str i)))) true),
   log [Visit request_time_clarification] w).
Proof.
  intros Hi. rewrite run_from_step by reflexivity.
  unfold bind, emit. cbn [node_fn edge create_agent_workflow].
  unfold request_time_clarification_node, the_intent, bind. rewrite Hi.
  unfold ret. rewrite run_from_END. reflexivity.
Qed.

Lemma run_weather_query k state w i :
  intent state = Some i ->
  run_from (create_agent_workflow E) (S k) weather_query state w =
  (Returned (set_response_message (set_weather state (Some (fetched E i w)))
               (weather_report E (or_singapore (location i)) (fetched E i w)
                  ++ weather_advice (fetched E i w))),
   log [ForecastCall (datetime_str i) (or_singapore (location i));
        Visit weather_query] w).
Proof.
  intros Hi. rewrite run_from_step by reflexivity.
  unfold bind, emit. cbn [node_fn edge create_agent_workflow].
  unfold weather_query_node. rewrite Hi.
  unfold WeatherClient.get_weather_forecast, bind, ticks, emit, ret.
  rewrite run_from_END. reflexivity.
Qed.

Lemma run_check_weather k state w i :
  intent state = Some i ->
  run_from (create_agent_workflow E) (S k) check_weather state w =
  run_from (create_agent_workflow E) k
    (should_create_event (set_weather state (Some (fetched E i w))))
    (set_weather state (Some (fetched E i w)))
    (log [ForecastCall (datetime_str i) (or_singapore (location i));
          Visit check_weather] w).
Proof.
  intros Hi. rewrite run_from_step by reflexivity.
  unfold bind, emit. cbn [node_fn edge create_agent_workflow].
  unfold check_weather_node. rewrite Hi.
  unfold WeatherClient.get_weather_forecast, bind, ticks, emit, ret.
  reflexivity.
Qed.

Lemma run_create_event k state w i :
  intent state = Some i ->
  run_from (create_agent_workflow E) (S k) create_event state w =
  (Returned
     (set_response_message (set_calendar_event_created state (inserted E i w))
        (if inserted E i w
         then Msg.scheduled (activity i)
                (format_datetime_human_readable (datetime_str i))
         else Msg.calendar_failed)),
   log [CalendarCall (Some i); Visit create_event] w).
Proof.
  intros Hi. rewrite run_from_step by reflexivity.
  unfold bind, emit. cbn [node_fn edge create_agent_workflow].
  unfold create_calendar_event_node, bind. rewrite Hi.
  unfold GoogleCalendarClient.create_event, bind, ticks, emit, ret.
  cbn [trace List.length]. fold (inserted E i w).
  destruct (inserted E i w); unfold the_intent, bind, ret;
    cbn [intent set_calendar_event_created]; rewrite ?Hi, run_from_END; reflexivity.
Qed.

Lemma log_log evs evs' w : log evs (log evs' w) = log (evs ++ evs') w.
Proof. unfold log. cbn. rewrite app_assoc. reflexivity. Qed.

End Workflow.

(** ** Unclear intents (C1) *)

Section UnclearIntents.

Variable E : Env.

(** An unclear intent that is not a casual one is routed to
    [request_clarification]. *)
Lemma unclear_route (state : AgentState) (i : IntentExtraction) :
  intent state = Some i ->
  Float.le (confidence i) 0.5 = true \/ activity i = "unknown" ->
  ~ casual i ->
  should_check_weather state = request_clarification.
Proof.
  intros Hi Hu Hnc.
  pose proof (should_check_weather_sound state) as Hr. rewrite Hi in Hr.
  inversion Hr as
    [ | j Hc | j _ [Hg [Ha _]] _ | j _ [Hg [Ha _]] _ _ | j _ [Hg [Ha _]] _ _ | j _ _ ];
    subst; try reflexivity.
  - contradiction.
  - destruct Hu as [Hu | Hu]; [ apply le_not_gt in Hu | ]; congruence.
  - destruct Hu as [Hu | Hu]; [ apply le_not_gt in Hu | ]; congruence.
  - destruct Hu as [Hu | Hu]; [ apply le_not_gt in Hu | ]; congruence.
Qed.

Lemma unclear_response (state : AgentState) (i : IntentExtraction) :
  intent state = Some i ->
  Float.le (confidence i) 0.5 = true \/ activity i = "unknown" ->
  clarification_response state = Msg.unclear_intent.
Proof.
  intros Hi Hu. unfold clarification_response. rewrite Hi.
  destruct Hu as [Hu | Hu].
  - rewrite Hu. reflexivity.
  - apply activity_is_true in Hu. rewrite Hu, orb_true_r. reflexivity.
Qed.

(** C1, as the code has it. When the extracted intent has confidence at
    most 0.5 or the activity "unknown", and is not a casual conversation
    of confidence at most 0.1, the run visits [extract_intent] and
    [request_clarification] and ends with [needs_clarification] set and
    the request to be more specific as the response. *)
Theorem unclear_intent_needs_clarification (state : AgentState) (w : World) :
  Float.le (confidence (extracted E state w)) 0.5 = true
  \/ activity (extracted E state w) = "unknown" ->
  ~ casual (extracted E state w) ->
  exists final_state,
    ainvoke (create_agent_workflow E) state w =
      (Returned final_state,
       log [Visit request_clarification; LLMCall (user_message state);
            Visit extract_intent] w)
    /\ needs_clarification final_state = true
    /\ response_message final_state = Msg.unclear_intent
    /\ intent final_state = Some (extracted E state w).
Proof.
  intros Hu Hnc.
  rewrite ainvoke_extract.
  rewrite (unclear_route _ (extracted E state w)) by (assumption || reflexivity).
  rewrite run_request_clarification, log_log.
  eexists. split; [ reflexivity | ].
  cbn [needs_clarification response_message intent set_needs_clarification
         set_response_message].
  split; [ reflexivity | ]. split; [ | reflexivity ].
  apply (unclear_response _ (extracted E state w)); [ reflexivity | assumption ].
Qed.

End UnclearIntents.

Lemma unclear_intent_needs_clarification_witness :
  exists final_state,
    ainvoke (create_agent_workflow (constant_env unsure_intent clear_sky))
            (TelegramBot.make_state "maybe a run" 7 None) empty_world =
      (Returned final_state,
       log [Visit request_clarification; LLMCall "maybe a run"; Visit extract_intent]
           empty_world)
    /\ needs_clarification final_state = true
    /\ response_message final_state = Msg.unclear_intent
    /\ intent final_state = Some unsure_intent.
Proof.
  apply (unclear_intent_needs_clarification (constant_env unsure_intent clear_sky)
           (TelegramBot.make_state "maybe a run" 7 None) empty_world).
  - left. reflexivity.
  - intros [Ha _]. discriminate Ha.
Defined.

(** A greeting has confidence 0.0 and ends in [casual_conversation], which
    leaves [needs_clarification] false. *)
Lemma greeting_is_not_clarified : ~ low_confidence_always_clarifies.
Proof.
  intros H.
  destruct (H (constant_env greeting_intent clear_sky)
              (TelegramBot.make_state "hello" 7 None) empty_world)
    as (final_state & w' & Hrun & Hneeds).
  { left. reflexivity. }
  rewrite ainvoke_extract in Hrun.
  change (should_check_weather _) with casual_conversation in Hrun.
  rewrite run_casual_conversation in Hrun.
  injection Hrun as Hs _. subst final_state.
  discriminate Hneeds.
Qed.

(** ** Weather queries (C6, C9) *)

Section WeatherQueries.

Variable E : Env.

(** An intent that is a weather query is routed to one of three nodes. *)
Lemma weather_query_routes (state : AgentState) (i : IntentExtraction) :
  intent state = Some i ->
  is_weather_query i = true ->
  should_check_weather state = casual_conversation
  \/ should_check_weather state = weather_query
  \/ should_check_weather state = request_clarification.
Proof.
  intros Hi Hq.
  pose proof (should_check_weather_sound state) as Hr. rewrite Hi in Hr.
  inversion Hr; subst; auto; congruence.
Qed.

(** C6. When the extracted intent is a weather query, the run returns and
    none of its events is a call of the calendar or a visit of
    [create_event]. *)
Theorem weather_query_never_schedules (state : AgentState) (w : World) :
  is_weather_query (extracted E state w) = true ->
  exists final_state events,
    ainvoke (create_agent_workflow E) state w = (Returned final_state, log events w)
    /\ forallb (fun e => negb (schedules e)) events = true
    /\ calendar_event_created final_state = calendar_event_created state.
Proof.
  intros Hq. rewrite ainvoke_extract.
  destruct (weather_query_routes
              (set_intent state (Some (extracted E state w))) _ eq_refl Hq)
    as [Hr | [Hr | Hr]]; rewrite Hr.
  - rewrite run_casual_conversation, log_log.
    eexists; eexists. split; [ reflexivity | ]. split; reflexivity.
  - rewrite (run_weather_query E _ _ _ (extracted E state w)) by reflexivity.
    rewrite log_log.
    eexists; eexists. split; [ reflexivity | ]. split; reflexivity.
  - rewrite run_request_clarification, log_log.
    eexists; eexists. split; [ reflexivity | ]. split; reflexivity.
Qed.

End WeatherQueries.

Lemma weather_query_never_schedules_witness :
  exists final_state events,
    ainvoke (create_agent_workflow (constant_env weather_intent clear_sky))
            (TelegramBot.make_state "what's the weather like?" 7 None) empty_world
      = (Returned final_state, log events empty_world)
    /\ forallb (fun e => negb (schedules e)) events = true
    /\ calendar_event_created final_state = false.
Proof.
  apply (weather_query_never_schedules (constant_env weather_intent clear_sky)
           (TelegramBot.make_state "what's the weather like?" 7 None) empty_world).
  reflexivity.
Defined.

(** ** The expiry sweep (C8) *)

Section Sweep.

Lemma lookup_foldl_delete (m : gmap Z Context) (ks : list Z) (k : Z) :
  foldl (fun m chat_id => delete chat_id m) m ks !! k =
  if decide (k ∈ ks) then None else m !! k.
Proof.
  revert m. induction ks as [ | a ks IH]; intros m; cbn [foldl].
  - rewrite decide_False by apply not_elem_of_nil. reflexivity.
  - rewrite IH. destruct (decide (k ∈ ks)) as [Hin | Hnin].
    + rewrite decide_True by (apply elem_of_cons; now right). reflexivity.
    + destruct (decide (k = a)) as [-> | Hne].
      * rewrite decide_True by (apply elem_of_cons; now left).
        apply lookup_delete_eq.
      * rewrite decide_False by (rewrite elem_of_cons; tauto).
        apply lookup_delete_ne. congruence.
Qed.

Lemma elem_of_expired_chats now (m : gmap Z Context) (k : Z) :
  k ∈ TelegramBot.expired_chats now m
  <-> exists c, m !! k = Some c /\ TelegramBot.expired now c = true.
Proof.
  unfold TelegramBot.expired_chats. rewrite list_elem_of_fmap. split.
  - intros ([k' c] & -> & Hin). exists c.
    apply list_elem_of_In, filter_In in Hin. destruct Hin as [Hin Hex].
    apply list_elem_of_In, elem_of_map_to_list in Hin. now split.
  - intros (c & Hk & Hex). exists (k, c). split; [ reflexivity | ].
    apply list_elem_of_In, filter_In. split; [ | exact Hex ].
    apply list_elem_of_In, elem_of_map_to_list. exact Hk.
Qed.

(** What the sweep leaves of a map of contexts. *)
Lemma lookup_swept now (m : gmap Z Context) (k : Z) :
  foldl (fun m chat_id => delete chat_id m) m (TelegramBot.expired_chats now m) !! k =
  match m !! k with
  | Some c => if TelegramBot.expired now c then None else Some c
  | None => None
  end.
Proof.
  rewrite lookup_foldl_delete.
  destruct (decide (k ∈ TelegramBot.expired_chats now m)) as [Hin | Hnin].
  - apply elem_of_expired_chats in Hin. destruct Hin as (c & -> & ->). reflexivity.
  - destruct (m !! k) as [c | ] eqn:Hk; [ | reflexivity ].
    destruct (TelegramBot.expired now c) eqn:Hex; [ | reflexivity ].
    exfalso. apply Hnin, elem_of_expired_chats. eauto.
Qed.

End Sweep.

Section SweepOfHandler.

Variable E : Env.

Lemma cleanup_old_contexts_run (w : World) :
  TelegramBot.cleanup_old_contexts E w = (Returned tt, swept E w).
Proof. reflexivity. Qed.

(** A message of at least two characters, blanks at the ends apart, is
    handled in the swept E world. *)
Lemma handle_message_sweeps_first (chat_id : Z) (text : string) (w : World) :
  (2 <= Str.len (Str.strip text))%nat ->
  TelegramBot.handle_message E chat_id (Some text) w =
  TelegramBot.dispatch E (Str.strip text) chat_id (swept E w).
Proof.
  intros Hlen. unfold TelegramBot.handle_message.
  destruct (String.eqb text "") eqn:Hempty.
  { apply String.eqb_eq in Hempty. subst text. cbn in Hlen. lia. }
  destruct (Nat.ltb_spec (Str.len (Str.strip text)) 2) as [Hlt | _]; [ lia | ].
  reflexivity.
Qed.

(** An update without a text of two characters is dropped. *)
Lemma handle_message_drops (chat_id : Z) (text : option string) (w : World) :
  too_short text ->
  TelegramBot.handle_message E chat_id text w = (Returned tt, w).
Proof.
  intros Hshort. unfold TelegramBot.handle_message.
  destruct text as [text | ]; [ | reflexivity ].
  destruct (String.eqb text ""); [ reflexivity | ].
  cbn [too_short] in Hshort.
  destruct (Nat.ltb_spec (Str.len (Str.strip text)) 2) as [_ | Hge];
    [ reflexivity | lia ].
Qed.

(** C8. The sweep returns, records no event, and removes exactly the
    entries for which [current_time - timestamp > 600]: an entry aged 601
    seconds is gone, an entry aged 599 seconds, or exactly 600, stays as it
    was. Every message that [handle_message] accepts, which is every text
    of at least two characters once the blanks at its ends are stripped, is
    handled in the world the sweep leaves; any other update is dropped
    without a sweep. *)
Theorem sweep_removes_exactly_expired (w : World) :
  exists w',
    TelegramBot.cleanup_old_contexts E w = (Returned tt, w')
    /\ trace w' = trace w
    /\ (forall chat_id,
          conversation_context w' !! chat_id =
          match conversation_context w !! chat_id with
          | Some c =>
              if Float.gt (PrimFloat.sub (time_time E (List.length (trace w)))
                                         (timestamp c)) 600
              then None else Some c
          | None => None
          end)
    /\ (forall chat_id c,
          conversation_context w !! chat_id = Some c ->
          PrimFloat.sub (time_time E (List.length (trace w))) (timestamp c) = 601%float ->
          conversation_context w' !! chat_id = None)
    /\ (forall chat_id c,
          conversation_context w !! chat_id = Some c ->
          PrimFloat.sub (time_time E (List.length (trace w))) (timestamp c) = 599%float ->
          conversation_context w' !! chat_id = Some c)
    /\ (forall chat_id c,
          conversation_context w !! chat_id = Some c ->
          PrimFloat.sub (time_time E (List.length (trace w))) (timestamp c) = 600%float ->
          conversation_context w' !! chat_id = Some c)
    /\ (forall chat_id text,
          TelegramBot.handle_message E chat_id text w =
          match text with
          | Some text =>
              if Nat.leb 2 (Str.len (Str.strip text))
              then TelegramBot.dispatch E (Str.strip text) chat_id w'
              else (Returned tt, w)
          | None => (Returned tt, w)
          end).
Proof.
  exists (swept E w).
  assert (Hlookup : forall chat_id,
             conversation_context (swept E w) !! chat_id =
             match conversation_context w !! chat_id with
             | Some c =>
                 if Float.gt (PrimFloat.sub (time_time E (List.length (trace w)))
                                            (timestamp c)) 600
                 then None else Some c
             | None => None
             end).
  { intros chat_id. unfold swept. cbn [conversation_context].
    apply lookup_swept. }
  split; [ apply cleanup_old_contexts_run | ].
  split; [ reflexivity | ].
  split; [ exact Hlookup | ].
  split; [ | split; [ | split ] ].
  - intros chat_id c Hc Hage. rewrite Hlookup, Hc, Hage. reflexivity.
  - intros chat_id c Hc Hage. rewrite Hlookup, Hc, Hage. reflexivity.
  - intros chat_id c Hc Hage. rewrite Hlookup, Hc, Hage. reflexivity.
  - intros chat_id [text | ]; [ | reflexivity ].
    destruct (Nat.leb_spec 2 (Str.len (Str.strip text))) as [Hlen | Hlen].
    + apply handle_message_sweeps_first. exact Hlen.
    + apply handle_message_drops. cbn [too_short]. exact Hlen.
Qed.

End SweepOfHandler.

(** ** Substrings *)

Section Substrings.

Lemma startswith_app (p s : string) : Str.startswith p (p ++ s) = true.
Proof.
  induction p as [ | c p IH]; [ reflexivity | ].
  simpl. rewrite Ascii.eqb_refl. exact IH.
Qed.

Lemma startswith_contains (p s : string) :
  Str.startswith p s = true -> Str.contains p s = true.
Proof. intros H. destruct s; cbn [Str.contains]; rewrite H; reflexivity. Qed.

Lemma contains_app_r (p a b : string) :
  Str.contains p b = true -> Str.contains p (a ++ b) = true.
Proof.
  intros H. induction a as [ | c a IH]; [ exact H | ].
  simpl. rewrite IH. apply orb_true_r.
Qed.

Lemma startswith_app_l (p a b : string) :
  Str.startswith p a = true -> Str.startswith p (a ++ b) = true.
Proof.
  revert a. induction p as [ | c p IH]; intros a H; [ reflexivity | ].
  destruct a as [ | d a]; [ discriminate | ].
  simpl in H |- *.
  apply andb_true_iff in H. destruct H as [Hc Hp].
  rewrite Hc. apply IH. exact Hp.
Qed.

Lemma contains_app_l (p a b : string) :
  Str.contains p a = true -> Str.contains p (a ++ b) = true.
Proof.
  induction a as [ | c a IH]; intros H.
  - simpl in H. rewrite orb_false_r in H.
    destruct p; [ | discriminate ]. destruct b; reflexivity.
  - simpl in H. apply orb_true_iff in H. destruct H as [H | H].
    + apply startswith_contains, startswith_app_l. exact H.
    + simpl. rewrite (IH H). apply orb_true_r.
Qed.

(** [p] stands between [a] and [b]. *)
Lemma contains_middle (p a b : string) : Str.contains p (a ++ p ++ b) = true.
Proof. apply contains_app_r, startswith_contains, startswith_app. Qed.

End Substrings.

(** ** Fresh requests: what the handler stores (C3, C9) *)

Section NewRequests.

Variable E : Env.

Lemma ainvoke_request (user_message : string) (chat_id : Z) (w : World) :
  ainvoke (create_agent_workflow E) (TelegramBot.make_state user_message chat_id None) w =
  run_from (create_agent_workflow E) 24
    (should_check_weather (request_state E user_message chat_id w))
    (request_state E user_message chat_id w)
    (log [LLMCall user_message; Visit extract_intent] w).
Proof. rewrite ainvoke_extract. reflexivity. Qed.

(** The four advice lines are different texts. *)
Lemma advice_lines_differ :
  Msg.advice_rainy <> Msg.advice_hot /\ Msg.advice_rainy <> Msg.advice_cool
  /\ Msg.advice_rainy <> Msg.advice_great /\ Msg.advice_hot <> Msg.advice_cool
  /\ Msg.advice_hot <> Msg.advice_great /\ Msg.advice_cool <> Msg.advice_great.
Proof. repeat split; apply String.eqb_neq; vm_compute; reflexivity. Qed.

(** The report names the temperature, the conditions and the humidity. *)
Lemma weather_report_contains (location : string) (wd : WeatherData) (advice : string) :
  Str.contains (float_str E (temperature wd))
               (weather_report E location wd ++ advice) = true
  /\ Str.contains (title E (description wd))
                  (weather_report E location wd ++ advice) = true
  /\ Str.contains (Str.of_Z (humidity wd))
                  (weather_report E location wd ++ advice) = true.
Proof.
  unfold weather_report, Msg.temperature_line, Msg.conditions_line, Msg.humidity_line.
  repeat split; apply contains_app_l.
  - apply contains_app_r, contains_app_l, contains_middle.
  - do 3 apply contains_app_r. apply contains_app_l.
    apply contains_app_r, contains_middle.
  - do 4 apply contains_app_r. apply contains_middle.
Qed.

(** C9. When the router sends a request to [weather_query], the handler
    returns after one forecast call and one reply, and leaves every
    conversation context as it was. The workflow ends with
    [needs_clarification] false. The reply is built from the weather that
    the provider returned for the extracted date and location, or from the
    fallback weather when the request failed: it is the report, which names
    the temperature, the conditions and the humidity, followed by one advice
    line: the umbrella line when it rains, else the heat line above 30, else
    the jacket line below 20, else the line for outdoor activities, which is
    also the line at exactly 30 and at exactly 20. *)
Theorem weather_query_reply (user_message : string) (chat_id : Z) (w : World) :
  let i := GeminiClient.answer E (S (List.length (trace w))) user_message in
  let location := or_singapore (location i) in
  let wd :=
    match openweathermap E (3 + List.length (trace w)) (datetime_str i) location with
    | Some returned => returned
    | None => WeatherClient.fallback_weather
    end in
  let reply := weather_report E location wd ++ weather_advice wd in
  let events :=
    [ForecastCall (datetime_str i) location; Visit weather_query;
     LLMCall user_message; Visit extract_intent] in
  should_check_weather (request_state E user_message chat_id w) = weather_query ->
  exists final_state : AgentState,
    ainvoke (create_agent_workflow E)
            (TelegramBot.make_state user_message chat_id None) w
    = (Returned final_state, log events w)
    /\ needs_clarification final_state = false
    /\ response_message final_state = reply
    /\ weather final_state = Some wd
    /\ TelegramBot.run_new_request E user_message chat_id w
       = (Returned tt, log (ReplyText chat_id reply :: events) w)
    /\ conversation_context (log (ReplyText chat_id reply :: events) w)
       = conversation_context w
    /\ Str.contains (float_str E (temperature wd)) reply = true
    /\ Str.contains (title E (description wd)) reply = true
    /\ Str.contains (Str.of_Z (humidity wd)) reply = true
    /\ weather_advice wd =
       (if is_rainy wd then Msg.advice_rainy
        else if Float.gt (temperature wd) 30 then Msg.advice_hot
        else if Float.lt (temperature wd) 20 then Msg.advice_cool
        else Msg.advice_great)
    /\ (is_rainy wd = false ->
        temperature wd = 30%float \/ temperature wd = 20%float ->
        weather_advice wd = Msg.advice_great).
Proof.
  intros i location wd reply events Hroute.
  pose (w1 := log [LLMCall user_message; Visit extract_intent] w).
  assert (Hwd : fetched E i w1 = wd) by reflexivity.
  assert (Hrun :
    ainvoke (create_agent_workflow E)
            (TelegramBot.make_state user_message chat_id None) w
    = (Returned
         (set_response_message
            (set_weather (request_state E user_message chat_id w) (Some wd)) reply),
       log events w)).
  { rewrite ainvoke_request, Hroute.
    rewrite (run_weather_query E _ _ _ i) by reflexivity.
    rewrite log_log. fold w1. rewrite Hwd. reflexivity. }
  eexists.
  split; [ exact Hrun | ].
  split; [ reflexivity | ].
  split; [ reflexivity | ].
  split; [ reflexivity | ].
  split.
  { unfold TelegramBot.run_new_request, try_except, bind.
    rewrite Hrun. reflexivity. }
  split; [ reflexivity | ].
  destruct (weather_report_contains location wd (weather_advice wd)) as (Ht & Hd & Hh).
  split; [ exact Ht | ]. split; [ exact Hd | ]. split; [ exact Hh | ].
  split; [ reflexivity | ].
  intros Hdry Htemp. unfold weather_advice. rewrite Hdry.
  destruct Htemp as [-> | ->]; reflexivity.
Qed.

End NewRequests.

Lemma weather_query_reply_witness :
  let E := constant_env weather_intent light_rain in
  let user_message := "what's the weather like?" in
  let reply := weather_report E "Singapore" light_rain ++ Msg.advice_rainy in
  let events :=
    [ForecastCall "2025-05-27T09:30:00" "Singapore"; Visit weather_query;
     LLMCall user_message; Visit extract_intent] in
  exists final_state : AgentState,
    ainvoke (create_agent_workflow E)
            (TelegramBot.make_state user_message 7 None) empty_world
    = (Returned final_state, log events empty_world)
    /\ needs_clarification final_state = false
    /\ response_message final_state = reply
    /\ weather final_state = Some light_rain
    /\ TelegramBot.run_new_request E user_message 7 empty_world
       = (Returned tt, log (ReplyText 7 reply :: events) empty_world)
    /\ conversation_context (log (ReplyText 7 reply :: events) empty_world)
       = conversation_context empty_world
    /\ Str.contains (float_str E (temperature light_rain)) reply = true
    /\ Str.contains (title E (description light_rain)) reply = true
    /\ Str.contains (Str.of_Z (humidity light_rain)) reply = true
    /\ weather_advice light_rain =
       (if is_rainy light_rain then Msg.advice_rainy
        else if Float.gt (temperature light_rain) 30 then Msg.advice_hot
        else if Float.lt (temperature light_rain) 20 then Msg.advice_cool
        else Msg.advice_great)
    /\ (is_rainy light_rain = false ->
        temperature light_rain = 30%float \/ temperature light_rain = 20%float ->
        weather_advice light_rain = Msg.advice_great).
Proof.
  apply (weather_query_reply (constant_env weather_intent light_rain)
           "what's the weather like?" 7 empty_world).
  reflexivity.
Defined.

(** ** What a run leaves in the contexts (C3) and what a time reply runs (C2) *)

Section StoredContexts.

Variable E : Env.

(** The workflow never reads the intent of its initial state: the entry
    point overwrites it. *)
Lemma ainvoke_ignores_initial_intent (user_message : string) (chat_id : Z)
    (i : option IntentExtraction) (w : World) :
  ainvoke (create_agent_workflow E) (TelegramBot.make_state user_message chat_id i) w =
  ainvoke (create_agent_workflow E) (TelegramBot.make_state user_message chat_id None) w.
Proof. rewrite !ainvoke_extract. reflexivity. Qed.

(** A request that the router sends to [request_clarification] with a
    confidence above 0.5 and no specific time is answered by the
    clarification text, and a time clarification is stored for the chat. *)
Lemma unclear_request_stores_time_context (user_message : string) (chat_id : Z)
    (w : World) (i : IntentExtraction) :
  intent (request_state E user_message chat_id w) = Some i ->
  should_check_weather (request_state E user_message chat_id w) = request_clarification ->
  Float.gt (confidence i) 0.5 = true ->
  has_specific_time i = false ->
  TelegramBot.run_new_request E user_message chat_id w =
  (Returned tt,
   {| conversation_context :=
        <[chat_id := {| original_intent := i;
                        ctx_weather := None;
                        waiting_for := time_clarification;
                        timestamp := time_time E (3 + List.length (trace w)) |}]>
          (conversation_context w);
      trace :=
        ReplyText chat_id (clarification_response (request_state E user_message chat_id w))
          :: Visit request_clarification :: LLMCall user_message
          :: Visit extract_intent :: trace w |}).
Proof.
  intros Hi Hroute Hconf Htime.
  unfold TelegramBot.run_new_request, try_except, bind.
  rewrite ainvoke_request, Hroute, run_request_clarification.
  unfold TelegramBot.store_clarification_context.
  cbn [intent needs_clarification set_needs_clarification set_response_message].
  rewrite Hi, Hconf, Htime. reflexivity.
Qed.

(** The contexts after a fresh request, by the node the router picks after
    extraction: what [handle_message] stores is decided by the final state,
    not by the node the run ended in. *)
Lemma contexts_after_new_request (user_message : string) (chat_id : Z) (w : World) :
  let i := GeminiClient.answer E (S (List.length (trace w))) user_message in
  let n := List.length (trace w) in
  conversation_context (snd (TelegramBot.run_new_request E user_message chat_id w)) =
  match should_check_weather (request_state E user_message chat_id w) with
  | request_time_clarification =>
      <[chat_id := stored E time_clarification i None (3 + n)]> (conversation_context w)
  | check_weather =>
      let wd := fetched E i (log [LLMCall user_message; Visit extract_intent] w) in
      if is_rainy wd
      then <[chat_id := stored E weather_clarification i (Some wd) (5 + n)]>
             (conversation_context w)
      else conversation_context w
  | request_clarification =>
      if (Float.gt (confidence i) 0.5 && negb (has_specific_time i))%bool
      then <[chat_id := stored E time_clarification i None (3 + n)]>
             (conversation_context w)
      else conversation_context w
  | _ => conversation_context w
  end.
Proof.
  intros i n. subst n.
  assert (Hi : intent (request_state E user_message chat_id w) = Some i) by reflexivity.
  clearbody i.
  pose proof (should_check_weather_sound (request_state E user_message chat_id w)) as Hr.
  rewrite Hi in Hr.
  unfold TelegramBot.run_new_request, try_except, bind.
  rewrite ainvoke_request.
  destruct (should_check_weather (request_state E user_message chat_id w)) eqn:Hroute;
    try solve [ inversion Hr ].
  - rewrite (run_check_weather E _ _ _ i) by exact Hi.
    assert (Hg : Float.gt (confidence i) 0.5 = true /\ has_specific_time i = true).
    { inversion Hr as [ | | | | j _ [Hg _] _ Ht | ]. now split. }
    destruct Hg as [Hg Ht].
    unfold should_create_event. cbn [weather set_weather].
    destruct (is_rainy (fetched E i _)) eqn:Hrain; cbn [negb].
    + rewrite run_request_clarification.
      unfold TelegramBot.store_clarification_context.
      cbn [intent needs_clarification weather set_needs_clarification
             set_response_message set_weather].
      rewrite Hi, Hg, Ht, Hrain. reflexivity.
    + rewrite (run_create_event E _ _ _ i) by exact Hi.
      unfold TelegramBot.store_clarification_context.
      cbn [intent needs_clarification weather set_calendar_event_created
             set_response_message set_weather].
      rewrite Hi. reflexivity.
  - rewrite (run_weather_query E _ _ _ i) by exact Hi.
    unfold TelegramBot.store_clarification_context.
    cbn [intent needs_clarification weather set_response_message set_weather].
    rewrite Hi. reflexivity.
  - assert (Hg : Float.gt (confidence i) 0.5 = true /\ has_specific_time i = false).
    { inversion Hr as [ | | | j _ [Hg _] _ Ht | | ]. now split. }
    destruct Hg as [Hg Ht].
    rewrite (run_request_time_clarification E _ _ _ i) by exact Hi.
    unfold TelegramBot.store_clarification_context.
    cbn [intent needs_clarification set_needs_clarification set_response_message].
    rewrite Hi, Hg, Ht. reflexivity.
  - rewrite run_request_clarification.
    unfold TelegramBot.store_clarification_context.
    cbn [intent needs_clarification weather set_needs_clarification
           set_response_message].
    rewrite Hi.
    change (weather (request_state E user_message chat_id w)) with (@None WeatherData).
    destruct (Float.gt (confidence i) 0.5 && negb (has_specific_time i))%bool;
      reflexivity.
  - rewrite run_casual_conversation.
    unfold TelegramBot.store_clarification_context.
    cbn [intent needs_clarification set_response_message].
    rewrite Hi. reflexivity.
Qed.

End StoredContexts.

(** C3, at an input where the code departs from the write policy. The LLM
    reports "nice day, right" as a casual conversation with confidence
    0.875. The run ends in [request_clarification] without a weather check,
    and the handler stores a time clarification for the chat. *)
Theorem time_context_stored_after_generic_clarification :
  let E := constant_env confident_casual_intent clear_sky in
  let w' := snd (TelegramBot.handle_message E 7 (Some "nice day, right") empty_world) in
  visited (trace w') = [extract_intent; request_clarification]
  /\ forecast_calls (trace w') = []
  /\ conversation_context w' !! 7 =
     Some {| original_intent := confident_casual_intent;
             ctx_weather := None;
             waiting_for := time_clarification;
             timestamp := 1000000%float |}.
Proof. vm_compute. repeat split; reflexivity. Qed.

(** C2, at an input where the code departs from the claim. The reply "6pm"
    to the pending time question is re-extracted with the date 2025-05-27;
    the handler corrects it to 2025-05-28T18:00:00 and invokes the workflow.
    The workflow starts at [extract_intent], calls the LLM a second time on
    the combined message and checks the weather and creates the event for
    the intent of that second call, dated 2025-05-27; the corrected intent
    reaches neither. *)
Theorem time_reply_is_extracted_again :
  let E := constant_env run_at_six_on_the_27th clear_sky in
  let w' := snd (TelegramBot.handle_message E 7 (Some "6pm") world_with_pending_run) in
  match parse_datetime_str (datetime_str (original_intent pending_run)),
        parse_datetime_str (datetime_str run_at_six_on_the_27th) with
  | Some original_date, Some updated_datetime =>
      datetime_str (TelegramBot.preserve_original_date original_date updated_datetime
                      run_at_six_on_the_27th)
      = "2025-05-28T18:00:00"
  | _, _ => False
  end
  /\ trace w' =
     [ReplyText 7 (Msg.scheduled "run" "27 May 2025, 6:00 PM");
      CalendarCall (Some run_at_six_on_the_27th);
      Visit create_event;
      ForecastCall "2025-05-27T18:00:00" "Singapore";
      Visit check_weather;
      LLMCall "I want to run tomorrow at 6pm";
      Visit extract_intent;
      LLMCall "I want to run tomorrow at 6pm"]
  /\ visited (trace w') = [extract_intent; check_weather; create_event]
  /\ forecast_calls (trace w') = [("2025-05-27T18:00:00", "Singapore")]
  /\ calendar_calls (trace w') = [run_at_six_on_the_27th].
Proof. vm_compute. repeat split; reflexivity. Qed.

(** ** Replies to the rainy-weather question (C10) *)

Section WeatherReplies.

Variable E : Env.

Lemma del_context_present (chat_id : Z) (c : Context) (w : World) :
  conversation_context w !! chat_id = Some c ->
  del_context chat_id w =
  (Returned tt,
   {| conversation_context := delete chat_id (conversation_context w);
      trace := trace w |}).
Proof.
  intros H. unfold del_context, bind, get_contexts, set_contexts. rewrite H.
  reflexivity.
Qed.

(** C10. The handler tests the proceed set, then the reschedule set, then
    the cancel set, by substring containment in the lower-cased reply: what
    it does is decided by the first set that matches, whatever later sets
    match as well. A reply with "yes" and "cancel" proceeds, and "no" inside
    "know" counts as a cancellation. *)
Theorem weather_reply_first_match (user_message : string) (chat_id : Z)
    (context pending : Context) (w : World) :
  conversation_context w !! chat_id = Some pending ->
  TelegramBot.handle_weather_clarification_response E user_message chat_id context w
    = weather_reply_outcome E (classify user_message) chat_id context w
  /\ (Str.any_in (keywords Proceed) (Str.lower user_message) = true ->
      classify user_message = Proceed)
  /\ (Str.any_in (keywords Proceed) (Str.lower user_message) = false ->
      Str.any_in (keywords Reschedule) (Str.lower user_message) = true ->
      classify user_message = Reschedule)
  /\ (Str.any_in (keywords Proceed) (Str.lower user_message) = false ->
      Str.any_in (keywords Reschedule) (Str.lower user_message) = false ->
      Str.any_in (keywords Cancel) (Str.lower user_message) = true ->
      classify user_message = Cancel)
  /\ (Str.any_in (keywords Proceed) (Str.lower user_message) = false ->
      Str.any_in (keywords Reschedule) (Str.lower user_message) = false ->
      Str.any_in (keywords Cancel) (Str.lower user_message) = false ->
      classify user_message = Unrecognized)
  /\ classify "Yes, cancel" = Proceed
  /\ classify "I know" = Cancel.
Proof.
  intros Hpending.
  assert (Hclassify :
    classify user_message =
    if Str.any_in (keywords Proceed) (Str.lower user_message) then Proceed
    else if Str.any_in (keywords Reschedule) (Str.lower user_message) then Reschedule
    else if Str.any_in (keywords Cancel) (Str.lower user_message) then Cancel
    else Unrecognized).
  { unfold classify, keyword_sets, keywords.
    cbn [List.find fst snd keyword_sets].
    destruct (Str.any_in _ _); [ reflexivity | ].
    destruct (Str.any_in _ _); [ reflexivity | ].
    destruct (Str.any_in _ _); reflexivity. }
  split.
  - rewrite Hclassify.
    unfold TelegramBot.handle_weather_clarification_response.
    change ["1"; "proceed"; "yes"; "continue"; "anyway"] with (keywords Proceed).
    change ["2"; "reschedule"; "different"; "later"; "change"] with (keywords Reschedule).
    change ["3"; "cancel"; "no"; "don't"; "skip"] with (keywords Cancel).
    unfold weather_reply_outcome.
    destruct (Str.any_in (keywords Proceed) _).
    { unfold bind, GoogleCalendarClient.create_event, bind, ticks, emit, ret.
      cbn [trace conversation_context].
      destruct (google_calendar E _ _);
        unfold bind; erewrite del_context_present by exact Hpending; reflexivity. }
    destruct (Str.any_in (keywords Reschedule) _).
    { unfold bind. erewrite del_context_present by exact Hpending. reflexivity. }
    destruct (Str.any_in (keywords Cancel) _).
    { unfold bind. erewrite del_context_present by exact Hpending. reflexivity. }
    reflexivity.
  - rewrite Hclassify.
    repeat split; try (intros; repeat match goal with H : _ = _ |- _ => rewrite H end;
                       reflexivity).
Qed.

End WeatherReplies.

Lemma weather_reply_first_match_witness :
  let E := constant_env unsure_intent light_rain in
  let user_message := "Yes, cancel" in
  TelegramBot.handle_weather_clarification_response E user_message 7 pending_rain
    world_with_pending_rain
    = weather_reply_outcome E (classify user_message) 7 pending_rain
        world_with_pending_rain
  /\ (Str.any_in (keywords Proceed) (Str.lower user_message) = true ->
      classify user_message = Proceed)
  /\ (Str.any_in (keywords Proceed) (Str.lower user_message) = false ->
      Str.any_in (keywords Reschedule) (Str.lower user_message) = true ->
      classify user_message = Reschedule)
  /\ (Str.any_in (keywords Proceed) (Str.lower user_message) = false ->
      Str.any_in (keywords Reschedule) (Str.lower user_message) = false ->
      Str.any_in (keywords Cancel) (Str.lower user_message) = true ->
      classify user_message = Cancel)
  /\ (Str.any_in (keywords Proceed) (Str.lower user_message) = false ->
      Str.any_in (keywords Reschedule) (Str.lower user_message) = false ->
      Str.any_in (keywords Cancel) (Str.lower user_message) = false ->
      classify user_message = Unrecognized)
  /\ classify "Yes, cancel" = Proceed
  /\ classify "I know" = Cancel.
Proof.
  apply (weather_reply_first_match (constant_env unsure_intent light_rain)
           "Yes, cancel" 7 pending_rain pending_rain world_with_pending_rain).
  reflexivity.
Defined.

(** ** Dates kept through a time clarification (C7) *)

Section IsoFormat.

Import Datetime.

Lemma classify_digit (n : Z) : classify (digit (n mod 10)) = Digit (n mod 10).
Proof.
  pose proof (Z.mod_pos_bound n 10 ltac:(lia)) as H.
  rewrite <- (Z2Nat.id (n mod 10)) at 2 by lia.
  unfold digit.
  assert (Hk : (Z.to_nat (n mod 10) < 10)%nat) by lia.
  revert Hk. generalize (Z.to_nat (n mod 10)). intros k Hk.
  do 10 (destruct k as [ | k]; [ reflexivity | ]). lia.
Qed.

Lemma valid_fields (dt : datetime) :
  valid dt = true ->
  1 <= year dt <= 9999 /\ 1 <= month dt <= 12
  /\ 1 <= day dt <= days_in_month (year dt) (month dt)
  /\ 0 <= hour dt <= 23 /\ 0 <= minute dt <= 59 /\ 0 <= second dt <= 59
  /\ 0 <= microsecond dt <= 999999
  /\ match tzinfo dt with
     | Some off => -86399999999 <= off <= 86399999999
     | None => True
     end.
Proof.
  unfold valid, in_range. intros H.
  repeat (apply andb_true_iff in H; destruct H as [H ?]).
  repeat match goal with
         | H : (_ <=? _) = true |- _ => apply Z.leb_le in H
         end.
  repeat split; try lia.
  destruct (tzinfo dt); [ | exact I ].
  apply andb_true_iff in H0. destruct H0 as [H0 H0'].
  apply Z.leb_le in H0, H0'. lia.
Qed.

Lemma days_in_month_le (y m : Z) : days_in_month y m <= 31.
Proof.
  unfold days_in_month.
  destruct (m =? 2); [ destruct (is_leap y); lia | ].
  destruct (_ || _)%bool; lia.
Qed.

(** The value of two, four and six printed digits. *)
Lemma value2 (n : Z) : 0 <= n <= 99 -> 10 * (10 * 0 + n / 10 mod 10) + n mod 10 = n.
Proof. intros H. Z.div_mod_to_equations. lia. Qed.

Lemma value4 (n : Z) :
  0 <= n <= 9999 ->
  10 * (10 * (10 * (10 * 0 + n / 1000 mod 10) + n / 100 mod 10) + n / 10 mod 10)
  + n mod 10 = n.
Proof. intros H. Z.div_mod_to_equations. lia. Qed.

Lemma value6 (n : Z) :
  0 <= n <= 999999 ->
  10 * (10 * (10 * (10 * (10 * (10 * 0 + n / 100000 mod 10) + n / 10000 mod 10)
                    + n / 1000 mod 10) + n / 100 mod 10) + n / 10 mod 10)
  + n mod 10 = n.
Proof. intros H. Z.div_mod_to_equations. lia. Qed.

Lemma valid_read_back (dt : datetime) : valid dt = true -> valid (read_back dt) = true.
Proof.
  intros Hv. pose proof (valid_fields dt Hv) as (_ & _ & _ & _ & _ & _ & _ & Htz).
  unfold valid in *. unfold read_back.
  cbn [year month day hour minute second microsecond tzinfo].
  destruct (tzinfo dt) as [off | ]; [ | exact Hv ].
  apply andb_true_iff in Hv. destruct Hv as [Hv _].
  rewrite Hv. cbn [andb]. unfold in_range.
  destruct (Z.abs off <? 1000000); apply andb_true_iff; split; apply Z.leb_le; lia.
Qed.

(** The offset read from the digits that [isoformat] prints for it. *)
Lemma utcoffset_printed (off sign seconds microseconds : Z) :
  -86399999999 <= off <= 86399999999 ->
  sign = (if off <? 0 then -1 else 1) ->
  seconds = Z.abs off / 1000000 ->
  microseconds = Z.abs off mod 1000000 ->
  utcoffset sign seconds microseconds
  = (if Z.abs off <? 1000000 then 0 else off).
Proof.
  intros Hoff -> -> ->. unfold utcoffset.
  destruct (Z.eqb_spec (Z.abs off / 1000000) 0) as [Hz | Hz];
    destruct (Z.ltb_spec (Z.abs off) 1000000) as [Hs | Hs];
    destruct (Z.ltb_spec off 0) as [Hn | Hn];
    try reflexivity; Z.div_mod_to_equations; lia.
Qed.

(** Parsing the bytes that [isoformat] prints gives the value back, up to
    an offset of less than a second. *)
Lemma fromisoformat_bytes_isoformat (dt : datetime) :
  valid dt = true ->
  fromisoformat_bytes (map classify (isoformat_chars dt)) = Some (read_back dt).
Proof.
  intros Hv.
  pose proof (valid_read_back dt Hv) as Hv'.
  pose proof (valid_fields dt Hv) as (Hy & Hmo & Hd & Hh & Hmi & Hs & Hus & Htz).
  pose proof (days_in_month_le (year dt) (month dt)) as Hdim.
  destruct dt as [y mo d h mi s us tz].
  cbn [year month day hour minute second microsecond tzinfo] in *.
  clear Hv.
  assert (Hend : forall x : datetime,
             x = read_back {| year := y; month := mo; day := d; hour := h;
                              minute := mi; second := s; microsecond := us;
                              tzinfo := tz |} ->
             (if valid x then Some x else None)
             = Some (read_back {| year := y; month := mo; day := d; hour := h;
                                  minute := mi; second := s; microsecond := us;
                                  tzinfo := tz |})).
  { intros x ->. rewrite Hv'. reflexivity. }
  unfold isoformat_chars.
  cbn [year month day hour minute second microsecond tzinfo].
  destruct tz as [off | ].
  - unfold tz_chars.
    set (a := Z.abs off) in *.
    assert (Ha : 0 <= a <= 86399999999) by (subst a; lia).
    destruct (Z.eqb_spec (a mod 1000000) 0) as [Hfrac | Hfrac];
      destruct (Z.eqb_spec (a / 1000000 mod 60) 0) as [Hsec | Hsec];
      cbn [andb];
      destruct (Z.eqb_spec us 0) as [Hz | Hz];
      destruct (off <? 0) eqn:Hneg;
      spell_bytes; rewrite ?classify_digit; classify_bytes; run_parser; apply Hend; unfold read_back;
      cbn [year month day hour minute second microsecond tzinfo];
      f_equal;
      try first [ apply value4; lia | apply value2; lia | apply value6; lia
                | rewrite value6 by lia; change (10 ^ Z.of_nat 0) with 1; lia ]; try (subst us; reflexivity);
      f_equal; apply (utcoffset_printed off); try assumption;
      try (rewrite Hneg; reflexivity);
      fold a; rewrite ?value2, ?value6 by (Z.div_mod_to_equations; lia);
      change (10 ^ Z.of_nat 0) with 1;
      Z.div_mod_to_equations; lia.
  - destruct (Z.eqb_spec us 0) as [Hz | Hz];
      spell_bytes; rewrite ?classify_digit; classify_bytes; run_parser; apply Hend; unfold read_back;
      cbn [year month day hour minute second microsecond tzinfo];
      f_equal;
      try first [ apply value4; lia | apply value2; lia | apply value6; lia
                | rewrite value6 by lia; change (10 ^ Z.of_nat 0) with 1; lia ]; subst us; reflexivity.
Qed.

Lemma is_continuation_digit (n : Z) : Str.is_continuation (digit (n mod 10)) = false.
Proof.
  pose proof (Z.mod_pos_bound n 10 ltac:(lia)) as H.
  unfold digit.
  assert (Hk : (Z.to_nat (n mod 10) < 10)%nat) by lia.
  revert Hk. generalize (Z.to_nat (n mod 10)). intros k Hk.
  do 10 (destruct k as [ | k]; [ reflexivity | ]). lia.
Qed.

Lemma len_cons (c : ascii) (r : string) :
  Str.starts_with_continuation r = false -> Str.len (String c r) = S (Str.len r).
Proof.
  intros H. unfold Str.len. cbn [Str.chars]. rewrite H.
  destruct (Str.chars r); reflexivity.
Qed.

(** What [isoformat] prints has more than seven characters. *)
Lemma len_isoformat (dt : datetime) : Nat.ltb (Str.len (isoformat dt)) 7 = false.
Proof.
  apply Nat.ltb_ge. unfold isoformat, isoformat_chars, digits4, digits2.
  cbn [app string_of_list_ascii].
  repeat (rewrite len_cons;
          [ | cbn [Str.starts_with_continuation];
              first [ apply is_continuation_digit | reflexivity ] ]).
  lia.
Qed.

(** Parsing what [isoformat] prints gives the value back, up to an offset
    of less than a second, which is read as UTC. *)
Lemma fromisoformat_isoformat (dt : datetime) :
  valid dt = true -> fromisoformat (isoformat dt) = Some (read_back dt).
Proof.
  intros Hv. unfold fromisoformat. rewrite len_isoformat.
  unfold isoformat. rewrite list_ascii_of_string_of_list_ascii.
  apply fromisoformat_bytes_isoformat. exact Hv.
Qed.

(** What [fromisoformat] returns is a date and time that exists. *)
Lemma fromisoformat_valid (s : string) (dt : datetime) :
  fromisoformat s = Some dt -> valid dt = true.
Proof.
  unfold fromisoformat, fromisoformat_bytes. intros H.
  repeat match type of H with
         | match ?x with _ => _ end = Some _ => destruct x eqn:?; try discriminate H
         | (if ?x then _ else _) = Some _ => destruct x eqn:?; try discriminate H
         end;
    injection H as <-; assumption.
Qed.

(** *** The offsets that [fromisoformat] returns *)

Lemma classify_in_range (c : ascii) : digit_in_range (classify c).
Proof.
  unfold classify.
  destruct (Nat.leb 48 (nat_of_ascii c) && Nat.leb (nat_of_ascii c) 57)%bool eqn:Hd.
  - apply andb_true_iff in Hd. destruct Hd as [Hlo Hhi].
    apply Nat.leb_le in Hlo, Hhi. cbn [digit_in_range]. lia.
  - repeat match goal with
           | |- digit_in_range (if ?x then _ else _) => destruct x
           end; exact I.
Qed.

Lemma at_in_range (l : list ascii) (i : nat) : digit_in_range (at_ (map classify l) i).
Proof.
  unfold at_. revert i. induction l as [ | c l IH]; intros [ | i]; cbn [map nth];
    try exact I; [ apply classify_in_range | apply IH ].
Qed.

Lemma parse_digits_bounds (l : list ascii) (n p : nat) (var v : Z) (p' : nat) :
  0 <= var ->
  parse_digits (map classify l) p n var = Some (v, p') ->
  0 <= v <= var * 10 ^ Z.of_nat n + 10 ^ Z.of_nat n - 1.
Proof.
  revert p var. induction n as [ | n IH]; intros p var Hvar H.
  - cbn [parse_digits] in H. injection H as <- _. cbn. lia.
  - cbn [parse_digits] in H.
    pose proof (at_in_range l p) as Hd.
    destruct (at_ (map classify l) p) as [d | | | | | | | | | w]; try discriminate H.
    cbn [digit_in_range] in Hd.
    apply IH in H; [ | lia ].
    rewrite Nat2Z.inj_succ, Z.pow_succ_r by lia.
    pose proof (Z.pow_pos_nonneg 10 (Z.of_nat n) ltac:(lia) ltac:(lia)). nia.
Qed.

Lemma parse_fraction_bounds (l : list ascii) (p p_end : nat) (h m s : Z)
    (rest : bool) (t : Z * Z * Z * Z) :
  0 <= h -> 0 <= m -> 0 <= s ->
  parse_fraction (map classify l) p p_end h m s = Some (rest, t) -> time_in_range t.
Proof.
  intros Hh Hm Hs. unfold parse_fraction.
  destruct (parse_digits _ p _ 0) as [[us q] | ] eqn:Hp; [ | discriminate ].
  intros H. injection H as _ <-.
  apply parse_digits_bounds in Hp; [ | lia ].
  cbn [time_in_range]. repeat split; try assumption.
  - apply Z.mul_nonneg_nonneg; [ lia | apply Z.pow_nonneg; lia ].
  - set (k := Nat.min (p_end - p) 6) in *.
    assert (Hk : (k <= 6)%nat) by (subst k; lia).
    assert (Hpow : 10 ^ Z.of_nat k * 10 ^ Z.of_nat (6 - k) = 1000000).
    { rewrite <- Z.pow_add_r by lia.
      replace (Z.of_nat k + Z.of_nat (6 - k)) with 6 by lia. reflexivity. }
    pose proof (Z.pow_pos_nonneg 10 (Z.of_nat k) ltac:(lia) ltac:(lia)).
    pose proof (Z.pow_pos_nonneg 10 (Z.of_nat (6 - k)) ltac:(lia) ltac:(lia)).
    nia.
Qed.

Lemma parse_hh_mm_ss_ff_bounds (l : list ascii) (p p_end : nat) (rest : bool)
    (t : Z * Z * Z * Z) :
  parse_hh_mm_ss_ff (map classify l) p p_end = Some (rest, t) -> time_in_range t.
Proof.
  unfold parse_hh_mm_ss_ff. intros H.
  repeat match type of H with
         | match parse_digits ?b ?q ?n 0 with _ => _ end = Some _ =>
             let Hp := fresh "Hp" in
             destruct (parse_digits b q n 0) as [[? ?] | ] eqn:Hp;
             [ apply parse_digits_bounds in Hp; [ | lia ] | discriminate H ]
         | match after_component ?b ?q ?e ?c with _ => _ end = Some _ =>
             destruct (after_component b q e c); try discriminate H
         end;
    first [ injection H as _ <-; cbn [time_in_range]; lia
          | apply parse_fraction_bounds in H; [ exact H | lia .. ] ].
Qed.

Lemma utcoffset_normal (sign seconds microseconds : Z) :
  sign = 1 \/ sign = -1 -> 0 <= seconds -> 0 <= microseconds <= 999999 ->
  (if Z.abs (utcoffset sign seconds microseconds) <? 1000000 then 0
   else utcoffset sign seconds microseconds)
  = utcoffset sign seconds microseconds.
Proof.
  intros Hsign Hs Hus. unfold utcoffset.
  destruct (Z.eqb_spec seconds 0) as [Hz | Hz]; [ reflexivity | ].
  destruct (Z.ltb_spec (Z.abs (sign * (seconds * 1000000 + microseconds))) 1000000)
    as [Hlt | Hge]; [ | reflexivity ].
  destruct Hsign as [-> | ->]; lia.
Qed.

Lemma parse_isoformat_time_normal (l : list ascii) (p : nat) (h m s us off : Z) :
  parse_isoformat_time (map classify l) p = Some (h, m, s, us, Some off) ->
  (if Z.abs off <? 1000000 then 0 else off) = off.
Proof.
  unfold parse_isoformat_time.
  destruct (parse_hh_mm_ss_ff _ p _) as [[rest [[[h' m'] s'] us']] | ];
    [ | discriminate ].
  destruct (Nat.eqb _ _).
  { destruct rest; discriminate. }
  destruct (at_ (map classify l) _) eqn:Hsign;
    try (destruct (is_nul _); [ intros H; injection H as _ _ _ _ <-; reflexivity
                              | discriminate ]);
    destruct (parse_hh_mm_ss_ff _ _ _) as [[[ | ] [[[tzh tzm] tzs] tzus]] | ] eqn:Htz;
    try discriminate;
    apply parse_hh_mm_ss_ff_bounds in Htz; cbn [time_in_range] in Htz;
    intros H; injection H as _ _ _ _ <-;
    apply utcoffset_normal; cbn [is_dash]; lia.
Qed.

(** An offset that [fromisoformat] returns is UTC or at least a second. *)
Lemma fromisoformat_normal (s : string) (dt : datetime) :
  fromisoformat s = Some dt -> read_back dt = dt.
Proof.
  unfold fromisoformat, fromisoformat_bytes.
  destruct (Nat.ltb _ 7); [ discriminate | ].
  destruct (find_separator _) as [sep | ]; [ | discriminate ].
  destruct (parse_isoformat_date _ sep) as [d | ]; [ | discriminate ].
  destruct (Nat.ltb sep _).
  - destruct (parse_isoformat_time _ _) as [[[[[h m] se] us] tz] | ] eqn:Ht;
      [ | discriminate ].
    destruct (valid _); [ | discriminate ].
    intros H. injection H as <-. unfold read_back.
    cbn [year month day hour minute second microsecond tzinfo].
    destruct tz as [off | ]; [ | reflexivity ].
    rewrite (parse_isoformat_time_normal _ _ _ _ _ _ _ Ht). reflexivity.
  - destruct (valid _); [ | discriminate ].
    intros H. injection H as <-. reflexivity.
Qed.

End IsoFormat.

Section DatePreserved.

Import Datetime.

Lemma replace_char_absent (c : ascii) (new s : string) (fuel : nat) :
  forallb (fun x => negb (Ascii.eqb c x)) (list_ascii_of_string s) = true ->
  Str.replace_fuel fuel (String c "") new s = s.
Proof.
  revert s. induction fuel as [ | k IH]; intros s Hs; [ reflexivity | ].
  destruct s as [ | a r]; [ reflexivity | ].
  cbn [list_ascii_of_string forallb] in Hs.
  apply andb_true_iff in Hs. destruct Hs as [Ha Hr].
  apply negb_true_iff in Ha.
  cbn [Str.replace_fuel Str.startswith String.eqb negb andb]. rewrite Ha.
  cbn [andb]. rewrite (IH r Hr). reflexivity.
Qed.

Lemma digit_is_not_Z (n : Z) : negb (Ascii.eqb "Z" (digit (n mod 10))) = true.
Proof.
  pose proof (Z.mod_pos_bound n 10 ltac:(lia)) as H.
  rewrite <- (Z2Nat.id (n mod 10)) by lia.
  assert (Hk : (Z.to_nat (n mod 10) < 10)%nat) by lia.
  revert Hk. generalize (Z.to_nat (n mod 10)). intros k Hk.
  do 10 (destruct k as [ | k]; [ reflexivity | ]). lia.
Qed.

(** [isoformat] prints no [Z]. *)
Lemma isoformat_has_no_Z (dt : datetime) :
  forallb (fun x => negb (Ascii.eqb "Z" x)) (isoformat_chars dt) = true.
Proof.
  unfold isoformat_chars, tz_chars, digits4, digits2, digits6.
  destruct (microsecond dt =? 0), (tzinfo dt) as [off | ];
    try destruct (off <? 0);
    try destruct (Z.abs off mod 1000000 =? 0);
    try destruct (Z.abs off / 1000000 mod 60 =? 0);
    cbn [app forallb andb]; rewrite !digit_is_not_Z; reflexivity.
Qed.

(** The way the bot reads a [datetime_str] gives back what [isoformat] was
    applied to, up to an offset of less than a second. *)
Lemma parse_datetime_str_isoformat (dt : datetime) :
  valid dt = true -> parse_datetime_str (isoformat dt) = Some (read_back dt).
Proof.
  intros Hv. unfold parse_datetime_str, Str.replace.
  rewrite replace_char_absent.
  - apply fromisoformat_isoformat. exact Hv.
  - unfold isoformat. rewrite list_ascii_of_string_of_list_ascii.
    apply isoformat_has_no_Z.
Qed.

Lemma date_eqb_false (a b : date) : a <> b -> date_eqb a b = false.
Proof.
  intros Hne. destruct (date_eqb a b) eqn:H; [ | reflexivity ].
  exfalso. apply Hne. unfold date_eqb in H.
  apply andb_true_iff in H. destruct H as [H Hd].
  apply andb_true_iff in H. destruct H as [Hy Hm].
  apply Z.eqb_eq in Hy, Hm, Hd. destruct a, b. cbn in *. congruence.
Qed.

End DatePreserved.

Section TimeReplies.

Variable E : Env.

(** C7. When the reply is re-extracted with a specific time and a
    confidence above 0.7 on a date that is not the original one, the handler
    invokes the workflow of the bot, whichever it is, on a state whose
    intent is the corrected one: its [datetime_str] is the ISO text of the
    original date, with the original offset if any, at the re-extracted hour
    and minute, seconds and microseconds zero, and reads back as that date
    and time; its other fields are those of the re-extracted intent. *)
Theorem corrected_intent_keeps_original_date (agent_workflow : StateGraph)
    (user_message : string) (chat_id : Z) (context : Context) (w : World)
    (original_date updated_datetime : Datetime.datetime) :
  let combined_message := combined_message_of E user_message context original_date w in
  let updated_intent := GeminiClient.answer E (List.length (trace w)) combined_message in
  let corrected_datetime :=
    {| Datetime.year := Datetime.year original_date;
       Datetime.month := Datetime.month original_date;
       Datetime.day := Datetime.day original_date;
       Datetime.hour := Datetime.hour updated_datetime;
       Datetime.minute := Datetime.minute updated_datetime;
       Datetime.second := 0;
       Datetime.microsecond := 0;
       Datetime.tzinfo := Datetime.tzinfo original_date |} in
  let corrected :=
    {| activity := activity updated_intent;
       datetime_str := Datetime.isoformat corrected_datetime;
       location := location updated_intent;
       confidence := confidence updated_intent;
       is_weather_query := is_weather_query updated_intent;
       has_specific_time := has_specific_time updated_intent |} in
  parse_datetime_str (datetime_str (original_intent context)) = Some original_date ->
  parse_datetime_str (datetime_str updated_intent) = Some updated_datetime ->
  has_specific_time updated_intent = true ->
  Float.gt (confidence updated_intent) 0.7 = true ->
  Datetime.date_of updated_datetime <> Datetime.date_of original_date ->
  TelegramBot.handle_time_clarification_response_with agent_workflow E user_message
    chat_id context w
  = try_except
      (let* final_state :=
         ainvoke agent_workflow
           (TelegramBot.make_state combined_message chat_id (Some corrected)) in
       TelegramBot.settle_resumed_run E chat_id final_state)
      (fun _ => reply_text chat_id Msg.time_trouble)
      (log [LLMCall combined_message] w)
  /\ parse_datetime_str (datetime_str corrected) = Some corrected_datetime.
Proof.
  intros combined_message updated_intent corrected_datetime corrected
         Horig Hupd Htime Hconf Hdate.
  split.
  { unfold TelegramBot.handle_time_clarification_response_with.
    rewrite Horig. unfold bind at 1. unfold ticks at 1.
    fold (combined_message_of E user_message context original_date w).
    fold combined_message.
    unfold try_except, GeminiClient.extract_intent.
    unfold bind at 1 2 3. unfold ticks, emit, ret.
    fold updated_intent. rewrite Htime, Hconf. cbn [andb]. rewrite Hupd.
    unfold TelegramBot.preserve_original_date.
    rewrite (date_eqb_false _ _ Hdate). cbn [negb].
    reflexivity. }
  change (datetime_str corrected) with (Datetime.isoformat corrected_datetime).
  assert (Hvalid : Datetime.valid corrected_datetime = true).
  { pose proof (fromisoformat_valid _ _ Horig) as Ho.
    pose proof (fromisoformat_valid _ _ Hupd) as Hu.
    apply valid_fields in Ho, Hu.
    destruct Ho as (Hy & Hmo & Hd & _ & _ & _ & _ & Htz).
    destruct Hu as (_ & _ & _ & Hh & Hmi & _).
    unfold Datetime.valid, Datetime.in_range, corrected_datetime.
    cbn [Datetime.year Datetime.month Datetime.day Datetime.hour Datetime.minute
           Datetime.second Datetime.microsecond Datetime.tzinfo].
    repeat (apply andb_true_iff; split); try (apply Z.leb_le; lia).
    destruct (Datetime.tzinfo original_date); [ | reflexivity ].
    apply andb_true_iff. split; apply Z.leb_le; lia. }
  rewrite (parse_datetime_str_isoformat _ Hvalid). f_equal.
  pose proof (fromisoformat_normal _ _ Horig) as Hnormal.
  unfold Datetime.read_back in *. unfold corrected_datetime.
  cbn [Datetime.year Datetime.month Datetime.day Datetime.hour Datetime.minute
         Datetime.second Datetime.microsecond Datetime.tzinfo].
  f_equal. destruct original_date as [y mo d h mi se us tz].
  cbn [Datetime.tzinfo] in *. congruence.
Qed.

End TimeReplies.

Lemma corrected_intent_keeps_original_date_witness :
  let E := constant_env run_at_six_on_the_27th clear_sky in
  let combined_message := "I want to run tomorrow at 6pm" in
  let corrected :=
    {| activity := "run"; datetime_str := "2025-05-28T18:00:00"; location := None;
       confidence := 0.875; is_weather_query := false; has_specific_time := true |} in
  (TelegramBot.handle_time_clarification_response_with echo_datetime_str E "6pm" 7
     pending_run world_with_pending_run
   = try_except
       (let* final_state :=
          ainvoke echo_datetime_str
            (TelegramBot.make_state combined_message 7 (Some corrected)) in
        TelegramBot.settle_resumed_run E 7 final_state)
       (fun _ => reply_text 7 Msg.time_trouble)
       (log [LLMCall combined_message] world_with_pending_run)
   /\ parse_datetime_str (datetime_str corrected)
      = Some {| Datetime.year := 2025; Datetime.month := 5; Datetime.day := 28;
                Datetime.hour := 18; Datetime.minute := 0; Datetime.second := 0;
                Datetime.microsecond := 0; Datetime.tzinfo := None |})
  /\ replies
       (trace (snd (TelegramBot.handle_time_clarification_response_with
                      echo_datetime_str E "6pm" 7 pending_run world_with_pending_run)))
     = [(7, "2025-05-28T18:00:00")].
Proof.
  split; [ | vm_compute; reflexivity ].
  apply (corrected_intent_keeps_original_date
           (constant_env run_at_six_on_the_27th clear_sky) echo_datetime_str "6pm" 7
           pending_run world_with_pending_run
           {| Datetime.year := 2025; Datetime.month := 5; Datetime.day := 28;
              Datetime.hour := 0; Datetime.minute := 0; Datetime.second := 0;
              Datetime.microsecond := 0; Datetime.tzinfo := None |}
           {| Datetime.year := 2025; Datetime.month := 5; Datetime.day := 27;
              Datetime.hour := 18; Datetime.minute := 0; Datetime.second := 0;
              Datetime.microsecond := 0; Datetime.tzinfo := None |}).
  - reflexivity.
  - reflexivity.
  - reflexivity.
  - reflexivity.
  - intros H. discriminate H.
Defined.

(** * Further properties of the workflow and the handlers *)

(** ** Every run of the workflow *)

Section RunsReturn.

Variable E : Env.

(** The node picked by the router, from the rule it satisfies. *)
Lemma route_of (state : AgentState) (n : Node) :
  routeAfterExtraction (intent state) n -> should_check_weather state = n.
Proof.
  intros H.
  exact (routeAfterExtraction_functional _ _ _ (should_check_weather_sound state) H).
Qed.

(** Every run returns and only adds events to the world. *)
Lemma ainvoke_logs (state : AgentState) (w : World) :
  exists (final_state : AgentState) (events : list Event),
    ainvoke (create_agent_workflow E) state w = (Returned final_state, log events w).
Proof.
  rewrite ainvoke_extract.
  pose proof (should_check_weather_sound
                (set_intent state (Some (extracted E state w)))) as Hr.
  change (intent (set_intent state (Some (extracted E state w))))
    with (Some (extracted E state w)) in Hr.
  destruct (should_check_weather (set_intent state (Some (extracted E state w))))
    eqn:Hroute; try solve [ inversion Hr ].
  - rewrite (run_check_weather E _ _ _ (extracted E state w)) by reflexivity.
    unfold should_create_event. cbn [weather set_weather].
    destruct (is_rainy (fetched E (extracted E state w) _)); cbn [negb].
    + rewrite run_request_clarification, !log_log. eauto.
    + rewrite (run_create_event E _ _ _ (extracted E state w)) by reflexivity.
      rewrite !log_log. eauto.
  - rewrite (run_weather_query E _ _ _ (extracted E state w)) by reflexivity.
    rewrite !log_log. eauto.
  - rewrite (run_request_time_clarification E _ _ _ (extracted E state w))
      by reflexivity.
    rewrite !log_log. eauto.
  - rewrite run_request_clarification, !log_log. eauto.
  - rewrite run_casual_conversation, !log_log. eauto.
Qed.

(** X1. The compiled graph has no cycle: every run returns, without an
    exception and far below the recursion limit, after one of six paths of
    two or three nodes. It calls the LLM exactly once, on the message of the
    initial state, asks for at most one forecast and calls the calendar at
    most once; the final state keeps the message and the chat and carries the
    intent extracted in the run. *)
Theorem workflow_run_returns (state : AgentState) (w : World) :
  exists (final_state : AgentState) (events : list Event),
    ainvoke (create_agent_workflow E) state w = (Returned final_state, log events w)
    /\ In (visited events) workflow_paths
    /\ llm_calls events = [user_message state]
    /\ (List.length (forecast_calls events) <= 1)%nat
    /\ (List.length (calendar_calls events) <= 1)%nat
    /\ user_message final_state = user_message state
    /\ telegram_chat_id final_state = telegram_chat_id state
    /\ intent final_state = Some (extracted E state w).
Proof.
  rewrite ainvoke_extract.
  pose proof (should_check_weather_sound
                (set_intent state (Some (extracted E state w)))) as Hr.
  change (intent (set_intent state (Some (extracted E state w))))
    with (Some (extracted E state w)) in Hr.
  destruct (should_check_weather (set_intent state (Some (extracted E state w))))
    eqn:Hroute; try solve [ inversion Hr ].
  - rewrite (run_check_weather E _ _ _ (extracted E state w)) by reflexivity.
    unfold should_create_event. cbn [weather set_weather].
    destruct (is_rainy (fetched E (extracted E state w) _)); cbn [negb].
    + rewrite run_request_clarification, !log_log.
      eexists; eexists. split; [ reflexivity | ].
      cbn. repeat split; auto 10.
    + rewrite (run_create_event E _ _ _ (extracted E state w)) by reflexivity.
      rewrite !log_log.
      eexists; eexists. split; [ reflexivity | ].
      cbn. repeat split; auto 10.
  - rewrite (run_weather_query E _ _ _ (extracted E state w)) by reflexivity.
    rewrite !log_log.
    eexists; eexists. split; [ reflexivity | ].
    cbn. repeat split; auto 10.
  - rewrite (run_request_time_clarification E _ _ _ (extracted E state w))
      by reflexivity.
    rewrite !log_log.
    eexists; eexists. split; [ reflexivity | ].
    cbn. repeat split; auto 10.
  - rewrite run_request_clarification, !log_log.
    eexists; eexists. split; [ reflexivity | ].
    cbn. repeat split; auto 10.
  - rewrite run_casual_conversation, !log_log.
    eexists; eexists. split; [ reflexivity | ].
    cbn. repeat split; auto 10.
Qed.

(** A run leaves the conversation contexts alone. *)
Lemma ainvoke_keeps_contexts (state : AgentState) (w : World) :
  conversation_context (snd (ainvoke (create_agent_workflow E) state w))
  = conversation_context w.
Proof.
  destruct (ainvoke_logs state w) as (final_state & events & Hrun).
  rewrite Hrun. reflexivity.
Qed.

End RunsReturn.

(** ** Fresh requests, route by route *)

Section RequestOutcomes.

Variable E : Env.

Lemma schedulable_route (state : AgentState) (i : IntentExtraction) :
  intent state = Some i -> schedulable i -> should_check_weather state = check_weather.
Proof.
  intros Hi (Hg & Hu & Hc & Hq & Ht). apply route_of. rewrite Hi.
  apply route_check_weather; try assumption.
  - intros [Ha _]. contradiction.
  - repeat split; assumption.
Qed.

(** A schedulable intent is not an unclear one. *)
Lemma schedulable_response (state : AgentState) (i : IntentExtraction) :
  intent state = Some i -> schedulable i ->
  clarification_response state =
  Msg.rainy_choices
    match weather state with Some w => description w | None => "rainy" end
    (activity i) (format_datetime_human_readable (datetime_str i)).
Proof.
  intros Hi (Hg & Hu & _). unfold clarification_response. rewrite Hi.
  rewrite (gt_not_le _ _ Hg).
  apply activity_is_false in Hu. rewrite Hu. reflexivity.
Qed.

(** What the handler does with a schedulable request, by the forecast. *)
Lemma run_new_request_schedulable (user_message : string) (chat_id : Z) (w : World)
    (i : IntentExtraction) :
  intent (request_state E user_message chat_id w) = Some i ->
  schedulable i ->
  TelegramBot.run_new_request E user_message chat_id w =
  let n := List.length (trace w) in
  let wd := fetched E i (log [LLMCall user_message; Visit extract_intent] w) in
  let asked :=
    [ForecastCall (datetime_str i) (or_singapore (location i)); Visit check_weather;
     LLMCall user_message; Visit extract_intent] in
  if is_rainy wd then
    (Returned tt,
     {| conversation_context :=
          <[chat_id := stored E weather_clarification i (Some wd) (5 + n)]>
            (conversation_context w);
        trace :=
          ReplyText chat_id
            (Msg.rainy_choices (description wd) (activity i)
               (format_datetime_human_readable (datetime_str i)))
          :: Visit request_clarification :: asked ++ trace w |})
  else
    (Returned tt,
     log (ReplyText chat_id
            (if google_calendar E (5 + n) i
             then Msg.scheduled (activity i)
                    (format_datetime_human_readable (datetime_str i))
             else Msg.calendar_failed)
          :: CalendarCall (Some i) :: Visit create_event :: asked) w).
Proof.
  intros Hi Hs. cbv zeta.
  pose proof Hs as (Hg & _ & _ & _ & Ht).
  unfold TelegramBot.run_new_request, try_except, bind.
  rewrite ainvoke_request, (schedulable_route _ i Hi Hs).
  rewrite (run_check_weather E _ _ _ i) by exact Hi.
  unfold should_create_event. cbn [weather set_weather].
  destruct (is_rainy (fetched E i _)) eqn:Hrain; cbn [negb].
  - rewrite run_request_clarification.
    rewrite (schedulable_response _ i) by (assumption || exact Hi).
    unfold TelegramBot.store_clarification_context.
    cbn [intent needs_clarification weather set_needs_clarification
           set_response_message set_weather response_message].
    rewrite Hi, Hg, Ht, Hrain. reflexivity.
  - rewrite (run_create_event E _ _ _ i) by exact Hi.
    unfold TelegramBot.store_clarification_context.
    cbn [intent needs_clarification weather set_calendar_event_created
           set_response_message set_weather response_message].
    rewrite Hi. reflexivity.
Qed.

(** X2. A clear request with a time of day and a forecast that is not rainy
    is scheduled: after one forecast call the calendar is called once, with
    the extracted intent, and the reply reports the event, or the failure
    when the calendar refuses. No context is stored. *)
Theorem dry_forecast_creates_event (user_message : string) (chat_id : Z) (w : World) :
  let i := GeminiClient.answer E (S (List.length (trace w))) user_message in
  let wd := fetched E i (log [LLMCall user_message; Visit extract_intent] w) in
  schedulable i ->
  is_rainy wd = false ->
  TelegramBot.run_new_request E user_message chat_id w =
  (Returned tt,
   log [ReplyText chat_id
          (if google_calendar E (5 + List.length (trace w)) i
           then Msg.scheduled (activity i)
                  (format_datetime_human_readable (datetime_str i))
           else Msg.calendar_failed);
        CalendarCall (Some i); Visit create_event;
        ForecastCall (datetime_str i) (or_singapore (location i));
        Visit check_weather; LLMCall user_message; Visit extract_intent] w).
Proof.
  intros i wd Hs Hdry.
  rewrite (run_new_request_schedulable user_message chat_id w i eq_refl Hs).
  cbv zeta. fold wd. rewrite Hdry. reflexivity.
Qed.

(** X3. A clear request with a time of day and a rainy forecast is not
    scheduled: the calendar is not called, the reply asks the three-choice
    question with the forecast description, and a weather clarification
    with the intent and the forecast is stored for the chat. *)
Theorem rainy_forecast_asks_first (user_message : string) (chat_id : Z) (w : World) :
  let i := GeminiClient.answer E (S (List.length (trace w))) user_message in
  let wd := fetched E i (log [LLMCall user_message; Visit extract_intent] w) in
  schedulable i ->
  is_rainy wd = true ->
  TelegramBot.run_new_request E user_message chat_id w =
  (Returned tt,
   {| conversation_context :=
        <[chat_id := {| original_intent := i;
                        ctx_weather := Some wd;
                        waiting_for := weather_clarification;
                        timestamp := time_time E (5 + List.length (trace w)) |}]>
          (conversation_context w);
      trace :=
        [ReplyText chat_id
           (Msg.rainy_choices (description wd) (activity i)
              (format_datetime_human_readable (datetime_str i)));
         Visit request_clarification;
         ForecastCall (datetime_str i) (or_singapore (location i));
         Visit check_weather; LLMCall user_message; Visit extract_intent]
        ++ trace w |}).
Proof.
  intros i wd Hs Hrain.
  rewrite (run_new_request_schedulable user_message chat_id w i eq_refl Hs).
  cbv zeta. fold wd. rewrite Hrain. reflexivity.
Qed.

(** X4. When the forecast provider fails, a clear request with a time of
    day is scheduled all the same: the fallback weather is not rainy, so the
    calendar is called. *)
Theorem forecast_outage_schedules_anyway (user_message : string) (chat_id : Z)
    (w : World) :
  let i := GeminiClient.answer E (S (List.length (trace w))) user_message in
  schedulable i ->
  openweathermap E (3 + List.length (trace w)) (datetime_str i)
    (or_singapore (location i)) = None ->
  TelegramBot.run_new_request E user_message chat_id w =
  (Returned tt,
   log [ReplyText chat_id
          (if google_calendar E (5 + List.length (trace w)) i
           then Msg.scheduled (activity i)
                  (format_datetime_human_readable (datetime_str i))
           else Msg.calendar_failed);
        CalendarCall (Some i); Visit create_event;
        ForecastCall (datetime_str i) (or_singapore (location i));
        Visit check_weather; LLMCall user_message; Visit extract_intent] w).
Proof.
  intros i Hs Hdown.
  rewrite (run_new_request_schedulable user_message chat_id w i eq_refl Hs).
  cbv zeta.
  assert (Hw : fetched E i (log [LLMCall user_message; Visit extract_intent] w)
               = WeatherClient.fallback_weather).
  { unfold fetched, WeatherClient.forecast. cbn [log trace app List.length].
    change (S (S (S (List.length (trace w))))) with (3 + List.length (trace w))%nat.
    rewrite Hdown. reflexivity. }
  rewrite Hw. reflexivity.
Qed.

(** X5. A clear request without a time of day is answered by the time
    question, which names the activity and the date as
    [format_datetime_human_readable] prints it; neither the forecast nor the
    calendar is called, and a time clarification with the intent is stored
    for the chat. *)
Theorem missing_time_is_asked_for (user_message : string) (chat_id : Z) (w : World) :
  let i := GeminiClient.answer E (S (List.length (trace w))) user_message in
  Float.gt (confidence i) 0.5 = true ->
  activity i <> "unknown" -> activity i <> "casual conversation" ->
  is_weather_query i = false -> has_specific_time i = false ->
  TelegramBot.run_new_request E user_message chat_id w =
  (Returned tt,
   {| conversation_context :=
        <[chat_id := {| original_intent := i;
                        ctx_weather := None;
                        waiting_for := time_clarification;
                        timestamp := time_time E (3 + List.length (trace w)) |}]>
          (conversation_context w);
      trace :=
        [ReplyText chat_id
           (Msg.time_question (activity i)
              (format_datetime_human_readable (datetime_str i)));
         Visit request_time_clarification; LLMCall user_message;
         Visit extract_intent] ++ trace w |}).
Proof.
  intros i Hg Hu Hc Hq Ht.
  assert (Hroute : should_check_weather (request_state E user_message chat_id w)
                   = request_time_clarification).
  { apply route_of. change (intent (request_state E user_message chat_id w)) with (Some i).
    apply route_time_clarification; try assumption.
    - intros [Ha _]. contradiction.
    - repeat split; assumption. }
  unfold TelegramBot.run_new_request, try_except, bind.
  rewrite ainvoke_request, Hroute.
  rewrite (run_request_time_clarification E _ _ _ i) by reflexivity.
  unfold TelegramBot.store_clarification_context.
  cbn [intent needs_clarification set_needs_clarification set_response_message
         response_message].
  change (intent (request_state E user_message chat_id w)) with (Some i).
  cbv iota. rewrite Hg, Ht. reflexivity.
Qed.


(** A casual intent is answered by [casual_conversation_node] alone. *)
Lemma run_new_request_casual (user_message : string) (chat_id : Z) (w : World) :
  casual (GeminiClient.answer E (S (List.length (trace w))) user_message) ->
  TelegramBot.run_new_request E user_message chat_id w =
  (Returned tt,
   log [ReplyText chat_id (casual_response user_message); Visit casual_conversation;
        LLMCall user_message; Visit extract_intent] w).
Proof.
  intros Hc.
  assert (Hroute : should_check_weather (request_state E user_message chat_id w)
                   = casual_conversation).
  { apply route_of. apply route_casual. exact Hc. }
  unfold TelegramBot.run_new_request, try_except, bind.
  rewrite ainvoke_request, Hroute, run_casual_conversation. reflexivity.
Qed.

(** X7. A casual conversation reported with confidence at most 0.1 is
    answered by one of the four canned replies; nothing but the LLM is
    called and no context is stored. *)
Theorem casual_message_is_answered_directly (user_message : string) (chat_id : Z)
    (w : World) :
  casual (GeminiClient.answer E (S (List.length (trace w))) user_message) ->
  TelegramBot.run_new_request E user_message chat_id w =
  (Returned tt,
   log [ReplyText chat_id (casual_response user_message); Visit casual_conversation;
        LLMCall user_message; Visit extract_intent] w)
  /\ In (casual_response user_message) casual_replies.
Proof.
  intros Hc. split.
  - exact (run_new_request_casual user_message chat_id w Hc).
  - unfold casual_response, casual_replies.
    destruct (Str.any_in _ _); [ now left | ].
    destruct (Str.any_in _ _); [ right; now left | ].
    destruct (Str.any_in _ _); [ right; right; now left | ].
    right; right; right; now left.
Qed.

(** X8. The greeting words are matched inside words and tested first: a
    casual message that contains "hi", "hey" or another greeting word
    anywhere, such as "thanks for this", is answered by the greeting, not by
    the reply to thanks. *)
Theorem greeting_word_inside_a_word (user_message : string) (chat_id : Z)
    (w : World) (word : string) :
  casual (GeminiClient.answer E (S (List.length (trace w))) user_message) ->
  In word greeting_words ->
  Str.contains word (Str.lower user_message) = true ->
  TelegramBot.run_new_request E user_message chat_id w =
  (Returned tt,
   log [ReplyText chat_id Msg.casual_greeting; Visit casual_conversation;
        LLMCall user_message; Visit extract_intent] w).
Proof.
  intros Hc Hword Hin.
  rewrite (run_new_request_casual user_message chat_id w Hc).
  unfold casual_response.
  assert (Hany : Str.any_in greeting_words (Str.lower user_message) = true).
  { unfold Str.any_in. apply existsb_exists. exists word. now split. }
  unfold greeting_words in Hany. rewrite Hany. reflexivity.
Qed.

End RequestOutcomes.

Lemma dry_forecast_creates_event_witness :
  let E := constant_env run_at_six_on_the_28th clear_sky in
  let user_message := "run tomorrow at 6pm" in
  TelegramBot.run_new_request E user_message 7 empty_world =
  (Returned tt,
   log [ReplyText 7
          (Msg.scheduled "run" (format_datetime_human_readable "2025-05-28T18:00:00"));
        CalendarCall (Some run_at_six_on_the_28th); Visit create_event;
        ForecastCall "2025-05-28T18:00:00" "Singapore";
        Visit check_weather; LLMCall user_message; Visit extract_intent] empty_world).
Proof.
  apply (dry_forecast_creates_event (constant_env run_at_six_on_the_28th clear_sky)
           "run tomorrow at 6pm" 7 empty_world); by_evaluation.
Defined.

Lemma rainy_forecast_asks_first_witness :
  let E := constant_env run_at_six_on_the_28th light_rain in
  let user_message := "run tomorrow at 6pm" in
  TelegramBot.run_new_request E user_message 7 empty_world =
  (Returned tt,
   {| conversation_context :=
        {[ 7 := {| original_intent := run_at_six_on_the_28th;
                   ctx_weather := Some light_rain;
                   waiting_for := weather_clarification;
                   timestamp := 1000000%float |} ]};
      trace :=
        [ReplyText 7
           (Msg.rainy_choices "light rain" "run"
              (format_datetime_human_readable "2025-05-28T18:00:00"));
         Visit request_clarification;
         ForecastCall "2025-05-28T18:00:00" "Singapore";
         Visit check_weather; LLMCall user_message; Visit extract_intent] |}).
Proof.
  apply (rainy_forecast_asks_first (constant_env run_at_six_on_the_28th light_rain)
           "run tomorrow at 6pm" 7 empty_world); by_evaluation.
Defined.

Lemma forecast_outage_schedules_anyway_witness :
  let E := forecast_outage_env run_at_six_on_the_28th in
  let user_message := "run tomorrow at 6pm" in
  TelegramBot.run_new_request E user_message 7 empty_world =
  (Returned tt,
   log [ReplyText 7
          (Msg.scheduled "run" (format_datetime_human_readable "2025-05-28T18:00:00"));
        CalendarCall (Some run_at_six_on_the_28th); Visit create_event;
        ForecastCall "2025-05-28T18:00:00" "Singapore";
        Visit check_weather; LLMCall user_message; Visit extract_intent] empty_world).
Proof.
  apply (forecast_outage_schedules_anyway (forecast_outage_env run_at_six_on_the_28th)
           "run tomorrow at 6pm" 7 empty_world); by_evaluation.
Defined.

Lemma missing_time_is_asked_for_witness :
  let E := constant_env (original_intent pending_run) clear_sky in
  let user_message := "run tomorrow" in
  TelegramBot.run_new_request E user_message 7 empty_world =
  (Returned tt,
   {| conversation_context :=
        {[ 7 := {| original_intent := original_intent pending_run;
                   ctx_weather := None;
                   waiting_for := time_clarification;
                   timestamp := 1000000%float |} ]};
      trace :=
        [ReplyText 7
           (Msg.time_question "run" (format_datetime_human_readable "2025-05-28"));
         Visit request_time_clarification; LLMCall user_message;
         Visit extract_intent] |}).
Proof.
  apply (missing_time_is_asked_for (constant_env (original_intent pending_run) clear_sky)
           "run tomorrow" 7 empty_world); by_evaluation.
Defined.


Lemma casual_message_is_answered_directly_witness :
  let E := constant_env greeting_intent clear_sky in
  TelegramBot.run_new_request E "hello there" 7 empty_world =
  (Returned tt,
   log [ReplyText 7 (casual_response "hello there"); Visit casual_conversation;
        LLMCall "hello there"; Visit extract_intent] empty_world)
  /\ In (casual_response "hello there") casual_replies.
Proof.
  apply (casual_message_is_answered_directly (constant_env greeting_intent clear_sky)
           "hello there" 7 empty_world).
  by_evaluation.
Defined.

Lemma greeting_word_inside_a_word_witness :
  let E := constant_env greeting_intent clear_sky in
  Str.any_in ["thank"; "thanks"; "appreciate"] (Str.lower "Thanks for this") = true
  /\ TelegramBot.run_new_request E "Thanks for this" 7 empty_world =
     (Returned tt,
      log [ReplyText 7 Msg.casual_greeting; Visit casual_conversation;
           LLMCall "Thanks for this"; Visit extract_intent] empty_world).
Proof.
  split; [ reflexivity | ].
  apply (greeting_word_inside_a_word (constant_env greeting_intent clear_sky)
           "Thanks for this" 7 empty_world "hi").
  - by_evaluation.
  - cbn. tauto.
  - vm_compute. reflexivity.
Defined.

(** ** Messages that are dropped, late, or taken for new requests *)

Section Dispatch.

Variable E : Env.

Lemma startswith_prefix (p s : string) :
  Str.startswith p s = true -> exists r, s = p ++ r.
Proof.
  revert s. induction p as [ | x p IH]; intros s H.
  - exists s. reflexivity.
  - destruct s as [ | y s]; [ discriminate | ].
    simpl in H. apply andb_true_iff in H. destruct H as [Hx Hp].
    apply Ascii.eqb_eq in Hx. subst y.
    destruct (IH s Hp) as (r & ->). exists r. reflexivity.
Qed.

(** A substring of a substring is a substring. *)
Lemma contains_trans (a b s : string) :
  Str.contains a b = true -> Str.contains b s = true -> Str.contains a s = true.
Proof.
  intros Hab. induction s as [ | c s IH]; intros Hbs.
  - simpl in Hbs. rewrite orb_false_r in Hbs.
    destruct b; [ exact Hab | discriminate ].
  - simpl in Hbs. apply orb_true_iff in Hbs. destruct Hbs as [Hpre | Hin].
    + destruct (startswith_prefix _ _ Hpre) as (r & ->).
      apply contains_app_l. exact Hab.
    + simpl. rewrite (IH Hin). apply orb_true_r.
Qed.

Lemma any_in_of_contains (word : string) (words : list string) (s : string) :
  In word words -> Str.contains word s = true -> Str.any_in words s = true.
Proof.
  intros Hin Hc. unfold Str.any_in. apply existsb_exists. exists word. now split.
Qed.

(** Every word has a character of its own. *)
Lemma split_chars_length (cur : string) (l : list string) :
  (List.length (Str.split_chars cur l)
   <= List.length l + match cur with EmptyString => 0 | _ => 1 end)%nat.
Proof.
  revert cur. induction l as [ | ch l IH]; intros cur.
  - cbn [Str.split_chars]. destruct cur; cbn [List.length]; lia.
  - cbn [Str.split_chars]. destruct (Str.is_space ch).
    + pose proof (IH EmptyString) as H.
      destruct cur; cbn [List.length] in *; lia.
    + pose proof (IH (cur ++ ch)%string) as H. cbn [List.length].
      destruct (cur ++ ch)%string; destruct cur.
      all: lia.
Qed.

(** A message of more than three words has more than three characters. *)
Lemma words_len (s : string) :
  (3 < List.length (Str.split s))%nat -> (2 <= Str.len s)%nat.
Proof.
  unfold Str.split, Str.len. intros H.
  pose proof (split_chars_length EmptyString (Str.chars s)) as Hw.
  cbn beta iota in Hw. lia.
Qed.

(** With a pending entry, a message that looks like a new request deletes
    the entry and is run as a fresh request. *)
Lemma dispatch_new_request (user_message : string) (chat_id : Z) (w : World)
    (pending : Context) :
  conversation_context w !! chat_id = Some pending ->
  TelegramBot.looks_like_new_request user_message = true ->
  TelegramBot.dispatch E user_message chat_id w =
  TelegramBot.run_new_request E user_message chat_id (without_context chat_id w).
Proof.
  intros Hp Hnew. unfold TelegramBot.dispatch, bind, get_contexts.
  rewrite Hp, Hnew. rewrite (del_context_present chat_id pending w Hp).
  reflexivity.
Qed.

(** Without a pending entry every message is a fresh request. *)
Lemma dispatch_no_context (user_message : string) (chat_id : Z) (w : World) :
  conversation_context w !! chat_id = None ->
  TelegramBot.dispatch E user_message chat_id w =
  TelegramBot.run_new_request E user_message chat_id w.
Proof.
  intros Hp. unfold TelegramBot.dispatch, bind, get_contexts.
  rewrite Hp. reflexivity.
Qed.

(** X9. An update without text, and a message of fewer than two characters
    once the blanks at its ends are stripped, is dropped before anything
    else happens: no sweep, no reply, no call, and every pending entry stays
    as it was. Characters are counted, not bytes: a one-character answer
    such as "1" to the three-choice question is among them, and so is a
    single emoji or a single ideograph. *)
Theorem short_messages_are_dropped (chat_id : Z) (text : option string) (w : World) :
  too_short text ->
  TelegramBot.handle_message E chat_id text w = (Returned tt, w).
Proof.
  intros Hshort. unfold TelegramBot.handle_message.
  destruct text as [text | ]; [ | reflexivity ].
  destruct (String.eqb text ""); [ reflexivity | ].
  cbn [too_short] in Hshort.
  destruct (Nat.ltb_spec (Str.len (Str.strip text)) 2) as [_ | Hge];
    [ reflexivity | lia ].
Qed.

(** X10. New-request override. When an entry is pending for the chat after
    the sweep and the message contains a scheduling keyword and has more
    than three words, the entry is deleted and the message is run as a fresh
    request, whatever the entry was waiting for. *)
Theorem new_request_overrides_pending (chat_id : Z) (text : string) (w : World)
    (pending : Context) :
  conversation_context (swept E w) !! chat_id = Some pending ->
  Str.any_in TelegramBot.scheduling_keywords (Str.lower (Str.strip text)) = true ->
  (3 < List.length (Str.split (Str.strip text)))%nat ->
  TelegramBot.handle_message E chat_id (Some text) w =
  TelegramBot.run_new_request E (Str.strip text) chat_id
    (without_context chat_id (swept E w)).
Proof.
  intros Hp Hkey Hwords.
  rewrite (handle_message_sweeps_first E chat_id text w (words_len _ Hwords)).
  apply (dispatch_new_request _ _ _ pending Hp).
  unfold TelegramBot.looks_like_new_request. rewrite Hkey.
  apply Nat.ltb_lt in Hwords. rewrite Hwords. reflexivity.
Qed.

(** X11. The scheduling keywords are matched inside words: "schedule" is
    part of "reschedule" and "at" is part of "later". So a reply of more
    than three words that contains one of these two reschedule keywords is
    never classified as a reply: the pending entry is deleted and the reply
    is run as a fresh request. *)
Theorem long_reschedule_reply_is_a_new_request (chat_id : Z) (text : string)
    (w : World) (pending : Context) :
  conversation_context (swept E w) !! chat_id = Some pending ->
  Str.contains "reschedule" (Str.lower (Str.strip text)) = true
  \/ Str.contains "later" (Str.lower (Str.strip text)) = true ->
  (3 < List.length (Str.split (Str.strip text)))%nat ->
  In "reschedule" (keywords Reschedule) /\ In "later" (keywords Reschedule)
  /\ TelegramBot.handle_message E chat_id (Some text) w =
     TelegramBot.run_new_request E (Str.strip text) chat_id
       (without_context chat_id (swept E w)).
Proof.
  intros Hp Hword Hwords.
  split; [ cbn; tauto | ]. split; [ cbn; tauto | ].
  rewrite (handle_message_sweeps_first E chat_id text w (words_len _ Hwords)).
  apply (dispatch_new_request _ _ _ pending Hp).
  unfold TelegramBot.looks_like_new_request.
  apply Nat.ltb_lt in Hwords. rewrite Hwords, andb_true_r.
  destruct Hword as [Hword | Hword].
  - apply (any_in_of_contains "schedule"); [ cbn; tauto | ].
    exact (contains_trans "schedule" "reschedule" _ eq_refl Hword).
  - apply (any_in_of_contains "at"); [ cbn; tauto | ].
    exact (contains_trans "at" "later" _ eq_refl Hword).
Qed.

(** X12. A message of at least two characters that arrives when the entry
    of its chat is older than 600 seconds is not taken for a reply: the
    sweep removes the entry first, and the message is run as a fresh
    request. *)
Theorem late_reply_is_a_new_request (chat_id : Z) (text : string) (w : World)
    (pending : Context) :
  (2 <= Str.len (Str.strip text))%nat ->
  conversation_context w !! chat_id = Some pending ->
  TelegramBot.expired (time_time E (List.length (trace w))) pending = true ->
  TelegramBot.handle_message E chat_id (Some text) w =
  TelegramBot.run_new_request E (Str.strip text) chat_id (swept E w).
Proof.
  intros Hlen Hp Hexp.
  rewrite (handle_message_sweeps_first E chat_id text w Hlen).
  apply dispatch_no_context.
  unfold swept. cbn [conversation_context].
  rewrite lookup_swept, Hp, Hexp. reflexivity.
Qed.

End Dispatch.

Lemma short_messages_are_dropped_witness :
  String.length "👍" = 4%nat
  /\ TelegramBot.handle_message (constant_env unsure_intent light_rain) 7
       (Some " 👍 ") world_with_pending_rain
     = (Returned tt, world_with_pending_rain).
Proof.
  split; [ reflexivity | ].
  apply (short_messages_are_dropped (constant_env unsure_intent light_rain) 7
           (Some " 👍 ") world_with_pending_rain).
  vm_compute. lia.
Defined.

Lemma new_request_overrides_pending_witness :
  let E := constant_env run_at_six_on_the_28th clear_sky in
  TelegramBot.handle_message E 7 (Some "schedule a swim on friday at 5pm")
    world_with_pending_rain
  = TelegramBot.run_new_request E "schedule a swim on friday at 5pm" 7
      (without_context 7 (swept E world_with_pending_rain)).
Proof.
  apply (new_request_overrides_pending (constant_env run_at_six_on_the_28th clear_sky)
           7 "schedule a swim on friday at 5pm" world_with_pending_rain pending_rain).
  - vm_compute. reflexivity.
  - vm_compute. reflexivity.
  - vm_compute. lia.
Defined.

Lemma long_reschedule_reply_is_a_new_request_witness :
  let E := constant_env unsure_intent light_rain in
  In "reschedule" (keywords Reschedule) /\ In "later" (keywords Reschedule)
  /\ TelegramBot.handle_message E 7 (Some "let us do it later") world_with_pending_rain
     = TelegramBot.run_new_request E "let us do it later" 7
         (without_context 7 (swept E world_with_pending_rain)).
Proof.
  apply (long_reschedule_reply_is_a_new_request (constant_env unsure_intent light_rain)
           7 "let us do it later" world_with_pending_rain pending_rain).
  - vm_compute. reflexivity.
  - right. vm_compute. reflexivity.
  - vm_compute. lia.
Defined.

Lemma late_reply_is_a_new_request_witness :
  let E := constant_env run_at_six_on_the_27th clear_sky in
  TelegramBot.handle_message E 7 (Some "6pm") world_with_stale_run
  = TelegramBot.run_new_request E "6pm" 7 (swept E world_with_stale_run).
Proof.
  apply (late_reply_is_a_new_request (constant_env run_at_six_on_the_27th clear_sky)
           7 "6pm" world_with_stale_run stale_pending_run).
  - vm_compute. lia.
  - vm_compute. reflexivity.
  - vm_compute. reflexivity.
Defined.

(** ** Replies to the time question *)

Section TimeReplyOutcomes.

Variable E : Env.

(** The handler up to the test of the re-extracted intent. *)
Lemma handle_time_reply_unfold (user_message : string) (chat_id : Z)
    (context : Context) (w : World) (original_date : Datetime.datetime) :
  parse_datetime_str (datetime_str (original_intent context)) = Some original_date ->
  TelegramBot.handle_time_clarification_response E user_message chat_id context w =
  let combined_message := combined_message_of E user_message context original_date w in
  let updated_intent := reextracted E user_message context original_date w in
  try_except
    (if (has_specific_time updated_intent
         && Float.gt (confidence updated_intent) 0.7)%bool
     then
       match parse_datetime_str (datetime_str updated_intent) with
       | None => raise ValueError
       | Some updated_datetime =>
           TelegramBot.resume_scheduling E combined_message chat_id
             (TelegramBot.preserve_original_date original_date updated_datetime
                updated_intent)
       end
     else reply_text chat_id Msg.time_not_understood)
    (fun _ => reply_text chat_id Msg.time_trouble)
    (log [LLMCall combined_message] w).
Proof.
  intros Horig. unfold TelegramBot.handle_time_clarification_response,
    TelegramBot.handle_time_clarification_response_with.
  rewrite Horig. reflexivity.
Qed.

(** X13. When the re-extracted intent has no specific time, or a confidence
    that is not above 0.7, the handler answers that it could not understand
    the time and leaves the pending entry as it is, for another try: the
    workflow is not run, and the LLM was called once. *)
Theorem unclear_time_reply_keeps_entry (user_message : string) (chat_id : Z)
    (context : Context) (w : World) (original_date : Datetime.datetime) :
  let updated_intent := reextracted E user_message context original_date w in
  parse_datetime_str (datetime_str (original_intent context)) = Some original_date ->
  has_specific_time updated_intent = false
  \/ Float.gt (confidence updated_intent) 0.7 = false ->
  TelegramBot.handle_time_clarification_response E user_message chat_id context w =
  (Returned tt,
   log [ReplyText chat_id Msg.time_not_understood;
        LLMCall (combined_message_of E user_message context original_date w)] w).
Proof.
  intros updated_intent Horig Hweak.
  rewrite (handle_time_reply_unfold _ _ _ _ original_date Horig). cbv zeta.
  fold updated_intent.
  assert (Htest : (has_specific_time updated_intent
                   && Float.gt (confidence updated_intent) 0.7)%bool = false).
  { destruct Hweak as [-> | ->]; [ reflexivity | apply andb_false_r ]. }
  rewrite Htest. reflexivity.
Qed.

(** X14. When the re-extracted intent passes the test but its
    [datetime_str] is a text that [datetime.fromisoformat] refuses, the
    [ValueError] is caught: the handler apologises and leaves the pending
    entry as it is. *)
Theorem unparsable_time_reply_keeps_entry (user_message : string) (chat_id : Z)
    (context : Context) (w : World) (original_date : Datetime.datetime) :
  let updated_intent := reextracted E user_message context original_date w in
  parse_datetime_str (datetime_str (original_intent context)) = Some original_date ->
  has_specific_time updated_intent = true ->
  Float.gt (confidence updated_intent) 0.7 = true ->
  parse_datetime_str (datetime_str updated_intent) = None ->
  TelegramBot.handle_time_clarification_response E user_message chat_id context w =
  (Returned tt,
   log [ReplyText chat_id Msg.time_trouble;
        LLMCall (combined_message_of E user_message context original_date w)] w).
Proof.
  intros updated_intent Horig Htime Hconf Hbad.
  rewrite (handle_time_reply_unfold _ _ _ _ original_date Horig). cbv zeta.
  fold updated_intent. rewrite Htime, Hconf, Hbad. reflexivity.
Qed.

(** X15. The original [datetime_str] is parsed outside the [try]. When the
    pending time clarification holds an intent whose [datetime_str] is a
    text that [datetime.fromisoformat] refuses, every reply to it of at
    least two characters that is not taken for a new request raises
    [ValueError] out of [handle_message]: nothing is sent, the LLM is not
    called, and the entry stays until it expires or a new request replaces
    it. *)
Theorem unparsable_original_date_raises (chat_id : Z) (text : string) (w : World)
    (pending : Context) :
  (2 <= Str.len (Str.strip text))%nat ->
  conversation_context (swept E w) !! chat_id = Some pending ->
  waiting_for pending = time_clarification ->
  TelegramBot.looks_like_new_request (Str.strip text) = false ->
  parse_datetime_str (datetime_str (original_intent pending)) = None ->
  TelegramBot.handle_message E chat_id (Some text) w = (Raised ValueError, swept E w).
Proof.
  intros Hlen Hp Hkind Hreply Hbad.
  rewrite (handle_message_sweeps_first E chat_id text w Hlen).
  unfold TelegramBot.dispatch, bind, get_contexts. rewrite Hp, Hreply.
  unfold TelegramBot.handle_clarification_response, bind, get_contexts.
  rewrite Hp, Hkind.
  unfold TelegramBot.handle_time_clarification_response,
    TelegramBot.handle_time_clarification_response_with. rewrite Hbad.
  reflexivity.
Qed.

End TimeReplyOutcomes.

Lemma unclear_time_reply_keeps_entry_witness :
  let E := constant_env unsure_intent clear_sky in
  TelegramBot.handle_time_clarification_response E "hmm, not sure" 7 pending_run
    world_with_pending_run
  = (Returned tt,
     log [ReplyText 7 Msg.time_not_understood;
          LLMCall "I want to run tomorrow at hmm, not sure"] world_with_pending_run).
Proof.
  apply (unclear_time_reply_keeps_entry (constant_env unsure_intent clear_sky)
           "hmm, not sure" 7 pending_run world_with_pending_run
           {| Datetime.year := 2025; Datetime.month := 5; Datetime.day := 28;
              Datetime.hour := 0; Datetime.minute := 0; Datetime.second := 0;
              Datetime.microsecond := 0; Datetime.tzinfo := None |}).
  - vm_compute. reflexivity.
  - right. vm_compute. reflexivity.
Defined.

Lemma unparsable_time_reply_keeps_entry_witness :
  let E := constant_env run_at_a_vague_time clear_sky in
  TelegramBot.handle_time_clarification_response E "in the evening" 7 pending_run
    world_with_pending_run
  = (Returned tt,
     log [ReplyText 7 Msg.time_trouble;
          LLMCall "I want to run tomorrow at in the evening"] world_with_pending_run).
Proof.
  apply (unparsable_time_reply_keeps_entry (constant_env run_at_a_vague_time clear_sky)
           "in the evening" 7 pending_run world_with_pending_run
           {| Datetime.year := 2025; Datetime.month := 5; Datetime.day := 28;
              Datetime.hour := 0; Datetime.minute := 0; Datetime.second := 0;
              Datetime.microsecond := 0; Datetime.tzinfo := None |});
    vm_compute; reflexivity.
Defined.

Lemma unparsable_original_date_raises_witness :
  let E := constant_env run_at_six_on_the_28th clear_sky in
  TelegramBot.handle_message E 7 (Some "6pm") world_with_vague_day
  = (Raised ValueError, swept E world_with_vague_day).
Proof.
  apply (unparsable_original_date_raises (constant_env run_at_six_on_the_28th clear_sky)
           7 "6pm" world_with_vague_day pending_vague_day).
  - vm_compute. lia.
  - vm_compute. reflexivity.
  - reflexivity.
  - vm_compute. reflexivity.
  - vm_compute. reflexivity.
Defined.

(** ** The resumed run after a time reply *)

Section Resumed.

Variable E : Env.

Lemma del_context_logged (chat_id : Z) (c : Context) (events : list Event) (w : World) :
  conversation_context w !! chat_id = Some c ->
  del_context chat_id (log events w) =
  (Returned tt, without_context chat_id (log events w)).
Proof. intros H. apply (del_context_present chat_id c). exact H. Qed.

(** The resumed run when the intent extracted in it has no weather to
    block on: the entry is deleted and the response is sent. *)
Lemma resume_clears (combined_message : string) (chat_id : Z)
    (final_state : AgentState) (events : list Event) (w : World) (c : Context) :
  conversation_context w !! chat_id = Some c ->
  (needs_clarification final_state && TelegramBot.weather_is_rainy final_state)%bool
    = false ->
  (let* _ :=
     (if (needs_clarification final_state
          && TelegramBot.weather_is_rainy final_state)%bool
      then
        match intent final_state, weather final_state with
        | Some i, Some wd =>
            let* t := ticks in
            put_context chat_id
              {| original_intent := i; ctx_weather := Some wd;
                 waiting_for := weather_clarification;
                 timestamp := time_time E t |}
        | _, _ => raise AttributeError
        end
      else del_context chat_id) in
   reply_text chat_id (response_message final_state)) (log events w)
  = (Returned tt,
     {| conversation_context := delete chat_id (conversation_context w);
        trace := ReplyText chat_id (response_message final_state)
                   :: events ++ trace w |}).
Proof.
  intros Hc Htest. rewrite Htest. unfold bind.
  rewrite (del_context_logged chat_id c events w Hc). reflexivity.
Qed.

(** X16. After the run that a time reply resumes, the chat has no entry, or
    a weather clarification for a rainy forecast: the time clarification it
    answered never stays. The handler returns and sends exactly one reply,
    after the events of the run. *)
Theorem resumed_run_replaces_time_entry (combined_message : string) (chat_id : Z)
    (updated_intent : IntentExtraction) (w : World) (pending : Context) :
  conversation_context w !! chat_id = Some pending ->
  exists (w' : World) (text : string) (events : list Event),
    TelegramBot.resume_scheduling E combined_message chat_id updated_intent w
      = (Returned tt, w')
    /\ trace w' = ReplyText chat_id text :: events ++ trace w
    /\ replies events = []
    /\ (conversation_context w' = delete chat_id (conversation_context w)
        \/ exists (i : IntentExtraction) (wd : WeatherData) (t : nat),
             is_rainy wd = true
             /\ conversation_context w' =
                <[chat_id := stored E weather_clarification i (Some wd) t]>
                  (conversation_context w)).
Proof.
  intros Hp.
  unfold TelegramBot.resume_scheduling, TelegramBot.resume_scheduling_with,
    TelegramBot.settle_resumed_run.
  unfold bind at 1. rewrite ainvoke_extract.
  set (state := TelegramBot.make_state combined_message chat_id (Some updated_intent)).
  set (i := extracted E state w).
  pose proof (should_check_weather_sound (set_intent state (Some i))) as Hr.
  change (intent (set_intent state (Some i))) with (Some i) in Hr.
  destruct (should_check_weather (set_intent state (Some i))) eqn:Hroute;
    try solve [ inversion Hr ].
  - rewrite (run_check_weather E _ _ _ i) by reflexivity.
    unfold should_create_event. cbn [weather set_weather].
    destruct (is_rainy (fetched E i _)) eqn:Hrain; cbn [negb].
    + rewrite run_request_clarification, !log_log.
      cbn [needs_clarification weather intent set_needs_clarification
             set_response_message set_weather TelegramBot.weather_is_rainy andb].
      rewrite Hrain. cbv iota.
      eexists; eexists; eexists. split; [ reflexivity | ].
      split; [ reflexivity | ]. split; [ reflexivity | ].
      right. eexists; eexists; eexists. split; [ exact Hrain | reflexivity ].
    + rewrite (run_create_event E _ _ _ i) by reflexivity. rewrite !log_log.
      rewrite (resume_clears combined_message chat_id _ _ w pending Hp)
        by reflexivity.
      eexists; eexists; eexists. split; [ reflexivity | ].
      split; [ reflexivity | ]. split; [ reflexivity | now left ].
  - rewrite (run_weather_query E _ _ _ i) by reflexivity. rewrite !log_log.
    rewrite (resume_clears combined_message chat_id _ _ w pending Hp)
      by reflexivity.
    eexists; eexists; eexists. split; [ reflexivity | ].
    split; [ reflexivity | ]. split; [ reflexivity | now left ].
  - rewrite (run_request_time_clarification E _ _ _ i) by reflexivity.
    rewrite !log_log.
    rewrite (resume_clears combined_message chat_id _ _ w pending Hp)
      by reflexivity.
    eexists; eexists; eexists. split; [ reflexivity | ].
    split; [ reflexivity | ]. split; [ reflexivity | now left ].
  - rewrite run_request_clarification, !log_log.
    rewrite (resume_clears combined_message chat_id _ _ w pending Hp)
      by reflexivity.
    eexists; eexists; eexists. split; [ reflexivity | ].
    split; [ reflexivity | ]. split; [ reflexivity | now left ].
  - rewrite run_casual_conversation, !log_log.
    rewrite (resume_clears combined_message chat_id _ _ w pending Hp)
      by reflexivity.
    eexists; eexists; eexists. split; [ reflexivity | ].
    split; [ reflexivity | ]. split; [ reflexivity | now left ].
Qed.

(** X17. The resumed run extracts the intent anew. When that second
    extraction is clear but has no specific time, the bot asks the time
    question again and deletes the entry the answer would need: the next
    reply of the chat is a fresh request. *)
Theorem reasked_time_question_loses_its_entry (combined_message : string)
    (chat_id : Z) (updated_intent : IntentExtraction) (w : World)
    (pending : Context) :
  let i := GeminiClient.answer E (S (List.length (trace w))) combined_message in
  conversation_context w !! chat_id = Some pending ->
  Float.gt (confidence i) 0.5 = true ->
  activity i <> "unknown" -> activity i <> "casual conversation" ->
  is_weather_query i = false -> has_specific_time i = false ->
  TelegramBot.resume_scheduling E combined_message chat_id updated_intent w =
  (Returned tt,
   {| conversation_context := delete chat_id (conversation_context w);
      trace :=
        [ReplyText chat_id
           (Msg.time_question (activity i)
              (format_datetime_human_readable (datetime_str i)));
         Visit request_time_clarification; LLMCall combined_message;
         Visit extract_intent] ++ trace w |}).
Proof.
  intros i Hp Hg Hu Hc Hq Ht.
  unfold TelegramBot.resume_scheduling, TelegramBot.resume_scheduling_with,
    TelegramBot.settle_resumed_run.
  unfold bind at 1. rewrite ainvoke_extract.
  set (state := TelegramBot.make_state combined_message chat_id (Some updated_intent)).
  change (extracted E state w) with i.
  assert (Hroute : should_check_weather (set_intent state (Some i))
                   = request_time_clarification).
  { apply route_of. apply route_time_clarification; try assumption.
    - intros [Ha _]. contradiction.
    - repeat split; assumption. }
  rewrite Hroute.
  rewrite (run_request_time_clarification E _ _ _ i) by reflexivity.
  rewrite !log_log.
  rewrite (resume_clears combined_message chat_id _ _ w pending Hp) by reflexivity.
  reflexivity.
Qed.

End Resumed.

Lemma resumed_run_replaces_time_entry_witness :
  let E := constant_env run_at_six_on_the_28th light_rain in
  exists (w' : World) (text : string) (events : list Event),
    TelegramBot.resume_scheduling E "I want to run tomorrow at 6pm" 7
      run_at_six_on_the_28th world_with_pending_run
      = (Returned tt, w')
    /\ trace w' = ReplyText 7 text :: events ++ trace world_with_pending_run
    /\ replies events = []
    /\ (conversation_context w'
        = delete 7 (conversation_context world_with_pending_run)
        \/ exists (i : IntentExtraction) (wd : WeatherData) (t : nat),
             is_rainy wd = true
             /\ conversation_context w' =
                <[7 := stored E weather_clarification i (Some wd) t]>
                  (conversation_context world_with_pending_run)).
Proof.
  apply (resumed_run_replaces_time_entry
           (constant_env run_at_six_on_the_28th light_rain)
           "I want to run tomorrow at 6pm" 7 run_at_six_on_the_28th
           world_with_pending_run pending_run).
  vm_compute. reflexivity.
Defined.

Lemma reasked_time_question_loses_its_entry_witness :
  let E := constant_env (original_intent pending_run) clear_sky in
  let combined_message := "I want to run tomorrow at 6pm" in
  TelegramBot.resume_scheduling E combined_message 7 run_at_six_on_the_28th
    world_with_pending_run
  = (Returned tt,
     {| conversation_context := delete 7 (conversation_context world_with_pending_run);
        trace :=
          [ReplyText 7
             (Msg.time_question "run" (format_datetime_human_readable "2025-05-28"));
           Visit request_time_clarification; LLMCall combined_message;
           Visit extract_intent] |}).
Proof.
  apply (reasked_time_question_loses_its_entry
           (constant_env (original_intent pending_run) clear_sky)
           "I want to run tomorrow at 6pm" 7 run_at_six_on_the_28th
           world_with_pending_run pending_run); by_evaluation.
Defined.

(** ** Dates: what is kept, printed and named *)

Section Dates.

Import Datetime.

Lemma date_eqb_true (a b : date) : date_eqb a b = true -> a = b.
Proof.
  unfold date_eqb. intros H.
  apply andb_true_iff in H. destruct H as [H Hd].
  apply andb_true_iff in H. destruct H as [Hy Hm].
  apply Z.eqb_eq in Hy, Hm, Hd. destruct a, b. cbn in *. congruence.
Qed.

(** A valid date and time stays valid when its time of day is replaced by
    the hour and the minute of another valid one. *)
Lemma replace_valid (original_date updated_datetime : datetime) :
  valid original_date = true -> valid updated_datetime = true ->
  valid (replace original_date (hour updated_datetime) (minute updated_datetime) 0 0)
  = true.
Proof.
  intros Ho Hu. apply valid_fields in Ho, Hu.
  destruct Ho as (Hy & Hmo & Hd & _ & _ & _ & _ & Htz).
  destruct Hu as (_ & _ & _ & Hh & Hmi & _).
  unfold valid, replace, in_range.
  cbn [year month day hour minute second microsecond tzinfo].
  repeat (apply andb_true_iff; split); try (apply Z.leb_le; lia).
  destruct (tzinfo original_date); [ | reflexivity ].
  apply andb_true_iff. split; apply Z.leb_le; lia.
Qed.

(** X18. Whatever date the re-extraction gives, the intent that the handler
    resumes with reads back as a date and time on the original date, at the
    re-extracted hour and minute. When the dates already agree the intent is
    passed on unchanged, with its seconds. *)
Theorem resumed_intent_is_on_original_date (original_str : string)
    (original_date updated_datetime : datetime) (updated_intent : IntentExtraction) :
  parse_datetime_str original_str = Some original_date ->
  parse_datetime_str (datetime_str updated_intent) = Some updated_datetime ->
  exists dt : datetime,
    parse_datetime_str
      (datetime_str (TelegramBot.preserve_original_date original_date updated_datetime
                       updated_intent)) = Some dt
    /\ date_of dt = date_of original_date
    /\ hour dt = hour updated_datetime
    /\ minute dt = minute updated_datetime
    /\ (date_of updated_datetime = date_of original_date ->
        TelegramBot.preserve_original_date original_date updated_datetime updated_intent
        = updated_intent).
Proof.
  intros Ho Hu. unfold TelegramBot.preserve_original_date.
  destruct (date_eqb (date_of updated_datetime) (date_of original_date)) eqn:Hsame;
    cbn [negb].
  - apply date_eqb_true in Hsame. exists updated_datetime.
    split; [ exact Hu | ]. split; [ exact Hsame | ]. repeat split.
  - eexists. split.
    + unfold TelegramBot.set_datetime_str. cbn [datetime_str].
      apply parse_datetime_str_isoformat, replace_valid.
      * exact (fromisoformat_valid _ _ Ho).
      * exact (fromisoformat_valid _ _ Hu).
    + cbn. repeat split.
      intros Heq. rewrite Heq in Hsame.
      assert (Hrefl : date_eqb (date_of original_date) (date_of original_date) = true).
      { unfold date_eqb. rewrite !Z.eqb_refl. reflexivity. }
      congruence.
Qed.

(** X19. A date and time at hour 0 and minute 0 is printed as a date alone,
    whatever its seconds and its offset: midnight cannot be told from a date
    without a time, and the time question then names no time. *)
Theorem midnight_is_printed_as_a_date (dt : datetime) :
  valid dt = true ->
  hour dt = 0 -> minute dt = 0 ->
  format_datetime_human_readable (isoformat dt) =
  string_of_list_ascii (digits2 (day dt)) ++ " " ++ month_name (month dt)
    ++ " " ++ Str.of_Z (year dt).
Proof.
  intros Hv Hh Hm. unfold format_datetime_human_readable.
  rewrite (parse_datetime_str_isoformat dt Hv).
  unfold read_back. cbn [hour minute]. rewrite Hh, Hm. reflexivity.
Qed.

(** The weekday of a date a whole number of weeks away is the same. *)
Lemma day_name_weeks_apart (a b : date) (k : Z) :
  toordinal a = toordinal b + 7 * k -> day_name a = day_name b.
Proof.
  intros H. unfold day_name, weekday. rewrite H.
  replace (toordinal b + 7 * k + 6) with (toordinal b + 6 + k * 7) by lia.
  rewrite Z.mod_add by lia. reflexivity.
Qed.

Lemma date_eqb_days (a b : date) : date_eqb a b = true -> days_between a b = 0.
Proof. intros H. apply date_eqb_true in H. subst. unfold days_between. lia. Qed.

(** X20. For an original date more than one day away from today, the word
    that stands for it in the combined message is the name of its weekday.
    Two such dates a whole number of weeks apart get the same word: the
    combined message does not tell them apart. *)
Theorem date_reference_forgets_the_week (a b : datetime) (today : date) (k : Z) :
  toordinal (date_of a) = toordinal (date_of b) + 7 * k ->
  1 < Z.abs (days_between (date_of a) today) ->
  1 < Z.abs (days_between (date_of b) today) ->
  TelegramBot.date_reference a today = day_name (date_of a)
  /\ TelegramBot.date_reference b today = day_name (date_of b)
  /\ TelegramBot.date_reference a today = TelegramBot.date_reference b today.
Proof.
  intros Hweeks Ha Hb.
  assert (Href : forall d : datetime,
             1 < Z.abs (days_between (date_of d) today) ->
             TelegramBot.date_reference d today = day_name (date_of d)).
  { intros d Hd. unfold TelegramBot.date_reference.
    destruct (date_eqb (date_of d) today) eqn:Heq.
    { apply date_eqb_days in Heq. lia. }
    destruct (Z.eqb_spec (days_between (date_of d) today) 1); [ lia | ].
    destruct (Z.eqb_spec (days_between (date_of d) today) (-1)); [ lia | ].
    reflexivity. }
  rewrite (Href a Ha), (Href b Hb).
  repeat split. exact (day_name_weeks_apart _ _ k Hweeks).
Qed.

End Dates.

Lemma resumed_intent_is_on_original_date_witness :
  let original_date :=
    {| Datetime.year := 2025; Datetime.month := 5; Datetime.day := 28;
       Datetime.hour := 0; Datetime.minute := 0; Datetime.second := 0;
       Datetime.microsecond := 0; Datetime.tzinfo := None |} in
  let updated_datetime :=
    {| Datetime.year := 2025; Datetime.month := 5; Datetime.day := 27;
       Datetime.hour := 18; Datetime.minute := 0; Datetime.second := 0;
       Datetime.microsecond := 0; Datetime.tzinfo := None |} in
  exists dt : Datetime.datetime,
    parse_datetime_str
      (datetime_str (TelegramBot.preserve_original_date original_date updated_datetime
                       run_at_six_on_the_27th)) = Some dt
    /\ Datetime.date_of dt = Datetime.date_of original_date
    /\ Datetime.hour dt = Datetime.hour updated_datetime
    /\ Datetime.minute dt = Datetime.minute updated_datetime
    /\ (Datetime.date_of updated_datetime = Datetime.date_of original_date ->
        TelegramBot.preserve_original_date original_date updated_datetime
          run_at_six_on_the_27th
        = run_at_six_on_the_27th).
Proof.
  apply (resumed_intent_is_on_original_date "2025-05-28"
           {| Datetime.year := 2025; Datetime.month := 5; Datetime.day := 28;
              Datetime.hour := 0; Datetime.minute := 0; Datetime.second := 0;
              Datetime.microsecond := 0; Datetime.tzinfo := None |}
           {| Datetime.year := 2025; Datetime.month := 5; Datetime.day := 27;
              Datetime.hour := 18; Datetime.minute := 0; Datetime.second := 0;
              Datetime.microsecond := 0; Datetime.tzinfo := None |}
           run_at_six_on_the_27th);
    vm_compute; reflexivity.
Defined.

Lemma midnight_is_printed_as_a_date_witness :
  Datetime.isoformat just_after_midnight = "2025-05-28T00:00:30"
  /\ format_datetime_human_readable (Datetime.isoformat just_after_midnight)
     = "28 May 2025".
Proof.
  split; [ reflexivity | ].
  apply (midnight_is_printed_as_a_date just_after_midnight); reflexivity.
Defined.

Lemma date_reference_forgets_the_week_witness :
  let today := {| Datetime.d_year := 2025; Datetime.d_month := 5; Datetime.d_day := 27 |} in
  TelegramBot.date_reference (noon_in_june 3) today
    = Datetime.day_name (Datetime.date_of (noon_in_june 3))
  /\ TelegramBot.date_reference (noon_in_june 10) today
     = Datetime.day_name (Datetime.date_of (noon_in_june 10))
  /\ TelegramBot.date_reference (noon_in_june 3) today
     = TelegramBot.date_reference (noon_in_june 10) today.
Proof.
  apply (date_reference_forgets_the_week (noon_in_june 3) (noon_in_june 10)
           {| Datetime.d_year := 2025; Datetime.d_month := 5; Datetime.d_day := 27 |}
           (-1)); vm_compute; reflexivity.
Defined.

(** ** Conversations do not interfere *)

Section Isolation.

Variable E : Env.
Variable chat_id : Z.

Lemma touches_ret {A} (a : A) : touches_only chat_id (ret a).
Proof. intros w k _. reflexivity. Qed.

Lemma touches_raise {A} (e : Exn) : touches_only chat_id (@raise A e).
Proof. intros w k _. reflexivity. Qed.

Lemma touches_emit (e : Event) : touches_only chat_id (emit e).
Proof. intros w k _. reflexivity. Qed.

Lemma touches_reply (text : string) : touches_only chat_id (reply_text chat_id text).
Proof. apply touches_emit. Qed.

Lemma touches_bind {A B} (c : M A) (k : A -> M B) :
  touches_only chat_id c -> (forall a, touches_only chat_id (k a)) ->
  touches_only chat_id (bind c k).
Proof.
  intros Hc Hk w j Hj. unfold bind.
  specialize (Hc w j Hj). destruct (c w) as [[a | e] w']; cbn [snd] in *.
  - rewrite (Hk a w' j Hj). exact Hc.
  - exact Hc.
Qed.

Lemma touches_try_except {A} (body : M A) (handler : Exn -> M A) :
  touches_only chat_id body -> (forall e, touches_only chat_id (handler e)) ->
  touches_only chat_id (try_except body handler).
Proof.
  intros Hb Hh w j Hj. unfold try_except.
  specialize (Hb w j Hj). destruct (body w) as [[a | e] w']; cbn [snd] in *.
  - exact Hb.
  - rewrite (Hh e w' j Hj). exact Hb.
Qed.

Lemma touches_put (c : Context) : touches_only chat_id (put_context chat_id c).
Proof.
  intros w k Hk. cbn. apply lookup_insert_ne. congruence.
Qed.

Lemma touches_del : touches_only chat_id (del_context chat_id).
Proof.
  intros w k Hk. unfold del_context, bind, get_contexts.
  destruct (conversation_context w !! chat_id); cbn; [ | reflexivity ].
  apply lookup_delete_ne. congruence.
Qed.

Lemma touches_ainvoke (state : AgentState) :
  touches_only chat_id (ainvoke (create_agent_workflow E) state).
Proof. intros w k _. rewrite ainvoke_keeps_contexts. reflexivity. Qed.

Lemma touches_store (final_state : AgentState) :
  touches_only chat_id (TelegramBot.store_clarification_context E chat_id final_state).
Proof.
  unfold TelegramBot.store_clarification_context.
  destruct (intent final_state) as [i | ]; [ | apply touches_ret ].
  destruct (needs_clarification final_state); [ | apply touches_ret ].
  destruct (_ && _)%bool.
  - apply touches_bind; [ intros w k _; reflexivity | intros t; apply touches_put ].
  - destruct (weather final_state) as [wd | ]; [ | apply touches_ret ].
    destruct (_ && _)%bool; [ | apply touches_ret ].
    apply touches_bind; [ intros w k _; reflexivity | intros t; apply touches_put ].
Qed.

Lemma touches_run_new_request (user_message : string) :
  touches_only chat_id (TelegramBot.run_new_request E user_message chat_id).
Proof.
  unfold TelegramBot.run_new_request.
  apply touches_try_except; [ | intros e; apply touches_reply ].
  apply touches_bind; [ apply touches_ainvoke | intros final_state ].
  apply touches_bind; [ apply touches_store | intros _; apply touches_reply ].
Qed.

Lemma touches_weather_reply (user_message : string) (context : Context) :
  touches_only chat_id
    (TelegramBot.handle_weather_clarification_response E user_message chat_id context).
Proof.
  unfold TelegramBot.handle_weather_clarification_response.
  assert (Hfinish : forall text,
             touches_only chat_id
               (let* _ := del_context chat_id in reply_text chat_id text)).
  { intros text. apply touches_bind; [ apply touches_del | intros _; apply touches_reply ]. }
  destruct (Str.any_in _ _).
  { apply touches_bind.
    - intros w k _. reflexivity.
    - intros success. destruct success; apply Hfinish. }
  destruct (Str.any_in _ _); [ apply Hfinish | ].
  destruct (Str.any_in _ _); [ apply Hfinish | apply touches_reply ].
Qed.

Lemma touches_resume (combined_message : string) (i : IntentExtraction) :
  touches_only chat_id (TelegramBot.resume_scheduling E combined_message chat_id i).
Proof.
  unfold TelegramBot.resume_scheduling, TelegramBot.resume_scheduling_with,
    TelegramBot.settle_resumed_run.
  apply touches_bind; [ apply touches_ainvoke | intros final_state ].
  apply touches_bind; [ | intros _; apply touches_reply ].
  destruct (_ && _)%bool; [ | apply touches_del ].
  destruct (intent final_state) as [i' | ]; [ | apply touches_raise ].
  destruct (weather final_state) as [wd | ]; [ | apply touches_raise ].
  apply touches_bind; [ intros w k _; reflexivity | intros t; apply touches_put ].
Qed.

Lemma touches_time_reply (user_message : string) (context : Context) :
  touches_only chat_id
    (TelegramBot.handle_time_clarification_response E user_message chat_id context).
Proof.
  unfold TelegramBot.handle_time_clarification_response,
    TelegramBot.handle_time_clarification_response_with.
  destruct (parse_datetime_str _); [ | apply touches_raise ].
  apply touches_bind; [ intros w k _; reflexivity | intros t ].
  apply touches_try_except; [ | intros e; apply touches_reply ].
  apply touches_bind; [ intros w k _; reflexivity | intros updated_intent ].
  destruct (_ && _)%bool; [ | apply touches_reply ].
  destruct (parse_datetime_str _); [ apply touches_resume | apply touches_raise ].
Qed.

Lemma touches_dispatch (user_message : string) :
  touches_only chat_id (TelegramBot.dispatch E user_message chat_id).
Proof.
  unfold TelegramBot.dispatch.
  apply touches_bind; [ intros w k _; reflexivity | intros contexts ].
  destruct (contexts !! chat_id); [ | apply touches_run_new_request ].
  destruct (TelegramBot.looks_like_new_request user_message).
  - apply touches_bind; [ apply touches_del | intros _; apply touches_run_new_request ].
  - unfold TelegramBot.handle_clarification_response.
    apply touches_bind; [ intros w k _; reflexivity | intros contexts' ].
    destruct (contexts' !! chat_id) as [context | ]; [ | apply touches_raise ].
    destruct (waiting_for context);
      [ apply touches_time_reply | apply touches_weather_reply ].
Qed.

End Isolation.

Section IsolationOfHandler.

Variable E : Env.

(** X21. Handling a message of one chat changes the entries of the other
    chats only through the sweep: whatever the message, the pending entry
    and the answers of the collaborators, every other chat has afterwards
    the entry the sweep left it, and an entry that has not expired is
    exactly as before. *)
Theorem other_conversations_are_untouched (chat_id other : Z) (text : option string)
    (w : World) :
  other <> chat_id ->
  let after := conversation_context (snd (TelegramBot.handle_message E chat_id text w)) in
  (after !! other = conversation_context w !! other
   \/ after !! other = conversation_context (swept E w) !! other)
  /\ (forall c,
        conversation_context w !! other = Some c ->
        TelegramBot.expired (time_time E (List.length (trace w))) c = false ->
        after !! other = Some c).
Proof.
  intros Hother after.
  assert (Hcases : after !! other = conversation_context w !! other
                   \/ after !! other = conversation_context (swept E w) !! other).
  { subst after. unfold TelegramBot.handle_message.
    destruct text as [text | ]; [ | now left ].
    destruct (String.eqb text ""); [ now left | ].
    destruct (Nat.ltb _ 2); [ now left | ].
    right. unfold bind at 1. rewrite cleanup_old_contexts_run.
    apply touches_dispatch. exact Hother. }
  split; [ exact Hcases | ].
  intros c Hc Hfresh.
  destruct Hcases as [-> | ->]; [ exact Hc | ].
  unfold swept. cbn [conversation_context].
  rewrite lookup_swept, Hc, Hfresh. reflexivity.
Qed.

End IsolationOfHandler.

Lemma other_conversations_are_untouched_witness :
  let E := constant_env run_at_six_on_the_27th clear_sky in
  let after :=
    conversation_context
      (snd (TelegramBot.handle_message E 7 (Some "6pm") world_with_two_chats)) in
  (after !! 8 = conversation_context world_with_two_chats !! 8
   \/ after !! 8 = conversation_context (swept E world_with_two_chats) !! 8)
  /\ (forall c,
        conversation_context world_with_two_chats !! 8 = Some c ->
        TelegramBot.expired (time_time E (List.length (trace world_with_two_chats))) c
          = false ->
        after !! 8 = Some c).
Proof.
  apply (other_conversations_are_untouched
           (constant_env run_at_six_on_the_27th clear_sky) 7 8 (Some "6pm")
           world_with_two_chats).
  lia.
Defined.

(** ** Inside the weather client *)

Section WeatherClientBody.

Variable api : nat -> OpenWeatherMap.Api.
Variable E : Env.

(** X22. [is_rainy] is never taken from the provider: whatever the
    endpoints answer, and also when the client falls back, the weather the
    client returns is rainy exactly when its description, lower-cased,
    contains "rain", "drizzle" or "shower". *)
Theorem is_rainy_follows_description (t : nat) (datetime_str location : string) :
  let wd := WeatherClient.forecast (OpenWeatherMap.env_with api E) t datetime_str
              location in
  is_rainy wd = Str.any_in ["rain"; "drizzle"; "shower"] (Str.lower (description wd)).
Proof.
  cbv zeta. unfold WeatherClient.forecast, OpenWeatherMap.env_with.
  cbn [openweathermap]. unfold OpenWeatherMap.try_body.
  destruct (parse_datetime_str datetime_str) as [target | ]; [ | reflexivity ].
  destruct (OpenWeatherMap.days_between target _) as [days | ]; [ | reflexivity ].
  destruct (days <=? 5).
  - destruct (OpenWeatherMap.closest_forecast _ _ _) as [[r | ] | ];
      try reflexivity.
    destruct (OpenWeatherMap.current_weather _ _); reflexivity.
  - destruct (OpenWeatherMap.current_weather _ _); reflexivity.
Qed.

(** The client falls back when the target carries an offset. *)
Lemma aware_target_falls_back (t : nat) (datetime_str location : string)
    (target_dt : Datetime.datetime) (offset : Z) :
  Datetime.tzinfo (datetime_now E t) = None ->
  parse_datetime_str datetime_str = Some target_dt ->
  Datetime.tzinfo target_dt = Some offset ->
  WeatherClient.forecast (OpenWeatherMap.env_with api E) t datetime_str location
  = WeatherClient.fallback_weather.
Proof.
  intros Hnow Hparse Haware.
  unfold WeatherClient.forecast, OpenWeatherMap.env_with. cbn [openweathermap].
  unfold OpenWeatherMap.try_body, OpenWeatherMap.days_between.
  rewrite Hparse, Haware, Hnow. reflexivity.
Qed.



(** X25. A clear request with a time of day whose [datetime_str] carries an
    offset is always scheduled: the weather check falls back to the clear
    sky, so the calendar is called whatever the weather is. *)
Theorem aware_request_is_never_blocked_by_rain (user_message : string) (chat_id : Z)
    (w : World) (target_dt : Datetime.datetime) (offset : Z) :
  let E' := OpenWeatherMap.env_with api E in
  let i := GeminiClient.answer E' (S (List.length (trace w))) user_message in
  schedulable i ->
  Datetime.tzinfo (datetime_now E (3 + List.length (trace w))) = None ->
  parse_datetime_str (datetime_str i) = Some target_dt ->
  Datetime.tzinfo target_dt = Some offset ->
  TelegramBot.run_new_request E' user_message chat_id w =
  (Returned tt,
   log [ReplyText chat_id
          (if google_calendar E (5 + List.length (trace w)) i
           then Msg.scheduled (activity i)
                  (format_datetime_human_readable (datetime_str i))
           else Msg.calendar_failed);
        CalendarCall (Some i); Visit create_event;
        ForecastCall (datetime_str i) (or_singapore (location i));
        Visit check_weather; LLMCall user_message; Visit extract_intent] w).
Proof.
  intros E' i Hs Hnow Hparse Haware.
  rewrite (run_new_request_schedulable E' user_message chat_id w i eq_refl Hs).
  cbv zeta.
  assert (Hw : fetched E' i (log [LLMCall user_message; Visit extract_intent] w)
               = WeatherClient.fallback_weather).
  { unfold fetched. cbn [log trace app List.length].
    apply (aware_target_falls_back _ _ _ target_dt offset); assumption. }
  rewrite Hw. reflexivity.
Qed.

End WeatherClientBody.



Lemma aware_request_is_never_blocked_by_rain_witness :
  let E :=
    OpenWeatherMap.env_with (fun _ : nat => showers_ahead)
      (constant_env run_at_six_singapore_time light_rain) in
  let user_message := "run tomorrow at 6pm" in
  TelegramBot.run_new_request E user_message 7 empty_world =
  (Returned tt,
   log [ReplyText 7
          (Msg.scheduled "run"
             (format_datetime_human_readable "2025-05-28T18:00:00+08:00"));
        CalendarCall (Some run_at_six_singapore_time); Visit create_event;
        ForecastCall "2025-05-28T18:00:00+08:00" "Singapore";
        Visit check_weather; LLMCall user_message; Visit extract_intent] empty_world).
Proof.
  apply (aware_request_is_never_blocked_by_rain (fun _ : nat => showers_ahead)
           (constant_env run_at_six_singapore_time light_rain)
           "run tomorrow at 6pm" 7 empty_world
           {| Datetime.year := 2025; Datetime.month := 5; Datetime.day := 28;
              Datetime.hour := 18; Datetime.minute := 0; Datetime.second := 0;
              Datetime.microsecond := 0; Datetime.tzinfo := Some 28800000000 |}
           28800000000);
    by_evaluation.
Defined.

(** ** Start-up checks *)

Section StartUp.

(** X26. Keys that [setup.py] accepts are keys that [main.py] starts with:
    when [check_api_keys] returns true, [main] starts the bot, with the
    Telegram token of the environment, which is not empty. *)
Theorem configured_keys_start_the_bot (dotenv_installed : bool) (environ : Environ) :
  SetupPy.check_api_keys dotenv_installed environ = true ->
  exists token,
    environ "TELEGRAM_BOT_TOKEN" = Some token /\ token <> ""
    /\ MainPy.main environ = Some token.
Proof.
  unfold SetupPy.check_api_keys.
  destruct dotenv_installed; [ | discriminate ].
  unfold SetupPy.missing_keys, SetupPy.required_keys, SetupPy.not_configured.
  cbn [List.filter fst snd map].
  unfold MainPy.main, MainPy.missing_vars, MainPy.required_vars, getenv_truthy.
  cbn [List.filter].
  destruct (environ "TELEGRAM_BOT_TOKEN") as [token | ]; [ | discriminate ].
  destruct (String.eqb token "") eqn:Ht; [ discriminate | ].
  destruct (environ "GEMINI_API_KEY") as [gemini | ];
    [ | destruct (Str.startswith "your_" token); discriminate ].
  destruct (String.eqb gemini "") eqn:Hg;
    [ destruct (Str.startswith "your_" token); discriminate | ].
  destruct (environ "OPENWEATHER_API_KEY") as [weather | ];
    [ | destruct (Str.startswith "your_" token), (Str.startswith "your_" gemini);
        discriminate ].
  destruct (String.eqb weather "") eqn:Hw;
    [ destruct (Str.startswith "your_" token), (Str.startswith "your_" gemini);
      discriminate | ].
  intros _. exists token. cbn [negb].
  split; [ reflexivity | ]. split; [ | reflexivity ].
  apply String.eqb_neq. exact Ht.
Qed.

(** X27. The converse fails for every placeholder. [main] only tests that
    the variables are set: with a Telegram token that starts with "your_",
    as in the file that [create_env_file] writes, [check_api_keys] returns
    false and [main] starts the bot all the same, with the placeholder as
    its token. *)
Theorem placeholder_token_starts_the_bot (dotenv_installed : bool)
    (environ : Environ) (token : string) :
  environ "TELEGRAM_BOT_TOKEN" = Some token ->
  Str.startswith "your_" token = true ->
  getenv_truthy environ "GEMINI_API_KEY" = true ->
  getenv_truthy environ "OPENWEATHER_API_KEY" = true ->
  SetupPy.check_api_keys dotenv_installed environ = false
  /\ MainPy.main environ = Some token.
Proof.
  intros Ht Hyour Hg Hw. split.
  - unfold SetupPy.check_api_keys.
    destruct dotenv_installed; [ | reflexivity ].
    unfold SetupPy.missing_keys, SetupPy.required_keys, SetupPy.not_configured.
    cbn [List.filter fst snd map]. rewrite Ht, Hyour, orb_true_r. reflexivity.
  - assert (Hset : getenv_truthy environ "TELEGRAM_BOT_TOKEN" = true).
    { unfold getenv_truthy. rewrite Ht.
      destruct token; [ discriminate Hyour | reflexivity ]. }
    unfold MainPy.main, MainPy.missing_vars, MainPy.required_vars.
    cbn [List.filter]. rewrite Hset, Hg, Hw. exact Ht.
Qed.

(** X28. [main] starts the bot exactly when the three required variables
    are set to non-empty values; otherwise it returns without starting it,
    and the variables it reports are the unset or empty ones, in the order
    of the list. *)
Theorem main_starts_iff_all_set (environ : Environ) :
  ((exists token, MainPy.main environ = Some token)
   <-> forall var, In var MainPy.required_vars -> getenv_truthy environ var = true)
  /\ (forall var,
        In var (MainPy.missing_vars environ)
        <-> In var MainPy.required_vars /\ getenv_truthy environ var = false).
Proof.
  assert (Hmissing : forall var,
             In var (MainPy.missing_vars environ)
             <-> In var MainPy.required_vars /\ getenv_truthy environ var = false).
  { intros var. unfold MainPy.missing_vars. rewrite filter_In, negb_true_iff.
    reflexivity. }
  split; [ | exact Hmissing ].
  unfold MainPy.main. split.
  - intros (token & Hrun) var Hvar.
    destruct (MainPy.missing_vars environ) as [ | v l] eqn:Hm; [ | discriminate ].
    destruct (getenv_truthy environ var) eqn:Hset; [ reflexivity | ].
    exfalso. exact (proj2 (Hmissing var) (conj Hvar Hset)).
  - intros Hall.
    destruct (MainPy.missing_vars environ) as [ | v l] eqn:Hm.
    + pose proof (Hall "TELEGRAM_BOT_TOKEN" ltac:(cbn; tauto)) as Ht.
      unfold getenv_truthy in Ht.
      destruct (environ "TELEGRAM_BOT_TOKEN") as [token | ]; [ | discriminate ].
      exists token. reflexivity.
    + exfalso. destruct (proj1 (Hmissing v) (or_introl eq_refl)) as [Hreq Hunset].
      rewrite (Hall v Hreq) in Hunset. discriminate.
Qed.

End StartUp.

Lemma configured_keys_start_the_bot_witness :
  exists token,
    configured_environ "TELEGRAM_BOT_TOKEN" = Some token /\ token <> ""
    /\ MainPy.main configured_environ = Some token.
Proof.
  apply (configured_keys_start_the_bot true configured_environ).
  reflexivity.
Defined.

Lemma placeholder_token_starts_the_bot_witness :
  SetupPy.check_api_keys true placeholder_environ = false
  /\ MainPy.main placeholder_environ = Some "your_telegram_bot_token_here".
Proof.
  apply (placeholder_token_starts_the_bot true placeholder_environ
           "your_telegram_bot_token_here"); reflexivity.
Defined.
